(** * ChEMBL data processing: a shallow embedding

    Model of [src/utils/chembl_data_processing.py]: the cache loader
    [retrieve_or_create_dataframe_from_query], the table cleaner
    [preprocess_queried_dataset], the structure flattener
    [extract_smiles_from_molecular_representation] and the orchestrator
    [get_bioactivity_compound_data], together with the part of
    pandas / the Python runtime those four functions call.

    Organisation:
    - [Py]      Python values, exceptions, the float64 conversions, [repr],
                [ast.literal_eval], [os.path.join];
    - [Pandas]  data frames and the pandas operations used by the source;
    - [IO]      the world (cache files, directories, remote calls, stdout)
                and the state-and-exception monad the source runs in;
    - the four source functions;
    - the properties. *)

From Stdlib Require Import ZArith List Bool Lia Ascii String SpecFloat DecimalString.
From stdpp Require Import gmap strings.
Import ListNotations.

#[local] Set Warnings "-register-all".
#[local] Open Scope string_scope.
#[local] Open Scope list_scope.
#[local] Open Scope Z_scope.

(* ================================================================== *)
(** * Python values and exceptions *)
(* ================================================================== *)

Module Py.

(** The exceptions that the modelled code can raise. *)
Inductive Exn :=
| KeyError | AssertionError | TypeError | ValueError | IndexError
| OverflowError | SyntaxError
| FileNotFoundError | FileExistsError | IsADirectoryError | OSError
| EmptyDataError | RemoteError.

Definition Exn_eqb (a b : Exn) : bool :=
  match a, b with
  | KeyError, KeyError | AssertionError, AssertionError
  | TypeError, TypeError | ValueError, ValueError
  | IndexError, IndexError | OverflowError, OverflowError
  | SyntaxError, SyntaxError
  | FileNotFoundError, FileNotFoundError
  | FileExistsError, FileExistsError
  | IsADirectoryError, IsADirectoryError | OSError, OSError
  | EmptyDataError, EmptyDataError | RemoteError, RemoteError => true
  | _, _ => false
  end.

(** Outcome of a Python computation: a value or a raised exception. *)
Inductive Result (A : Type) :=
| Ok (a : A)
| Raise (e : Exn).
Arguments Ok {A} a.
Arguments Raise {A} e.

Definition rbind {A B} (r : Result A) (k : A -> Result B) : Result B :=
  match r with
  | Ok a => k a
  | Raise e => Raise e
  end.

Fixpoint rmap_list {A B} (f : A -> Result B) (l : list A) : Result (list B) :=
  match l with
  | [] => Ok []
  | a :: l' =>
      rbind (f a) (fun b => rbind (rmap_list f l') (fun bs => Ok (b :: bs)))
  end.

(** A cell or record value.  Floats are IEEE binary64 numbers in the
    representation of [SpecFloat]; [VFloat S754_nan] is NaN. *)
Inductive Value :=
| VNone
| VBool (b : bool)
| VInt (z : Z)
| VFloat (f : spec_float)
| VStr (s : string)
| VList (l : list Value)
| VDict (d : list (string * Value)).

Definition NaN : Value := VFloat S754_nan.

(** ** binary64 *)

Definition prec : Z := 53.
Definition emax : Z := 1024.

(** The float nearest to the integer [z] (ties to even). *)
Definition float_of_Z (z : Z) : spec_float := binary_normalize prec emax z 0 false.

(** The float nearest to [n / d] for positive [n], [d]: the quotient is
    taken with at least 64 significant bits and the position of the
    remainder decides the rounding. *)
Definition float_of_ratio (neg : bool) (n d : Z) : spec_float :=
  let s := Z.max 0 (64 + Z.log2 d - Z.log2 n) in
  let q := (n * 2 ^ s) / d in
  let r := (n * 2 ^ s) mod d in
  let loc := if r =? 0 then loc_Exact else loc_Inexact (2 * r ?= d) in
  binary_round_aux prec emax neg q (- s) loc.

Definition float_is_inf (f : spec_float) : bool :=
  match f with S754_infinity _ => true | _ => false end.

(** [Some z] when the float is the integer [z]. *)
Definition float_to_Z_exact (f : spec_float) : option Z :=
  match f with
  | S754_zero _ => Some 0
  | S754_finite s m e =>
      let z := if s then Z.neg m else Z.pos m in
      if 0 <=? e then Some (z * 2 ^ e)
      else if (Z.pos m) mod 2 ^ (- e) =? 0 then Some (z / 2 ^ (- e))
      else None
  | _ => None
  end.

(** ** Missing values: [pandas.isna] on a scalar *)

Definition isna (v : Value) : bool :=
  match v with
  | VNone => true
  | VFloat S754_nan => true
  | _ => false
  end.

(** ** Hashable values as pandas groups them

    [drop_duplicates] and [merge] factorize the key column: missing values
    form one class, numbers are compared by value across [bool], [int]
    and [float] (as Python's [==] and [hash] do), strings by content.
    Lists and dicts are unhashable. *)
Inductive Key :=
| KNA
| KInt (z : Z)
| KFloat (f : spec_float)
| KStr (s : string).

Definition key_of (v : Value) : Result Key :=
  match v with
  | VNone => Ok KNA
  | VBool b => Ok (KInt (if b then 1 else 0))
  | VInt z => Ok (KInt z)
  | VFloat S754_nan => Ok KNA
  | VFloat f =>
      match float_to_Z_exact f with
      | Some z => Ok (KInt z)
      | None => Ok (KFloat f)
      end
  | VStr s => Ok (KStr s)
  | VList _ | VDict _ => Raise TypeError
  end.

Definition sf_eqb (f g : spec_float) : bool :=
  match f, g with
  | S754_zero a, S754_zero b => Bool.eqb a b
  | S754_infinity a, S754_infinity b => Bool.eqb a b
  | S754_nan, S754_nan => true
  | S754_finite a m e, S754_finite b m' e' =>
      Bool.eqb a b && Pos.eqb m m' && Z.eqb e e'
  | _, _ => false
  end.

Definition Key_eqb (a b : Key) : bool :=
  match a, b with
  | KNA, KNA => true
  | KInt x, KInt y => Z.eqb x y
  | KFloat f, KFloat g => sf_eqb f g
  | KStr s, KStr t => String.eqb s t
  | _, _ => false
  end.

(** [cell == s] for a string [s], as the element-wise comparison of a
    column with a string evaluates it: only an equal string is equal. *)
Definition eq_str (v : Value) (s : string) : bool :=
  match v with
  | VStr t => String.eqb t s
  | _ => false
  end.

(** ** Characters and small string utilities *)

Definition chars (s : string) : list ascii := list_ascii_of_string s.
Definition unchars (l : list ascii) : string := string_of_list_ascii l.

Definition code (c : ascii) : Z := Z.of_nat (nat_of_ascii c).
Definition chr (z : Z) : ascii := ascii_of_nat (Z.to_nat z).

Definition is_digit (c : ascii) : bool := (48 <=? code c) && (code c <=? 57).
Definition digit_val (c : ascii) : Z := code c - 48.

(** The ASCII characters [str.strip()] removes. *)
Definition is_space (c : ascii) : bool :=
  let n := code c in (n =? 32) || ((9 <=? n) && (n <=? 13)).

Definition lower (c : ascii) : ascii :=
  let n := code c in if (65 <=? n) && (n <=? 90) then chr (n + 32) else c.

Fixpoint lstrip (l : list ascii) : list ascii :=
  match l with
  | c :: l' => if is_space c then lstrip l' else l
  | [] => []
  end.

Definition strip (l : list ascii) : list ascii := rev (lstrip (rev (lstrip l))).

Definition chars_eqb (a b : list ascii) : bool :=
  String.eqb (unchars a) (unchars b).

Definition string_of_Z (z : Z) : string := NilZero.string_of_int (Z.to_int z).

Definition digits_to_Z (ds : list Z) : Z := fold_left (fun acc d => 10 * acc + d) ds 0.

(** A run of decimal digits; a single underscore is allowed between two
    digits (PEP 515).  Returns the digits and the unread rest. *)
Fixpoint scan_digits (prev_digit : bool) (cs : list ascii) : list Z * list ascii :=
  match cs with
  | c :: cs' =>
      if is_digit c then
        let '(ds, rest) := scan_digits true cs' in (digit_val c :: ds, rest)
      else if (code c =? 95) && prev_digit
              && match cs' with c' :: _ => is_digit c' | [] => false end
      then scan_digits false cs'
      else ([], cs)
  | [] => ([], [])
  end.

Definition scan_sign (cs : list ascii) : bool * list ascii :=
  match cs with
  | c :: cs' =>
      if code c =? 45 then (true, cs')
      else if code c =? 43 then (false, cs')
      else (false, cs)
  | [] => (false, [])
  end.

(** ** [float(s)] for a string [s]

    Optional surrounding whitespace, an optional sign, then [inf],
    [infinity] or [nan] in any case, or a decimal number with optional
    fraction and exponent.  The result is the correctly rounded binary64
    number; anything else raises [ValueError]. *)
Definition float_of_decimal (neg : bool) (m : Z) (d : Z) : spec_float :=
  if m =? 0 then S754_zero neg
  else
    if 310 <? 3 * Z.log2 m / 10 + d then S754_infinity neg
    else if 31 * (Z.log2 m + 1) / 100 + 1 + d <? -330 then S754_zero neg
    else if 0 <=? d then float_of_ratio neg (m * 10 ^ d) 1
    else float_of_ratio neg m (10 ^ (- d)).

Definition float_of_chars (cs0 : list ascii) : Result spec_float :=
  let '(neg, cs) := scan_sign (strip cs0) in
  let word := map lower cs in
  if chars_eqb word (chars "inf") || chars_eqb word (chars "infinity")
  then Ok (S754_infinity neg)
  else if chars_eqb word (chars "nan") then Ok S754_nan
  else
    let '(ip, r1) := scan_digits false cs in
    let '(fp, r2) :=
      match r1 with
      | c :: r1' => if code c =? 46 then scan_digits false r1' else ([], r1)
      | [] => ([], [])
      end in
    match ip ++ fp with
    | [] => Raise ValueError
    | _ =>
        let m := digits_to_Z (ip ++ fp) in
        let d := - Z.of_nat (length fp) in
        match r2 with
        | [] => Ok (float_of_decimal neg m d)
        | c :: r2' =>
            if (code c =? 101) || (code c =? 69) then
              let '(eneg, r3) := scan_sign r2' in
              match scan_digits false r3 with
              | ((_ :: _) as ed, []) =>
                  let e := digits_to_Z ed in
                  Ok (float_of_decimal neg m (d + if eneg then - e else e))
              | _ => Raise ValueError
              end
            else Raise ValueError
        end
    end.

Definition float_of_string (s : string) : Result spec_float := float_of_chars (chars s).

(** ** Conversion of one cell to float64, as [astype("float64")] on an
    object column converts it: [None] becomes NaN, numbers are converted,
    a string goes through [float], anything else is a [TypeError]. *)
Definition to_float64 (v : Value) : Result Value :=
  match v with
  | VNone => Ok NaN
  | VBool b => Ok (VFloat (float_of_Z (if b then 1 else 0)))
  | VInt z =>
      let f := float_of_Z z in
      if float_is_inf f then Raise OverflowError else Ok (VFloat f)
  | VFloat f => Ok (VFloat f)
  | VStr s => rbind (float_of_string s) (fun f => Ok (VFloat f))
  | VList _ | VDict _ => Raise TypeError
  end.

(** ** [repr] of a float: the shortest decimal that reads back *)

Fixpoint pow10_floor (fuel : nat) (p num den : Z) : Z :=
  match fuel with
  | O => p
  | S fuel' =>
      if (if 0 <=? p then 10 ^ p * den <=? num else den <=? num * 10 ^ (- p))
      then p else pow10_floor fuel' (p - 1) num den
  end.

(** The exponent [p] with [10^p <= num/den < 10^(p+1)]. *)
Definition log10_floor (num den : Z) : Z :=
  pow10_floor 8 ((Z.log2 num - Z.log2 den) * 30103 / 100000 + 2) num den.

(** [num/den] scaled by [10^(-k)], as floor and ties-to-even rounding. *)
Definition scaled (num den k : Z) : Z * Z :=
  let '(n, d) := if 0 <=? k then (num, den * 10 ^ k) else (num * 10 ^ (- k), den) in
  let q := n / d in
  let r := n mod d in
  match 2 * r ?= d with
  | Lt => (q, q)
  | Gt => (q, q + 1)
  | Eq => (q, if Z.even q then q else q + 1)
  end.

Fixpoint shortest (fuel : nat) (n : Z) (m : positive) (e : Z) (num den p : Z) : Z * Z :=
  let k := p - n + 1 in
  let '(lo, near) := scaled num den k in
  let far := if lo =? near then lo + 1 else lo in
  let reads d := sf_eqb (float_of_decimal false d k) (S754_finite false m e) in
  match fuel with
  | O => (near, k)
  | S fuel' =>
      if reads near then (near, k)
      else if reads far then (far, k)
      else shortest fuel' (n + 1) m e num den p
  end.

Fixpoint strip_zeros (fuel : nat) (d k : Z) : Z * Z :=
  match fuel with
  | O => (d, k)
  | S fuel' => if (d mod 10 =? 0) && negb (d =? 0) then strip_zeros fuel' (d / 10) (k + 1) else (d, k)
  end.

Definition zeros (n : Z) : string := unchars (repeat "0"%char (Z.to_nat n)).

Definition str_take (n : Z) (s : string) : string := unchars (firstn (Z.to_nat n) (chars s)).
Definition str_drop (n : Z) (s : string) : string := unchars (skipn (Z.to_nat n) (chars s)).

(** The digits [ds] with the decimal point after [decpt] of them, as
    [repr] lays them out. *)
Definition layout (ds : string) (decpt : Z) : string :=
  let n := Z.of_nat (String.length ds) in
  if (decpt <=? -4) || (16 <? decpt) then
    let ex := decpt - 1 in
    let exs := string_of_Z (Z.abs ex) in
    str_take 1 ds +:+ (if 1 <? n then "." +:+ str_drop 1 ds else "")
      +:+ "e" +:+ (if ex <? 0 then "-" else "+")
      +:+ (if Z.abs ex <? 10 then "0" else "") +:+ exs
  else if decpt <=? 0 then "0." +:+ zeros (- decpt) +:+ ds
  else if decpt <? n then str_take decpt ds +:+ "." +:+ str_drop decpt ds
  else ds +:+ zeros (decpt - n) +:+ ".0".

Definition repr_float (f : spec_float) : string :=
  match f with
  | S754_nan => "nan"
  | S754_infinity s => if s then "-inf" else "inf"
  | S754_zero s => if s then "-0.0" else "0.0"
  | S754_finite s m e =>
      let '(num, den) := if 0 <=? e then (Z.pos m * 2 ^ e, 1) else (Z.pos m, 2 ^ (- e)) in
      let p := log10_floor num den in
      let '(d, k) := shortest 17 1 m e num den p in
      let '(d, k) := strip_zeros 20 d k in
      let ds := string_of_Z d in
      (if s then "-" else "") +:+ layout ds (Z.of_nat (String.length ds) + k)
  end.

(** ** [repr] of strings and of values *)

Definition hex_digit (n : Z) : ascii := if n <? 10 then chr (48 + n) else chr (87 + n).

Definition repr_char (quote : ascii) (c : ascii) : list ascii :=
  let n := code c in
  if Ascii.eqb c quote || (n =? 92) then [chr 92; c]
  else if n =? 9 then chars "\t"
  else if n =? 10 then chars "\n"
  else if n =? 13 then chars "\r"
  else if (n <? 32) || (n =? 127) then
    chars "\x" ++ [hex_digit (n / 16); hex_digit (n mod 16)]
  else [c].

(** Single quotes, unless the string has a single quote and no double one. *)
Definition repr_str (s : string) : string :=
  let cs := chars s in
  let quote :=
    if existsb (fun c => code c =? 39) cs && negb (existsb (fun c => code c =? 34) cs)
    then chr 34 else chr 39 in
  unchars (quote :: flat_map (repr_char quote) cs ++ [quote]).

Fixpoint join (sep : string) (l : list string) : string :=
  match l with
  | [] => ""
  | [x] => x
  | x :: l' => x +:+ sep +:+ join sep l'
  end.

Fixpoint repr (v : Value) : string :=
  match v with
  | VNone => "None"
  | VBool b => if b then "True" else "False"
  | VInt z => string_of_Z z
  | VFloat f => repr_float f
  | VStr s => repr_str s
  | VList l => "[" +:+ join ", " (map repr l) +:+ "]"
  | VDict d =>
      "{" +:+ join ", " (map (fun kv => repr_str (fst kv) +:+ ": " +:+ repr (snd kv)) d) +:+ "}"
  end.

(** ** Dictionaries: insertion-ordered, one entry per key *)

Fixpoint dict_get (k : string) (d : list (string * Value)) : option Value :=
  match d with
  | [] => None
  | (k', v) :: d' => if String.eqb k k' then Some v else dict_get k d'
  end.

Fixpoint dict_set (k : string) (v : Value) (d : list (string * Value))
  : list (string * Value) :=
  match d with
  | [] => [(k, v)]
  | (k', v') :: d' =>
      if String.eqb k k' then (k, v) :: d' else (k', v') :: dict_set k v d'
  end.

(** [v[k]] for a string [k]: only a dict can be subscripted by a name. *)
Definition getitem (v : Value) (k : string) : Result Value :=
  match v with
  | VDict d =>
      match dict_get k d with
      | Some x => Ok x
      | None => Raise KeyError
      end
  | _ => Raise TypeError
  end.

Definition is_dict (v : Value) : bool :=
  match v with VDict _ => true | _ => false end.

(** ** [ast.literal_eval]

    The literals read here: [None], [True], [False], decimal integers and
    floats with an optional sign, strings in single or double quotes
    with the common backslash escapes, lists, and dicts whose keys are
    strings.  Other input raises, as a malformed literal does.  Only a
    string is parsed: any other argument is a malformed node. *)

Definition hex_val (c : ascii) : option Z :=
  let n := code (lower c) in
  if is_digit c then Some (n - 48)
  else if (97 <=? n) && (n <=? 102) then Some (n - 87)
  else None.

Fixpoint scan_string (q : ascii) (cs : list ascii) : Result (list ascii * list ascii) :=
  let cons c r := rbind r (fun sr => Ok (c :: fst sr, snd sr)) in
  match cs with
  | [] => Raise SyntaxError
  | c :: cs' =>
      if Ascii.eqb c q then Ok ([], cs')
      else if code c =? 10 then Raise SyntaxError
      else if code c =? 92 then
        match cs' with
        | [] => Raise SyntaxError
        | e :: cs'' =>
            let n := code e in
            if n =? 110 then cons (chr 10) (scan_string q cs'')
            else if n =? 116 then cons (chr 9) (scan_string q cs'')
            else if n =? 114 then cons (chr 13) (scan_string q cs'')
            else if (n =? 92) || (n =? 39) || (n =? 34) then cons e (scan_string q cs'')
            else if n =? 120 then
              match cs'' with
              | h1 :: h2 :: cs3 =>
                  match hex_val h1, hex_val h2 with
                  | Some a, Some b => cons (chr (16 * a + b)) (scan_string q cs3)
                  | _, _ => Raise SyntaxError
                  end
              | _ => Raise SyntaxError
              end
            else cons c (cons e (scan_string q cs''))
        end
      else cons c (scan_string q cs')
  end.

Definition is_num_char (c : ascii) : bool :=
  let n := code c in
  is_digit c || (n =? 46) || (n =? 95) || (n =? 101) || (n =? 69) || (n =? 43) || (n =? 45).

Fixpoint span (f : ascii -> bool) (cs : list ascii) : list ascii * list ascii :=
  match cs with
  | c :: cs' => if f c then let '(a, b) := span f cs' in (c :: a, b) else ([], cs)
  | [] => ([], [])
  end.

(** A number after its optional sign. *)
Definition scan_number (neg : bool) (cs : list ascii) : Result (Value * list ascii) :=
  let '(tok, rest) := span is_num_char cs in
  match tok with
  | c :: _ =>
      if is_digit c || (code c =? 46) then
        match scan_digits false tok with
        | ((d :: ds') as ds, []) =>
            let z := digits_to_Z ds in
            if (d =? 0) && negb (z =? 0) then Raise SyntaxError
            else Ok (VInt (if neg then - z else z), rest)
        | _ =>
            match float_of_chars tok with
            | Ok f => Ok (VFloat (if neg then SFopp f else f), rest)
            | Raise _ => Raise SyntaxError
            end
        end
      else Raise ValueError
  | [] => Raise SyntaxError
  end.

Definition starts_with (pre cs : list ascii) : option (list ascii) :=
  if chars_eqb (firstn (length pre) cs) pre then Some (skipn (length pre) cs) else None.

Definition is_name_char (c : ascii) : bool :=
  let n := code (lower c) in is_digit c || ((97 <=? n) && (n <=? 122)) || (n =? 95).

Definition scan_name (cs : list ascii) : Result (Value * list ascii) :=
  let '(tok, rest) := span is_name_char cs in
  if chars_eqb tok (chars "None") then Ok (VNone, rest)
  else if chars_eqb tok (chars "True") then Ok (VBool true, rest)
  else if chars_eqb tok (chars "False") then Ok (VBool false, rest)
  else match tok with [] => Raise SyntaxError | _ => Raise ValueError end.

Fixpoint parse_value (fuel : nat) (cs0 : list ascii) : Result (Value * list ascii) :=
  match fuel with
  | O => Raise ValueError
  | S fuel' =>
      match lstrip cs0 with
      | [] => Raise SyntaxError
      | c :: cs =>
          let n := code c in
          if n =? 91 then
            rbind (parse_items fuel' cs) (fun lr => Ok (VList (fst lr), snd lr))
          else if n =? 123 then
            rbind (parse_pairs fuel' cs) (fun dr => Ok (VDict (fst dr), snd dr))
          else if (n =? 39) || (n =? 34) then
            rbind (scan_string c cs) (fun sr => Ok (VStr (unchars (fst sr)), snd sr))
          else if n =? 45 then scan_number true cs
          else if n =? 43 then scan_number false cs
          else if is_digit c || (n =? 46) then scan_number false (c :: cs)
          else scan_name (c :: cs)
      end
  end
with parse_items (fuel : nat) (cs0 : list ascii) : Result (list Value * list ascii) :=
  match fuel with
  | O => Raise ValueError
  | S fuel' =>
      match lstrip cs0 with
      | [] => Raise SyntaxError
      | c :: cs =>
          if code c =? 93 then Ok ([], cs)
          else
            rbind (parse_value fuel' (c :: cs)) (fun vr =>
              match lstrip (snd vr) with
              | c' :: cs' =>
                  if code c' =? 44 then
                    rbind (parse_items fuel' cs') (fun lr => Ok (fst vr :: fst lr, snd lr))
                  else if code c' =? 93 then Ok ([fst vr], cs')
                  else Raise SyntaxError
              | [] => Raise SyntaxError
              end)
      end
  end
with parse_pairs (fuel : nat) (cs0 : list ascii) : Result (list (string * Value) * list ascii) :=
  match fuel with
  | O => Raise ValueError
  | S fuel' =>
      match lstrip cs0 with
      | [] => Raise SyntaxError
      | c :: cs =>
          if code c =? 125 then Ok ([], cs)
          else
            rbind (parse_value fuel' (c :: cs)) (fun kr =>
              match fst kr, lstrip (snd kr) with
              | VStr k, c1 :: cs1 =>
                  if code c1 =? 58 then
                    rbind (parse_value fuel' cs1) (fun vr =>
                      match lstrip (snd vr) with
                      | c' :: cs' =>
                          if code c' =? 44 then
                            rbind (parse_pairs fuel' cs') (fun dr =>
                              Ok ((k, fst vr) :: fst dr, snd dr))
                          else if code c' =? 125 then Ok ([(k, fst vr)], cs')
                          else Raise SyntaxError
                      | [] => Raise SyntaxError
                      end)
                  else Raise SyntaxError
              | VStr _, [] => Raise SyntaxError
              | _, _ => Raise ValueError
              end)
      end
  end.

(** Later entries of a dict display replace earlier ones with the same key. *)
Fixpoint normalize (fuel : nat) (v : Value) : Value :=
  match fuel with
  | O => v
  | S fuel' =>
      match v with
      | VList l => VList (map (normalize fuel') l)
      | VDict d =>
          VDict (fold_left (fun acc kv => dict_set (fst kv) (normalize fuel' (snd kv)) acc) d [])
      | _ => v
      end
  end.

Definition literal_eval (v : Value) : Result Value :=
  match v with
  | VStr s =>
      let cs := chars s in
      let fuel := (2 * length cs + 4)%nat in
      rbind (parse_value fuel cs) (fun vr =>
        match lstrip (snd vr) with
        | [] => Ok (normalize fuel (fst vr))
        | _ => Raise SyntaxError
        end)
  | _ => Raise ValueError
  end.

(** ** Paths *)

(** [os.path.join(a, b)] *)
Definition path_join (a b : string) : string :=
  match chars b with
  | c :: _ => if code c =? 47 then b else
      match rev (chars a) with
      | [] => b
      | l :: _ => if code l =? 47 then a +:+ b else a +:+ "/" +:+ b
      end
  | [] =>
      match rev (chars a) with
      | [] => b
      | l :: _ => if code l =? 47 then a else a +:+ "/"
      end
  end.

Fixpoint strip_slashes (r : list ascii) : list ascii :=
  match r with
  | c :: r' => if code c =? 47 then strip_slashes r' else r
  | [] => []
  end.

(** A path without its trailing slashes (the root stays). *)
Definition norm_path (p : string) : string :=
  match chars p with
  | [] => ""
  | cs => match strip_slashes (rev cs) with
          | [] => "/"
          | r => unchars (rev r)
          end
  end.

Fixpoint drop_last_component (r : list ascii) : list ascii :=
  match r with
  | c :: r' => if code c =? 47 then r else drop_last_component r'
  | [] => []
  end.

(** The directory a file path lies in; the empty string is the current
    directory. *)
Definition parent_dir (p : string) : string :=
  match drop_last_component (rev (chars (norm_path p))) with
  | [] => ""
  | r => norm_path (unchars (rev r))
  end.

End Py.

(* ================================================================== *)
(** * Data frames and the pandas operations the source uses *)
(* ================================================================== *)

Module Pandas.
Import Py.

(** A row: its index label and one cell per column. *)
Record Row := { label : Z; cells : list Value }.

(** A data frame: column names and rows, in order.  A name is looked
    up at its first position; the frames the program builds from
    records have distinct names. *)
Record DataFrame := { columns : list string; rows : list Row }.

(** [len(df)] *)
Definition len (df : DataFrame) : Z := Z.of_nat (length (rows df)).

(** [name in df.columns] *)
Definition has_column (name : string) (df : DataFrame) : bool :=
  existsb (String.eqb name) (columns df).

(** Position of the first column called [name]. *)
Fixpoint col_index (name : string) (cols : list string) : option nat :=
  match cols with
  | [] => None
  | c :: cols' =>
      if String.eqb name c then Some O
      else option_map S (col_index name cols')
  end.

(** The cell of row [r] at position [i]. *)
Definition cell (i : nat) (r : Row) : Value := nth i (cells r) NaN.

Definition set_cell (i : nat) (v : Value) (r : Row) : Row :=
  {| label := label r; cells := <[i := v]> (cells r) |}.

Definition with_rows (df : DataFrame) (rs : list Row) : DataFrame :=
  {| columns := columns df; rows := rs |}.

(** ** [df.astype({c: "float64" for c in cols})]

    Every listed name must be a column ([KeyError] otherwise); then the
    listed columns are converted one after the other in the frame's
    column order, each from its first row to its last. *)
Definition astype_cell (i : nat) (r : Row) : Result Row :=
  rbind (to_float64 (cell i r)) (fun v => Ok (set_cell i v r)).

Fixpoint astype_from (i : nat) (names cols : list string) (rs : list Row)
  : Result (list Row) :=
  match names with
  | [] => Ok rs
  | c :: names' =>
      rbind (if existsb (String.eqb c) cols
             then rmap_list (astype_cell i) rs else Ok rs)
            (astype_from (S i) names' cols)
  end.

Definition astype_float64 (cols : list string) (df : DataFrame) : Result DataFrame :=
  if forallb (fun c => has_column c df) cols
  then rbind (astype_from O (columns df) cols (rows df))
             (fun rs => Ok (with_rows df rs))
  else Raise KeyError.

(** ** [df.dropna(axis=0, how="any")]: rows with a missing cell go. *)
Definition complete (r : Row) : bool := forallb (fun v => negb (isna v)) (cells r).

Definition dropna (df : DataFrame) : DataFrame :=
  with_rows df (List.filter complete (rows df)).

(** ** [df[df[name] == s]] for a column [name] at position [i]. *)
Definition select_eq (i : nat) (s : string) (df : DataFrame) : DataFrame :=
  with_rows df (List.filter (fun r => eq_str (cell i r) s) (rows df)).

(** ** [df.drop_duplicates(subset, keep="first")]

    An empty frame (no row or no column) is returned as it is.  Otherwise
    the column must exist ([KeyError]) and hold hashable values
    ([TypeError]); a row is dropped when an earlier row has the same key. *)
Fixpoint keep_first (seen : list Key) (krs : list (Key * Row)) : list Row :=
  match krs with
  | [] => []
  | (k, r) :: krs' =>
      if existsb (Key_eqb k) seen then keep_first seen krs'
      else r :: keep_first (k :: seen) krs'
  end.

Definition row_key (i : nat) (r : Row) : Result (Key * Row) :=
  rbind (key_of (cell i r)) (fun k => Ok (k, r)).

Definition empty (df : DataFrame) : bool :=
  match columns df, rows df with
  | [], _ | _, [] => true
  | _, _ => false
  end.

Definition drop_duplicates (subset : string) (df : DataFrame) : Result DataFrame :=
  if empty df then Ok df
  else match col_index subset (columns df) with
       | None => Raise KeyError
       | Some i =>
           rbind (rmap_list (row_key i) (rows df))
                 (fun krs => Ok (with_rows df (keep_first [] krs)))
       end.

(** ** [df.reset_index(drop=True)]: labels become 0, 1, 2, ... *)
Fixpoint relabel (n : Z) (rs : list Row) : list Row :=
  match rs with
  | [] => []
  | r :: rs' => {| label := n; cells := cells r |} :: relabel (n + 1) rs'
  end.

Definition reset_index (df : DataFrame) : DataFrame :=
  with_rows df (relabel 0 (rows df)).

(** ** [df.iloc[0]]: the first row, [IndexError] when there is none. *)
Definition iloc0 (df : DataFrame) : Result Row :=
  match rows df with
  | r :: _ => Ok r
  | [] => Raise IndexError
  end.

(** ** [df[name] = df[name].apply(f)] for the column at position [i]. *)
Definition apply_cell (f : Value -> Result Value) (i : nat) (r : Row) : Result Row :=
  rbind (f (cell i r)) (fun v => Ok (set_cell i v r)).

Definition apply_column (f : Value -> Result Value) (i : nat) (df : DataFrame)
  : Result DataFrame :=
  rbind (rmap_list (apply_cell f i) (rows df)) (fun rs => Ok (with_rows df rs)).

(** ** [df[name] = values] for a list with one value per row: an
    existing column is overwritten in place, a new one is added last. *)
Definition append_cell (cols : nat) (v : Value) (r : Row) : Row :=
  {| label := label r;
     cells := firstn cols (cells r ++ repeat NaN cols) ++ [v] |}.

Fixpoint zip_with {A B C} (f : A -> B -> C) (l : list A) (l' : list B) : list C :=
  match l, l' with
  | a :: l, b :: l' => f a b :: zip_with f l l'
  | _, _ => []
  end.

Definition set_column (name : string) (values : list Value) (df : DataFrame)
  : DataFrame :=
  match col_index name (columns df) with
  | Some i =>
      with_rows df (zip_with (fun v r => set_cell i v r) values (rows df))
  | None =>
      {| columns := columns df ++ [name];
         rows := zip_with (append_cell (length (columns df))) values (rows df) |}
  end.

(** ** [df.drop(names, axis=1)]: every name must be a column
    ([KeyError]); the columns so named are removed. *)
Fixpoint select {A} (mask : list bool) (l : list A) : list A :=
  match mask, l with
  | b :: mask', x :: l' => if b then x :: select mask' l' else select mask' l'
  | _, _ => []
  end.

Definition drop_mask (names : list string) (cols : list string) : list bool :=
  map (fun c => negb (existsb (String.eqb c) names)) cols.

Definition select_cells (mask : list bool) (r : Row) : Row :=
  {| label := label r; cells := select mask (cells r) |}.

Definition drop_columns (names : list string) (df : DataFrame) : Result DataFrame :=
  if forallb (fun c => has_column c df) names then
    let mask := drop_mask names (columns df) in
    Ok {| columns := select mask (columns df);
          rows := map (select_cells mask) (rows df) |}
  else Raise KeyError.

(** ** [df[[c1; c2; ...]]]: the listed columns, in the listed order. *)
Definition getitem_columns (names : list string) (df : DataFrame) : Result DataFrame :=
  rbind (rmap_list (fun c => match col_index c (columns df) with
                             | Some i => Ok i
                             | None => Raise KeyError
                             end) names)
        (fun idx =>
           Ok {| columns := names;
                 rows := map (fun r => {| label := label r;
                                          cells := map (fun i => cell i r) idx |})
                             (rows df) |}).

(** ** [pd.merge(left, right, on=key)]: the inner join

    The key must be a column of both frames.  A column name other than
    the key that occurs on both sides gets the suffix [_x] on the left
    and [_y] on the right.  Rows follow the order of the left frame and,
    for one left row, the order of the matching right rows; a result row
    holds the left cells, then the right cells without the key.  The
    result is indexed from zero. *)
Definition suffixed (key suffix : string) (other : list string) (c : string) : string :=
  if negb (String.eqb c key) && existsb (String.eqb c) other then c +:+ suffix else c.

Definition merge_columns (key : string) (lcols rcols : list string) : list string :=
  map (suffixed key "_x" rcols) lcols
  ++ map (suffixed key "_y" lcols) (select (drop_mask [key] rcols) rcols).

Definition join_row (mask : list bool) (l r : Row) : Row :=
  {| label := 0; cells := cells l ++ select mask (cells r) |}.

Definition matches (mask : list bool) (rkeyed : list (Key * Row)) (kl : Key * Row)
  : list Row :=
  map (fun kr => join_row mask (snd kl) (snd kr))
      (List.filter (fun kr => Key_eqb (fst kl) (fst kr)) rkeyed).

Definition merge (left right : DataFrame) (key : string) : Result DataFrame :=
  match col_index key (columns left), col_index key (columns right) with
  | Some i, Some j =>
      rbind (rmap_list (row_key i) (rows left)) (fun lk =>
      rbind (rmap_list (row_key j) (rows right)) (fun rk =>
        let mask := drop_mask [key] (columns right) in
        Ok {| columns := merge_columns key (columns left) (columns right);
              rows := relabel 0 (flat_map (matches mask rk) lk) |}))
  | _, _ => Raise KeyError
  end.

(** ** [pd.DataFrame.from_records(records)] for a list of dicts: the
    columns are the keys in order of first appearance; a record without
    a key has NaN there. *)
Definition Record_ := list (string * Value).

Fixpoint union_keys (seen : list string) (recs : list Record_) : list string :=
  match recs with
  | [] => seen
  | r :: recs' =>
      union_keys
        (fold_left (fun acc kv =>
                      if existsb (String.eqb (fst kv)) acc then acc else acc ++ [fst kv])
                   r seen)
        recs'
  end.

Definition record_cells (cols : list string) (r : Record_) : list Value :=
  map (fun c => match dict_get c r with Some v => v | None => NaN end) cols.

Definition from_records (recs : list Record_) : DataFrame :=
  let cols := union_keys [] recs in
  {| columns := cols;
     rows := relabel 0 (map (fun r => {| label := 0; cells := record_cells cols r |}) recs) |}.

End Pandas.

(* ================================================================== *)
(** * The world the program runs in *)
(* ================================================================== *)

Module IO.
Import Py Pandas.

(** A cache file, read at the level of CSV fields: the header line and
    the records below it. *)
Record CsvFile := { header : list string; records : list (list string) }.

(** What the program prints: each message with the numbers it shows. *)
Inductive Printed :=
| PStage (title : string)
| PInitial (n : Z)
| PNaNs (removed now : Z)
| PUnits (removed now : Z)
| PDuplicates (removed now : Z)
| PSamples (n : Z)
| PFinal (n : Z).

(** Cache files and directories by path, the number of queries sent to
    the remote database so far, and the printed messages (oldest first). *)
Record World := {
  files : gmap string CsvFile;
  dirs : gset string;
  remote_calls : nat;
  stdout : list Printed
}.

(** Computations that read and change the world and may raise. *)
Definition M (A : Type) : Type := World -> Result A * World.

#[global] Instance M_ret : MRet M := fun A a w => (Ok a, w).
#[global] Instance M_bind : MBind M := fun A B k m w =>
  match m w with
  | (Ok a, w') => k a w'
  | (Raise e, w') => (Raise e, w')
  end.

Definition lift {A} (r : Result A) : M A := fun w => (r, w).

Definition print (p : Printed) : M unit := fun w =>
  (Ok tt, {| files := files w; dirs := dirs w;
             remote_calls := remote_calls w; stdout := stdout w ++ [p] |}).

(** [try: body  except exn: handler] *)
Definition try_except {A} (body : M A) (exn : Exn) (handler : M A) : M A :=
  fun w =>
    match body w with
    | (Raise e, w') => if Exn_eqb e exn then handler w' else (Raise e, w')
    | ok => ok
    end.

(** ** The remote database

    A query set is lazy: iterating over it sends the request.  Its
    answer is the list of records, or the error the request ends in. *)
Definition QuerySet := Result (list Record_).

(** [pd.DataFrame.from_records(query)] *)
Definition fetch_records (query : QuerySet) : M DataFrame := fun w =>
  (rbind query (fun recs => Ok (from_records recs)),
   {| files := files w; dirs := dirs w;
      remote_calls := S (remote_calls w); stdout := stdout w |}).

(** ** Directories *)

Definition is_dir (w : World) (d : string) : bool :=
  String.eqb d "" || bool_decide (norm_path d ∈ dirs w).

(** [os.path.exists(p)] *)
Definition path_exists (p : string) : M bool := fun w =>
  (Ok (negb (String.eqb p "")
       && (bool_decide (norm_path p ∈ dirs w) || bool_decide (is_Some (files w !! p)))), w).

(** [os.mkdir(p)] *)
Definition mkdir (p : string) : M unit := fun w =>
  if String.eqb p "" then (Raise FileNotFoundError, w)
  else if bool_decide (norm_path p ∈ dirs w) || bool_decide (is_Some (files w !! p))
  then (Raise FileExistsError, w)
  else if is_dir w (parent_dir p) then
    (Ok tt, {| files := files w; dirs := {[norm_path p]} ∪ dirs w;
               remote_calls := remote_calls w; stdout := stdout w |})
  else (Raise FileNotFoundError, w).

(** ** [df.to_csv(path)]

    The header is an empty field for the index and then the column
    names; each record is the row's label and then its cells: nothing
    for a missing value, a string as it is, [repr] for the rest. *)
Definition csv_field (v : Value) : string :=
  if isna v then ""
  else match v with
       | VStr s => s
       | _ => repr v
       end.

Definition csv_of (df : DataFrame) : CsvFile :=
  {| header := "" :: columns df;
     records := map (fun r => string_of_Z (label r) :: map csv_field (cells r)) (rows df) |}.

Definition to_csv (df : DataFrame) (path : string) : M unit := fun w =>
  if negb (is_dir w (parent_dir path)) then (Raise OSError, w)
  else if bool_decide (norm_path path ∈ dirs w) then (Raise IsADirectoryError, w)
  else (Ok tt, {| files := <[path := csv_of df]> (files w); dirs := dirs w;
                  remote_calls := remote_calls w; stdout := stdout w |}).

(** ** [pd.read_csv(path)]

    A header field left empty at position [i] is named [Unnamed: i].
    Each column gets one type from all of its fields: integers, floats
    (when some field is a float or is missing), booleans, or text; a
    field in the list of missing-value spellings reads as NaN.  A record
    shorter than the header is filled with missing values; a longer one
    is a parse error.  Header names are taken as they are written: the
    renaming of a repeated name is not modelled. *)
Definition na_values : list string :=
  [""; "#N/A"; "#N/A N/A"; "#NA"; "-1.#IND"; "-1.#QNAN"; "-NaN"; "-nan";
   "1.#IND"; "1.#QNAN"; "<NA>"; "N/A"; "NA"; "NULL"; "NaN"; "None";
   "n/a"; "nan"; "null"].

Definition is_na_text (s : string) : bool := existsb (String.eqb s) na_values.

Definition int_of_text (s : string) : option Z :=
  let '(neg, cs) := scan_sign (strip (chars s)) in
  match cs with
  | [] => None
  | _ =>
      if forallb is_digit cs then
        let z := digits_to_Z (map digit_val cs) in
        let z := if neg then - z else z in
        if (- 2 ^ 63 <=? z) && (z <? 2 ^ 63) then Some z else None
      else None
  end.

Definition float_of_text (s : string) : option spec_float :=
  if existsb (fun c => code c =? 95) (chars s) then None
  else match float_of_string s with
       | Ok f => Some f
       | Raise _ => None
       end.

Definition bool_of_text (s : string) : option bool :=
  if existsb (String.eqb s) ["True"; "TRUE"; "true"] then Some true
  else if existsb (String.eqb s) ["False"; "FALSE"; "false"] then Some false
  else None.

Inductive Kind := KindInt | KindFloat | KindBool | KindText.

Definition infer_kind (fields : list string) : Kind :=
  let present := List.filter (fun s => negb (is_na_text s)) fields in
  let full := (length present =? length fields)%nat in
  if forallb (fun s => bool_decide (is_Some (int_of_text s))) present then
    if full && negb (length fields =? 0)%nat then KindInt else KindFloat
  else if forallb (fun s => bool_decide (is_Some (float_of_text s))) present then KindFloat
  else if full && forallb (fun s => bool_decide (is_Some (bool_of_text s))) present
  then KindBool
  else KindText.

Definition read_field (k : Kind) (s : string) : Value :=
  if is_na_text s then NaN
  else match k with
       | KindInt => match int_of_text s with Some z => VInt z | None => VStr s end
       | KindFloat => match float_of_text s with Some f => VFloat f | None => VStr s end
       | KindBool => match bool_of_text s with Some b => VBool b | None => VStr s end
       | KindText => VStr s
       end.

Fixpoint header_names (i : Z) (hd : list string) : list string :=
  match hd with
  | [] => []
  | h :: hd' =>
      (if String.eqb h "" then "Unnamed: " +:+ string_of_Z i else h)
        :: header_names (i + 1) hd'
  end.

Definition pad (n : nat) (rec : list string) : list string :=
  firstn n (rec ++ repeat "" n).

Fixpoint column_kinds (j : nat) (n : nat) (recs : list (list string)) : list Kind :=
  match n with
  | O => []
  | S n' => infer_kind (map (fun rec => nth j rec "") recs) :: column_kinds (S j) n' recs
  end.

Definition parse_csv (f : CsvFile) : Result DataFrame :=
  let n := length (header f) in
  if (n =? 0)%nat then Raise EmptyDataError
  else if forallb (fun rec => (length rec <=? n)%nat) (records f) then
    let kinds := column_kinds O n (records f) in
    Ok {| columns := header_names 0 (header f);
          rows := relabel 0 (map (fun rec => {| label := 0;
                                                cells := zip_with read_field kinds (pad n rec) |})
                                 (records f)) |}
  else Raise ValueError.

Definition read_csv (path : string) : M DataFrame := fun w =>
  match files w !! path with
  | Some f => (parse_csv f, w)
  | None =>
      if bool_decide (norm_path path ∈ dirs w) then (Raise IsADirectoryError, w)
      else (Raise FileNotFoundError, w)
  end.

End IO.

Import Py Pandas IO.

(* ================================================================== *)
(** * The table cleaner: [preprocess_queried_dataset] *)
(* ================================================================== *)

(** The source works on its frame in place ([dropna], [drop_duplicates]
    and [reset_index] are called with [inplace=True]) and returns it; the
    model returns that frame.  Each [print] is a message on [stdout]. *)
Definition preprocess_queried_dataset
    (df : DataFrame) (columns_to_float : option (list string))
    (drop_na drop_duplicates reset_index : bool)
    (standard_unit : option string) : M DataFrame :=
  let n_samples := len df in
  print (PInitial n_samples);;
  (* Convert standard_value's datatype from object to float *)
  df ← match columns_to_float with
       | Some cols => lift (astype_float64 cols df)
       | None => mret df
       end;
  (* Delete entries with missing values *)
  '(df, n_samples) ←
    (if drop_na then
       let df := dropna df in
       print (PNaNs (n_samples - len df) (len df));;
       mret (df, len df)
     else mret (df, n_samples));
  (* 3 Keep only entries with standard_unit *)
  '(df, n_samples) ←
    match standard_unit with
    | Some unit =>
        if negb (String.eqb unit "all") then
          match col_index "standard_units" (columns df) with
          | None => lift (Raise AssertionError)
          | Some i =>
              let df := select_eq i unit df in
              print (PUnits (n_samples - len df) (len df));;
              mret (df, len df)
          end
        else mret (df, n_samples)
    | None => mret (df, n_samples)
    end;
  (* Delete duplicate molecules *)
  '(df, n_samples) ←
    (if drop_duplicates then
       df ← lift (Pandas.drop_duplicates "molecule_chembl_id" df);
       print (PDuplicates (n_samples - len df) (len df));;
       mret (df, len df)
     else mret (df, n_samples));
  (* Reset DataFrame index *)
  let df := if reset_index then Pandas.reset_index df else df in
  print (PSamples n_samples);;
  mret df.

(* ================================================================== *)
(** * The cache loader: [retrieve_or_create_dataframe_from_query] *)
(* ================================================================== *)

Definition retrieve_or_create_dataframe_from_query
    (query : QuerySet) (data_path query_name target_name : string)
    (save_df : bool) : M DataFrame :=
  let data_file_path :=
    path_join data_path (target_name +:+ "_" +:+ query_name +:+ ".csv") in
  try_except
    (* Try loading saved data *)
    (df ← read_csv data_file_path;
     lift (drop_columns ["Unnamed: 0"] df))
    FileNotFoundError
    (* Or load into a dataframe and save the data *)
    (df ← fetch_records query;
     (if save_df then
        present ← path_exists data_path;
        (if negb present then mkdir data_path else mret tt);;
        to_csv df data_file_path
      else mret tt);;
     mret df).

(* ================================================================== *)
(** * The structure flattener:
      [extract_smiles_from_molecular_representation] *)
(* ================================================================== *)

Definition extract_smiles_from_molecular_representation (df : DataFrame)
  : M DataFrame :=
  match col_index "molecule_structures" (columns df) with
  | None => lift (Raise AssertionError)
  | Some i =>
      (* Convert strings to dictionaries if needed *)
      first ← lift (iloc0 df);
      df ← (if negb (is_dict (cell i first))
            then lift (apply_column literal_eval i df)
            else mret df);
      (* Keep only SMILES representation *)
      smiles ← lift (rmap_list (fun compounds =>
                                  getitem (cell i compounds) "canonical_smiles")
                               (rows df));
      let df := set_column "canonical_smiles" smiles df in
      df ← lift (drop_columns ["molecule_structures"] df);
      mret (dropna df)
  end.

(* ================================================================== *)
(** * The orchestrator: [get_bioactivity_compound_data] *)
(* ================================================================== *)

Definition get_bioactivity_compound_data
    (bioacitivity_query compound_query : QuerySet)
    (data_path target_name : string) : M DataFrame :=
  (* Get and process bioactivity dataset from the provided query *)
  print (PStage "1. Get and process bioactivity dataset");;
  bioactivities_df ←
    retrieve_or_create_dataframe_from_query
      bioacitivity_query data_path "bioactivities" target_name true;
  (* Remove NaNs and duplicates, convert measurement column to float,
     and keep only entries in standard units *)
  bioactivities_df ←
    preprocess_queried_dataset
      bioactivities_df (Some ["standard_value"]) true true true (Some "nM");
  (* Get and process compounds dataset from the provided query *)
  print (PStage "2. Get and process compounds dataset");;
  compounds_df ←
    retrieve_or_create_dataframe_from_query
      compound_query data_path "compounds" target_name true;
  (* Remove NaNs and duplicates *)
  compounds_df ← preprocess_queried_dataset compounds_df None true true true None;
  (* Extract SMILES representation from molecular representation *)
  compounds_df ← extract_smiles_from_molecular_representation compounds_df;
  (* Merge bioactivity and compound dataset on ChEMBL ID *)
  print (PStage "3. Merge bioactivity and compound dataset");;
  projection ←
    lift (getitem_columns
            ["molecule_chembl_id"; "standard_value"; "standard_units"]
            bioactivities_df);
  merged_df ← lift (merge projection compounds_df "molecule_chembl_id");
  (* Reset row indices *)
  let merged_df := Pandas.reset_index merged_df in
  print (PFinal (len merged_df));;
  mret merged_df.

(* ================================================================== *)
(** * Properties *)
(* ================================================================== *)

(** ** Running a computation *)

Lemma run_bind {A B} (m : M A) (k : A -> M B) (w : World) :
  (m ≫= k) w = match m w with
               | (Ok a, w') => k a w'
               | (Raise e, w') => (Raise e, w')
               end.
Proof. reflexivity. Qed.

Lemma run_ret {A} (a : A) (w : World) : (mret a : M A) w = (Ok a, w).
Proof. reflexivity. Qed.

Lemma run_lift {A} (r : Result A) (w : World) : lift r w = (r, w).
Proof. reflexivity. Qed.

Lemma rbind_ok {A B} (r : Result A) (k : A -> Result B) b :
  rbind r k = Ok b -> exists a, r = Ok a /\ k a = Ok b.
Proof. destruct r; simpl; [eauto | discriminate]. Qed.

Lemma rmap_list_length {A B} (f : A -> Result B) l l' :
  rmap_list f l = Ok l' -> length l' = length l.
Proof.
  revert l'. induction l as [|a l IH]; simpl; intros l' H.
  - injection H as <-. reflexivity.
  - apply rbind_ok in H as (b & _ & H).
    apply rbind_ok in H as (bs & Hbs & H).
    injection H as <-. simpl. f_equal. auto.
Qed.

Lemma rmap_list_Forall2 {A B} (f : A -> Result B) l l' :
  rmap_list f l = Ok l' -> Forall2 (fun a b => f a = Ok b) l l'.
Proof.
  revert l'. induction l as [|a l IH]; simpl; intros l' H.
  - injection H as <-. constructor.
  - apply rbind_ok in H as (b & Hb & H).
    apply rbind_ok in H as (bs & Hbs & H).
    injection H as <-. constructor; auto.
Qed.

(** ** The cleaner, step by step

    The five blocks of [preprocess_queried_dataset], each as a function
    of the table it receives. *)

Definition coerce_step (columns_to_float : option (list string)) (df : DataFrame)
  : Result DataFrame :=
  match columns_to_float with
  | Some cols => astype_float64 cols df
  | None => Ok df
  end.

Definition dropna_step (drop_na : bool) (df : DataFrame) : DataFrame :=
  if drop_na then dropna df else df.

Definition unit_step (standard_unit : option string) (df : DataFrame)
  : Result DataFrame :=
  match standard_unit with
  | Some unit =>
      if negb (String.eqb unit "all") then
        match col_index "standard_units" (columns df) with
        | None => Raise AssertionError
        | Some i => Ok (select_eq i unit df)
        end
      else Ok df
  | None => Ok df
  end.

Definition dedup_step (drop_duplicates : bool) (df : DataFrame) : Result DataFrame :=
  if drop_duplicates then Pandas.drop_duplicates "molecule_chembl_id" df else Ok df.

Definition reindex_step (reset_index : bool) (df : DataFrame) : DataFrame :=
  if reset_index then Pandas.reset_index df else df.

Lemma run_print (p : Printed) (w : World) :
  print p w = (Ok tt, {| files := files w; dirs := dirs w;
                         remote_calls := remote_calls w;
                         stdout := stdout w ++ [p] |}).
Proof. reflexivity. Qed.

(** Evaluate the monadic plumbing at the head of the goal. *)
Ltac run_step :=
  first [ rewrite run_bind | rewrite run_lift | rewrite run_ret | rewrite run_print ].
Ltac run := repeat (run_step; cbn [fst snd]).

(** The result of the cleaner is the composition of its five steps. *)
Lemma preprocess_steps df ctf dn dd ri su w :
  fst (preprocess_queried_dataset df ctf dn dd ri su w) =
  rbind (coerce_step ctf df) (fun d1 =>
  rbind (unit_step su (dropna_step dn d1)) (fun d3 =>
  rbind (dedup_step dd d3) (fun d4 => Ok (reindex_step ri d4)))).
Proof.
  unfold preprocess_queried_dataset, coerce_step, dropna_step, unit_step, dedup_step.
  run.
  destruct ctf as [cols|]; run.
  1: destruct (astype_float64 cols df) as [d1|e]; [|reflexivity].
  all: cbn [rbind]; destruct dn; run.
  all: destruct su as [u|]; [destruct (String.eqb u "all")|]; cbn [negb]; run.
  all: try match goal with
       | |- context [col_index "standard_units" ?c] =>
           destruct (col_index "standard_units" c); run; [|reflexivity]
       end.
  all: cbn [rbind]; destruct dd; run.
  all: try match goal with
       | |- context [Pandas.drop_duplicates ?a ?b] =>
           destruct (Pandas.drop_duplicates a b); run; [|reflexivity]
       end.
  all: reflexivity.
Qed.


(** ** Row counts *)

Lemma astype_from_length i names cols rs rs' :
  astype_from i names cols rs = Ok rs' -> length rs' = length rs.
Proof.
  revert i rs. induction names as [|c names IH]; simpl; intros i rs H.
  - injection H as <-. reflexivity.
  - apply rbind_ok in H as (mid & Hmid & H).
    apply IH in H. rewrite H.
    destruct (existsb (String.eqb c) cols).
    + eapply rmap_list_length; eauto.
    + injection Hmid as <-. reflexivity.
Qed.

Lemma coerce_step_len ctf df d1 :
  coerce_step ctf df = Ok d1 -> len d1 = len df /\ columns d1 = columns df.
Proof.
  unfold coerce_step, astype_float64, len. destruct ctf as [cols|].
  - destruct (forallb _ cols); [|discriminate]. intros H.
    apply rbind_ok in H as (rs & Hrs & H). injection H as <-. simpl.
    apply astype_from_length in Hrs. rewrite Hrs. auto.
  - intros H. injection H as <-. auto.
Qed.

Lemma filter_len {A} (f : A -> bool) (l : list A) :
  (length (List.filter f l) <= length l)%nat.
Proof. induction l as [|a l IH]; simpl; [lia|]. destruct (f a); simpl; lia. Qed.

Lemma dropna_step_len dn df :
  len (dropna_step dn df) <= len df /\ columns (dropna_step dn df) = columns df.
Proof.
  unfold dropna_step, dropna, len. destruct dn; simpl; [|split; [lia|reflexivity]].
  split; [|reflexivity]. apply inj_le, filter_len.
Qed.

Lemma unit_step_len su df d3 :
  unit_step su df = Ok d3 -> len d3 <= len df /\ columns d3 = columns df.
Proof.
  unfold unit_step, select_eq, len. intros H.
  destruct su as [u|]; [destruct (negb (String.eqb u "all"))|].
  1: destruct (col_index "standard_units" (columns df)); [|discriminate].
  all: injection H as <-; simpl; split; try reflexivity; try lia.
  apply inj_le, filter_len.
Qed.

Lemma keep_first_len seen krs : (length (keep_first seen krs) <= length krs)%nat.
Proof.
  revert seen. induction krs as [|[k r] krs IH]; simpl; intros seen; [lia|].
  destruct (existsb (Key_eqb k) seen); simpl.
  - specialize (IH seen). lia.
  - specialize (IH (k :: seen)). lia.
Qed.

Lemma dedup_step_len dd df d4 :
  dedup_step dd df = Ok d4 -> len d4 <= len df /\ columns d4 = columns df.
Proof.
  unfold dedup_step, Pandas.drop_duplicates, len. intros H.
  destruct dd; [|injection H as <-; split; [lia|reflexivity]].
  destruct (empty df); [injection H as <-; split; [lia|reflexivity]|].
  destruct (col_index _ _); [|discriminate].
  apply rbind_ok in H as (krs & Hk & H). injection H as <-. simpl.
  split; [|reflexivity].
  apply rmap_list_length in Hk. rewrite <- Hk. apply inj_le, keep_first_len.
Qed.

Lemma relabel_length n rs : length (relabel n rs) = length rs.
Proof. revert n. induction rs as [|r rs IH]; simpl; intros n; [|rewrite IH]; reflexivity. Qed.

Lemma reindex_step_len ri df :
  len (reindex_step ri df) = len df /\ columns (reindex_step ri df) = columns df.
Proof.
  unfold reindex_step, Pandas.reset_index, len. destruct ri; simpl; [|auto].
  rewrite relabel_length. auto.
Qed.

(** The tables between the steps of a successful run of the cleaner. *)
Lemma preprocess_ok df ctf dn dd ri su w out :
  fst (preprocess_queried_dataset df ctf dn dd ri su w) = Ok out ->
  exists d1 d3 d4,
    coerce_step ctf df = Ok d1
    /\ unit_step su (dropna_step dn d1) = Ok d3
    /\ dedup_step dd d3 = Ok d4
    /\ out = reindex_step ri d4.
Proof.
  rewrite preprocess_steps. intros H.
  apply rbind_ok in H as (d1 & H1 & H).
  apply rbind_ok in H as (d3 & H3 & H).
  apply rbind_ok in H as (d4 & H4 & H).
  injection H as <-. eauto 10.
Qed.

(** C2. Monotonic row reduction: whatever the flags and arguments, a run
    of the table cleaner that returns a table returns one with no more
    rows than its input, and the row count never grows from one step to
    the next: coercion keeps it, missing-value removal, unit filtering
    and deduplication can only lower it, reindexing keeps it. *)
Theorem cleaner_row_count_monotone df ctf dn dd ri su w out :
  fst (preprocess_queried_dataset df ctf dn dd ri su w) = Ok out ->
  exists d1 d3 d4,
    coerce_step ctf df = Ok d1
    /\ unit_step su (dropna_step dn d1) = Ok d3
    /\ dedup_step dd d3 = Ok d4
    /\ out = reindex_step ri d4
    /\ len d1 = len df
    /\ len (dropna_step dn d1) <= len d1
    /\ len d3 <= len (dropna_step dn d1)
    /\ len d4 <= len d3
    /\ len out = len d4
    /\ len out <= len df.
Proof.
  intros H. apply preprocess_ok in H as (d1 & d3 & d4 & H1 & H3 & H4 & ->).
  exists d1, d3, d4.
  pose proof (coerce_step_len _ _ _ H1) as [L1 _].
  pose proof (dropna_step_len dn d1) as [L2 _].
  pose proof (unit_step_len _ _ _ H3) as [L3 _].
  pose proof (dedup_step_len _ _ _ H4) as [L4 _].
  pose proof (reindex_step_len ri d4) as [L5 _].
  repeat split; auto; lia.
Qed.

(** ** Which rows the steps keep *)

Lemma has_column_col_index name df :
  has_column name df = false <-> col_index name (columns df) = None.
Proof.
  unfold has_column. induction (columns df) as [|c cols IH]; simpl; [tauto|].
  destruct (String.eqb name c); simpl; [split; discriminate|].
  rewrite IH. destruct (col_index name cols); simpl; split; congruence.
Qed.

Lemma eq_str_true v s : eq_str v s = true <-> v = VStr s.
Proof.
  destruct v; simpl; try (split; [discriminate|congruence]).
  rewrite String.eqb_eq. split; congruence.
Qed.

Lemma relabel_In n rs r :
  In r (relabel n rs) -> exists r0, In r0 rs /\ cells r = cells r0.
Proof.
  revert n. induction rs as [|r0 rs IH]; simpl; intros n; [tauto|].
  intros [<-|H]; [exists r0; auto|].
  apply IH in H as (r1 & ? & ?). eauto.
Qed.

Lemma reindex_step_rows ri df r :
  In r (rows (reindex_step ri df)) -> exists r0, In r0 (rows df) /\ cells r = cells r0.
Proof.
  unfold reindex_step, Pandas.reset_index. destruct ri; simpl; [apply relabel_In|eauto].
Qed.

(** The key of a row whose cell at position [i] is hashable. *)
Definition key_at (i : nat) (r : Row) : Key :=
  match key_of (cell i r) with
  | Ok k => k
  | Raise _ => KNA
  end.

Lemma rmap_row_key i rs krs :
  rmap_list (row_key i) rs = Ok krs ->
  krs = map (fun r => (key_at i r, r)) rs
  /\ Forall (fun r => key_of (cell i r) = Ok (key_at i r)) rs.
Proof.
  revert krs. induction rs as [|r rs IH]; simpl; intros krs H.
  - injection H as <-. auto.
  - apply rbind_ok in H as ([k r'] & Hk & H).
    apply rbind_ok in H as (krs' & Hrs & H). injection H as <-.
    unfold row_key in Hk. apply rbind_ok in Hk as (k0 & Hk0 & Hk).
    injection Hk as -> ->.
    destruct (IH _ Hrs) as [-> HF].
    assert (E : key_at i r' = k) by (unfold key_at; rewrite Hk0; reflexivity).
    rewrite E. split; [reflexivity|].
    constructor; [|exact HF]. rewrite E. exact Hk0.
Qed.

Lemma sf_eqb_eq f g : sf_eqb f g = true <-> f = g.
Proof.
  destruct f, g; simpl; try (split; [discriminate|congruence]).
  - rewrite Bool.eqb_true_iff. split; congruence.
  - rewrite Bool.eqb_true_iff. split; congruence.
  - tauto.
  - rewrite !andb_true_iff, Bool.eqb_true_iff, Pos.eqb_eq, Z.eqb_eq.
    split; [intros [[-> ->] ->]; reflexivity|]. intros [= -> -> ->]. auto.
Qed.

Lemma Key_eqb_eq a b : Key_eqb a b = true <-> a = b.
Proof.
  destruct a, b; simpl; try (split; [discriminate|congruence]).
  - tauto.
  - rewrite Z.eqb_eq. split; congruence.
  - rewrite sf_eqb_eq. split; congruence.
  - rewrite String.eqb_eq. split; congruence.
Qed.

Lemma existsb_Key_In k seen : existsb (Key_eqb k) seen = true <-> In k seen.
Proof.
  rewrite existsb_exists. split.
  - intros (x & Hx & E). apply Key_eqb_eq in E. subst. exact Hx.
  - intros H. exists k. split; [exact H|]. apply Key_eqb_eq. reflexivity.
Qed.

Section KeepFirst.
Variable i : nat.
Let keyed (rs : list Row) := map (fun r => (key_at i r, r)) rs.

Lemma keep_first_sublist seen rs : sublist (keep_first seen (keyed rs)) rs.
Proof.
  revert seen. induction rs as [|r rs IH]; simpl; intros seen; [constructor|].
  destruct (existsb _ seen); [apply sublist_cons|apply sublist_skip]; apply IH.
Qed.

Lemma keep_first_In seen rs r : In r (keep_first seen (keyed rs)) -> In r rs.
Proof.
  intros H. apply list_elem_of_In.
  eapply elem_of_sublist; [|apply keep_first_sublist].
  apply list_elem_of_In. exact H.
Qed.

(** A kept row is the first of the table with its key, and that key
    was not seen before. *)
Lemma keep_first_is_first seen rs r :
  In r (keep_first seen (keyed rs)) ->
  ~ In (key_at i r) seen
  /\ exists pre post, rs = pre ++ r :: post
       /\ forall r', In r' pre -> key_at i r' <> key_at i r.
Proof.
  revert seen. induction rs as [|r0 rs IH]; simpl; intros seen; [tauto|].
  destruct (existsb _ seen) eqn:E.
  - intros H. apply IH in H as (Hs & pre & post & -> & Hpre).
    split; [exact Hs|]. exists (r0 :: pre), post. split; [reflexivity|].
    intros r' [<-|H']; [|auto].
    intros Heq. apply Hs. rewrite <- Heq. apply existsb_Key_In. exact E.
  - intros [<-|H].
    + split.
      * intros Hin. apply existsb_Key_In in Hin. congruence.
      * exists [], rs. split; [reflexivity|]. intros r' [].
    + apply IH in H as (Hs & pre & post & -> & Hpre).
      split; [intros Hin; apply Hs; right; exact Hin|].
      exists (r0 :: pre), post. split; [reflexivity|].
      intros r' [<-|H']; [|auto].
      intros Heq. apply Hs. left. exact Heq.
Qed.


End KeepFirst.

Lemma dedup_step_rows dd df d4 r :
  dedup_step dd df = Ok d4 -> In r (rows d4) -> In r (rows df).
Proof.
  unfold dedup_step, Pandas.drop_duplicates. intros H.
  destruct dd; [|injection H as <-; auto].
  destruct (empty df); [injection H as <-; auto|].
  destruct (col_index _ _) as [i|]; [|discriminate].
  apply rbind_ok in H as (krs & Hk & H). injection H as <-. simpl.
  apply rmap_row_key in Hk as [-> _]. apply keep_first_In.
Qed.

(** ** The worked example of the specification

    Three bioactivity rows: two for CHEMBL1 in nM, one for CHEMBL2 in uM,
    with their values still text. *)

Definition empty_world : World :=
  {| files := ∅; dirs := ∅; remote_calls := 0; stdout := [] |}.

Definition scenario_table : DataFrame :=
  {| columns := ["molecule_chembl_id"; "standard_value"; "standard_units"];
     rows := [ {| label := 0; cells := [VStr "CHEMBL1"; VStr "5.0"; VStr "nM"] |};
               {| label := 1; cells := [VStr "CHEMBL1"; VStr "7.0"; VStr "nM"] |};
               {| label := 2; cells := [VStr "CHEMBL2"; VStr "3.0"; VStr "uM"] |} ] |}.

(** The one row expected back: CHEMBL1 with the float 5.0. *)
Definition scenario_cleaned : DataFrame :=
  {| columns := ["molecule_chembl_id"; "standard_value"; "standard_units"];
     rows := [ {| label := 0;
                  cells := [VStr "CHEMBL1"; VFloat (float_of_Z 5); VStr "nM"] |} ] |}.

Lemma scenario_run w :
  fst (preprocess_queried_dataset scenario_table (Some ["standard_value"])
         true true true (Some "nM") w) = Ok scenario_cleaned.
Proof. rewrite preprocess_steps. vm_compute. reflexivity. Qed.



Lemma cleaner_row_count_monotone_witness :
  fst (preprocess_queried_dataset scenario_table (Some ["standard_value"])
         true true true (Some "nM") empty_world) = Ok scenario_cleaned
  /\ len scenario_cleaned <= len scenario_table.
Proof.
  assert (H : fst (preprocess_queried_dataset scenario_table (Some ["standard_value"])
                     true true true (Some "nM") empty_world) = Ok scenario_cleaned)
    by (vm_compute; reflexivity).
  split; [exact H|].
  destruct (cleaner_row_count_monotone _ _ _ _ _ _ _ _ H)
    as (d1 & d3 & d4 & _ & _ & _ & _ & _ & _ & _ & _ & _ & L).
  exact L.
Defined.

(** ** Unit filtering *)



(** ** Deduplication *)





(** ** Columns and cell values through the cleaner *)

Lemma cell_set_cell_ne i j v r : i <> j -> cell j (set_cell i v r) = cell j r.
Proof.
  intros Hne. unfold cell, set_cell. simpl.
  rewrite !nth_lookup, list_lookup_insert_ne by exact Hne. reflexivity.
Qed.

Lemma cell_set_cell_float i v r :
  to_float64 (cell i r) = Ok v -> cell i (set_cell i v r) = v.
Proof.
  unfold cell, set_cell. simpl. intros H.
  destruct (Nat.lt_ge_cases i (length (cells r))) as [Hlt|Hge].
  - rewrite nth_lookup, list_lookup_insert_eq by exact Hlt. reflexivity.
  - rewrite list_insert_ge by exact Hge.
    rewrite nth_overflow in * by exact Hge. unfold NaN in *. simpl in H. congruence.
Qed.

(** Whether the cleaner is asked to coerce the column called [c]. *)
Definition listed (columns_to_float : option (list string)) (c : string) : bool :=
  match columns_to_float with
  | Some cols => existsb (String.eqb c) cols
  | None => false
  end.

(** Row [r'] is row [r] after coercion: same label, same width, the
    listed columns converted to float64, the others untouched. *)
Definition coerced (ctf : option (list string)) (names : list string) (r r' : Row)
  : Prop :=
  label r' = label r
  /\ length (cells r') = length (cells r)
  /\ forall j c, nth_error names j = Some c ->
       if listed ctf c then to_float64 (cell j r) = Ok (cell j r')
       else cell j r' = cell j r.

Lemma Forall2_In_r {A B} (R : A -> B -> Prop) l l' y :
  Forall2 R l l' -> In y l' -> exists x, In x l /\ R x y.
Proof.
  induction 1 as [|x y' l l' HR HF IH]; simpl; [tauto|].
  intros [<-|H]; [eauto|]. apply IH in H as (x' & ? & ?). eauto.
Qed.

Lemma astype_from_spec i names cols rs rs' :
  astype_from i names cols rs = Ok rs' ->
  Forall2 (fun r r' =>
             label r' = label r
             /\ length (cells r') = length (cells r)
             /\ (forall j, (j < i)%nat -> cell j r' = cell j r)
             /\ forall j c, nth_error names j = Some c ->
                  if existsb (String.eqb c) cols
                  then to_float64 (cell (i + j) r) = Ok (cell (i + j) r')
                  else cell (i + j) r' = cell (i + j) r)
          rs rs'.
Proof.
  revert i rs. induction names as [|c names IH]; simpl; intros i rs H.
  - injection H as <-. apply Forall_Forall2_diag, List.Forall_forall.
    intros r _. repeat split; auto. intros [|j] ? [=].
  - apply rbind_ok in H as (mid & Hmid & H). apply IH in H.
    assert (Hfirst : Forall2 (fun r m =>
              label m = label r /\ length (cells m) = length (cells r)
              /\ (forall j, j <> i -> cell j m = cell j r)
              /\ if existsb (String.eqb c) cols
                 then to_float64 (cell i r) = Ok (cell i m)
                 else cell i m = cell i r) rs mid).
    { destruct (existsb (String.eqb c) cols).
      - apply rmap_list_Forall2 in Hmid.
        eapply Forall2_impl; [exact Hmid|]. cbv beta. intros r m Hm.
        unfold astype_cell in Hm. apply rbind_ok in Hm as (v & Hv & Hm).
        injection Hm as <-. repeat split.
        + simpl. apply length_insert.
        + intros j Hj. apply cell_set_cell_ne. congruence.
        + rewrite (cell_set_cell_float _ _ _ Hv). exact Hv.
      - injection Hmid as <-. apply Forall_Forall2_diag, List.Forall_forall.
        intros r _. auto. }
    eapply Forall2_trans; [|exact Hfirst|exact H]. cbv beta.
    intros r m r' (L1 & W1 & O1 & C1) (L2 & W2 & B2 & C2).
    repeat split; try congruence.
    + intros j Hj. rewrite B2 by lia. apply O1. lia.
    + intros [|j] c' Hc; simpl in Hc.
      * injection Hc as <-. rewrite Nat.add_0_r, B2 by lia. exact C1.
      * specialize (C2 j c' Hc). replace (i + S j)%nat with (S i + j)%nat by lia.
        rewrite <- (O1 (S i + j)%nat) by lia. exact C2.
Qed.

Lemma coerce_step_rows ctf df d1 :
  coerce_step ctf df = Ok d1 -> Forall2 (coerced ctf (columns df)) (rows df) (rows d1).
Proof.
  unfold coerce_step, astype_float64. destruct ctf as [cols|].
  - destruct (forallb _ cols); [|discriminate]. intros H.
    apply rbind_ok in H as (rs & Hrs & H). injection H as <-. simpl.
    apply astype_from_spec in Hrs.
    eapply Forall2_impl; [exact Hrs|]. cbv beta.
    intros r r' (L & W & _ & C). repeat split; auto.
  - intros H. injection H as <-. apply Forall_Forall2_diag, List.Forall_forall.
    intros r _. repeat split; auto.
Qed.

Lemma dropna_step_rows dn df r : In r (rows (dropna_step dn df)) -> In r (rows df).
Proof.
  unfold dropna_step, dropna. destruct dn; simpl; [|auto].
  intros H. apply filter_In in H. tauto.
Qed.

Lemma unit_step_rows su df d3 r : unit_step su df = Ok d3 -> In r (rows d3) -> In r (rows df).
Proof.
  unfold unit_step, select_eq. intros H.
  destruct su as [u|]; [destruct (negb (String.eqb u "all"))|].
  1: destruct (col_index "standard_units" (columns df)); [|discriminate].
  all: injection H as <-; simpl; auto.
  intros Hin. apply filter_In in Hin. tauto.
Qed.

(** C5. The cleaner keeps the columns.  Whatever the flags, the table
    returned has the column names of the input, in the same order; each
    of its rows comes from an input row whose cells it still has, except
    in the columns listed in [columns_to_float], where the cell is the
    float64 conversion of the input cell. *)
Theorem cleaner_preserves_columns df ctf dn dd ri su w out :
  fst (preprocess_queried_dataset df ctf dn dd ri su w) = Ok out ->
  columns out = columns df
  /\ forall r', In r' (rows out) ->
       exists r, In r (rows df)
         /\ length (cells r') = length (cells r)
         /\ forall j c, nth_error (columns df) j = Some c ->
              if listed ctf c then to_float64 (cell j r) = Ok (cell j r')
              else cell j r' = cell j r.
Proof.
  intros H. apply preprocess_ok in H as (d1 & d3 & d4 & H1 & H3 & H4 & ->).
  split.
  - destruct (reindex_step_len ri d4) as [_ ->].
    destruct (dedup_step_len _ _ _ H4) as [_ ->].
    destruct (unit_step_len _ _ _ H3) as [_ ->].
    destruct (dropna_step_len dn d1) as [_ ->].
    destruct (coerce_step_len _ _ _ H1) as [_ ->]. reflexivity.
  - intros r' Hr'. apply reindex_step_rows in Hr' as (r0 & Hr0 & Hcells).
    eapply dedup_step_rows in Hr0; [|exact H4].
    eapply unit_step_rows in Hr0; [|exact H3].
    apply dropna_step_rows in Hr0.
    destruct (Forall2_In_r _ _ _ _ (coerce_step_rows _ _ _ H1) Hr0) as (r & Hr & _ & W & C).
    exists r. unfold cell in *. rewrite Hcells. auto.
Qed.

Lemma cleaner_preserves_columns_witness :
  columns scenario_cleaned = columns scenario_table
  /\ forall r', In r' (rows scenario_cleaned) ->
       exists r, In r (rows scenario_table)
         /\ length (cells r') = length (cells r)
         /\ forall j c, nth_error (columns scenario_table) j = Some c ->
              if listed (Some ["standard_value"]) c
              then to_float64 (cell j r) = Ok (cell j r')
              else cell j r' = cell j r.
Proof.
  exact (cleaner_preserves_columns scenario_table (Some ["standard_value"])
           true true true (Some "nM") empty_world scenario_cleaned (scenario_run _)).
Defined.

(** ** The flattener, step by step *)

(** The table once its [molecule_structures] column (at position [i])
    holds mappings: parsed when the first row does not hold one yet. *)
Definition parse_step (i : nat) (df : DataFrame) : Result DataFrame :=
  rbind (iloc0 df) (fun first =>
    if negb (is_dict (cell i first)) then apply_column literal_eval i df else Ok df).

(** The table with its new [canonical_smiles] column and without the
    [molecule_structures] column, before rows with missing values go. *)
Definition smiles_step (i : nat) (df : DataFrame) : Result DataFrame :=
  rbind (rmap_list (fun compounds => getitem (cell i compounds) "canonical_smiles")
                   (rows df))
        (fun smiles =>
           drop_columns ["molecule_structures"]
                        (set_column "canonical_smiles" smiles df)).

Lemma extract_steps df w :
  extract_smiles_from_molecular_representation df w =
  (match col_index "molecule_structures" (columns df) with
   | None => Raise AssertionError
   | Some i =>
       rbind (parse_step i df) (fun d =>
       rbind (smiles_step i d) (fun flat => Ok (dropna flat)))
   end, w).
Proof.
  unfold extract_smiles_from_molecular_representation, parse_step, smiles_step.
  destruct (col_index "molecule_structures" (columns df)) as [i|]; [|reflexivity].
  run. destruct (iloc0 df) as [first|e]; [|reflexivity]. cbn [rbind].
  destruct (negb (is_dict (cell i first))); run.
  1: destruct (apply_column literal_eval i df) as [d|e]; [|reflexivity].
  all: cbn [rbind].
  all: match goal with
       | |- context [rmap_list ?f ?l] => destruct (rmap_list f l); [|reflexivity]
       end.
  all: cbn [rbind]; run.
  all: match goal with
       | |- context [drop_columns ?a ?b] => destruct (drop_columns a b); reflexivity
       end.
Qed.

(** C10. An empty table makes the flattener fail.  A table that has the
    [molecule_structures] column but no row is not returned empty: the
    look at its first row raises [IndexError], and nothing else
    happens. *)
Theorem flattener_fails_on_empty_table df w :
  has_column "molecule_structures" df = true ->
  rows df = [] ->
  extract_smiles_from_molecular_representation df w = (Raise IndexError, w).
Proof.
  intros Hcol Hrows. rewrite extract_steps.
  destruct (col_index "molecule_structures" (columns df)) as [i|] eqn:Hi.
  - unfold parse_step, iloc0. rewrite Hrows. reflexivity.
  - apply has_column_col_index in Hi. congruence.
Qed.

Lemma flattener_fails_on_empty_table_witness :
  extract_smiles_from_molecular_representation
    {| columns := ["molecule_chembl_id"; "molecule_structures"]; rows := [] |}
    empty_world
  = (Raise IndexError, empty_world).
Proof.
  apply (flattener_fails_on_empty_table
           {| columns := ["molecule_chembl_id"; "molecule_structures"]; rows := [] |}
           empty_world); reflexivity.
Defined.

(** ** Which rows the flattener drops *)

(** A compound whose structure gives a SMILES string but whose
    [pref_name] is missing. *)
Definition unnamed_compound : DataFrame :=
  {| columns := ["molecule_chembl_id"; "pref_name"; "molecule_structures"];
     rows := [ {| label := 0;
                  cells := [VStr "CHEMBL1"; VNone;
                            VDict [("canonical_smiles", VStr "CCO")]] |} ] |}.

(** The flattened table has its [canonical_smiles] ("CCO", not missing)
    at position 2, and the flattener returns no row. *)
Lemma flattener_drops_row_with_smiles :
  smiles_step 2 unnamed_compound
  = Ok {| columns := ["molecule_chembl_id"; "pref_name"; "canonical_smiles"];
          rows := [ {| label := 0; cells := [VStr "CHEMBL1"; VNone; VStr "CCO"] |} ] |}
  /\ isna (VStr "CCO") = false
  /\ extract_smiles_from_molecular_representation unnamed_compound empty_world
     = (Ok {| columns := ["molecule_chembl_id"; "pref_name"; "canonical_smiles"];
              rows := [] |}, empty_world).
Proof. repeat split. Qed.

Lemma complete_spec r : complete r = true <-> forall v, In v (cells r) -> isna v = false.
Proof.
  unfold complete. rewrite forallb_forall. split; intros H v Hv; specialize (H v Hv).
  - apply negb_true_iff. exact H.
  - apply negb_true_iff. exact H.
Qed.

(** C7 (amended). The last step of the flattener removes exactly the
    rows of the flattened table that have a missing value in some
    column, whichever column it is: a row stays if and only if none of
    its cells is missing. *)
Theorem flattener_drops_rows_with_any_missing df w out w' :
  extract_smiles_from_molecular_representation df w = (Ok out, w') ->
  exists i d flat,
    col_index "molecule_structures" (columns df) = Some i
    /\ parse_step i df = Ok d
    /\ smiles_step i d = Ok flat
    /\ columns out = columns flat
    /\ rows out = List.filter complete (rows flat)
    /\ forall r, In r (rows flat) ->
         (In r (rows out) <-> forall v, In v (cells r) -> isna v = false).
Proof.
  rewrite extract_steps. intros H. injection H as H _.
  destruct (col_index "molecule_structures" (columns df)) as [i|]; [|discriminate].
  apply rbind_ok in H as (d & Hd & H). apply rbind_ok in H as (flat & Hflat & H).
  injection H as <-. exists i, d, flat. repeat split; auto.
  - simpl. intros Hin. apply filter_In in Hin as [_ Hc]. apply complete_spec. exact Hc.
  - simpl. intros Hall. apply filter_In. split; [assumption|]. apply complete_spec. exact Hall.
Qed.

Lemma flattener_drops_rows_with_any_missing_witness :
  exists i d flat,
    col_index "molecule_structures" (columns unnamed_compound) = Some i
    /\ parse_step i unnamed_compound = Ok d
    /\ smiles_step i d = Ok flat
    /\ columns {| columns := ["molecule_chembl_id"; "pref_name"; "canonical_smiles"];
                  rows := [] |} = columns flat
    /\ rows {| columns := ["molecule_chembl_id"; "pref_name"; "canonical_smiles"];
               rows := [] |} = List.filter complete (rows flat)
    /\ forall r, In r (rows flat) ->
         (In r [] <-> forall v, In v (cells r) -> isna v = false).
Proof.
  exact (flattener_drops_rows_with_any_missing unnamed_compound empty_world
           {| columns := ["molecule_chembl_id"; "pref_name"; "canonical_smiles"];
              rows := [] |}
           empty_world eq_refl).
Defined.

(** ** Columns by position *)

Lemma col_index_lt c cols k : col_index c cols = Some k -> (k < length cols)%nat.
Proof.
  revert k. induction cols as [|c0 cols IH]; simpl; intros k H; [discriminate|].
  destruct (String.eqb c c0).
  - injection H as <-. lia.
  - destruct (col_index c cols) as [k'|]; [|discriminate].
    injection H as <-. specialize (IH _ eq_refl). lia.
Qed.

Lemma col_index_None c cols : col_index c cols = None <-> ~ In c cols.
Proof.
  induction cols as [|c0 cols IH]; simpl; [tauto|].
  destruct (String.eqb c c0) eqn:E.
  - apply String.eqb_eq in E. subst. split; [discriminate|]. intros H. exfalso. auto.
  - apply String.eqb_neq in E. destruct (col_index c cols); simpl.
    + split; [discriminate|]. intros H. exfalso. apply H. right.
      destruct (proj1 (not_iff_compat IH)) as []; [discriminate|].
      intros H'. apply H. auto.
    + split; [|reflexivity]. intros _ [Heq|Hin]; [congruence|]. apply IH; auto.
Qed.

Lemma col_index_In c cols k : col_index c cols = Some k -> In c cols.
Proof.
  intros H. destruct (in_dec string_dec c cols) as [Hin|Hnin]; [exact Hin|].
  apply col_index_None in Hnin. congruence.
Qed.

Lemma col_index_app_old c cols more k :
  col_index c cols = Some k -> col_index c (cols ++ more) = Some k.
Proof.
  revert k. induction cols as [|c0 cols IH]; simpl; intros k H; [discriminate|].
  destruct (String.eqb c c0); [exact H|].
  destruct (col_index c cols) as [k'|]; [|discriminate].
  rewrite (IH _ eq_refl). exact H.
Qed.


Lemma select_map_filter {A} (f : A -> bool) l : select (map f l) l = List.filter f l.
Proof. induction l as [|a l IH]; simpl; [reflexivity|]. destruct (f a); rewrite IH; reflexivity. Qed.

Lemma select_nil_r {A} mask : select mask ([] : list A) = [].
Proof. destruct mask as [|[] mask]; reflexivity. Qed.

(** A kept column keeps its cell: position [k] among all columns and the
    position [j] among the kept ones address the same value. *)
Lemma select_nth {A} (f : string -> bool) c cols (vals : list A) k d :
  col_index c cols = Some k -> f c = true ->
  exists j, col_index c (select (map f cols) cols) = Some j
            /\ nth j (select (map f cols) vals) d = nth k vals d.
Proof.
  revert vals k. induction cols as [|c0 cols IH]; simpl; intros vals k H Hf; [discriminate|].
  destruct (String.eqb c c0) eqn:E.
  - injection H as <-. apply String.eqb_eq in E. subst c0. rewrite Hf.
    destruct vals as [|v vals]; simpl; rewrite ?String.eqb_refl; exists O; auto.
  - destruct (col_index c cols) as [k'|] eqn:Hk; [|discriminate]. injection H as <-.
    destruct vals as [|v vals].
    + destruct (IH [] k' eq_refl Hf) as (j & Hj & _).
      exists (if f c0 then S j else j). split.
      * destruct (f c0); simpl; rewrite ?E, ?Hj; reflexivity.
      * destruct (if f c0 then S j else j); reflexivity.
    + destruct (IH vals k' eq_refl Hf) as (j & Hj & Hn).
      destruct (f c0); simpl.
      * rewrite E, Hj. exists (S j). auto.
      * exists j. auto.
Qed.

Lemma rmap_list_total {A B} (f : A -> Result B) l :
  (forall a, In a l -> exists b, f a = Ok b) -> exists l', rmap_list f l = Ok l'.
Proof.
  induction l as [|a l IH]; simpl; intros H; [eauto|].
  destruct (H a (or_introl eq_refl)) as (b & ->).
  destruct IH as (l' & ->); [auto|]. simpl. eauto.
Qed.



(** ** The flattener on serialized structures *)

(** Every row has one cell per column. *)
Definition rectangular (df : DataFrame) : Prop :=
  Forall (fun r => length (cells r) = length (columns df)) (rows df).

Lemma has_column_In c df : has_column c df = true <-> In c (columns df).
Proof.
  destruct (has_column c df) eqn:E.
  - split; [intros _|reflexivity].
    destruct (in_dec string_dec c (columns df)) as [H|H]; [exact H|].
    apply col_index_None, has_column_col_index in H. congruence.
  - split; [discriminate|]. intros H.
    apply has_column_col_index, col_index_None in E. contradiction.
Qed.

Section Flatten.
Variable all : list Row.
Variables i n : nat.
Hypothesis i_lt_n : (i < n)%nat.



End Flatten.

Definition not_structures (c : string) : bool :=
  negb (existsb (String.eqb c) ["molecule_structures"]).



(** The worked example: a compound whose structure is the text
    [{"canonical_smiles": "CCO"}]. *)
Definition dquote : string := String (chr 34) "".

Definition scenario_structures : string :=
  "{" +:+ dquote +:+ "canonical_smiles" +:+ dquote +:+ ": "
      +:+ dquote +:+ "CCO" +:+ dquote +:+ "}".

Definition scenario_compounds : DataFrame :=
  {| columns := ["molecule_chembl_id"; "molecule_structures"];
     rows := [ {| label := 0;
                  cells := [VStr "CHEMBL1"; VStr scenario_structures] |} ] |}.

Definition scenario_flattened : DataFrame :=
  {| columns := ["molecule_chembl_id"; "canonical_smiles"];
     rows := [ {| label := 0; cells := [VStr "CHEMBL1"; VStr "CCO"] |} ] |}.



(** ** The cache loader *)

(** The path of the cache file of a data set. *)
Definition cache_path (data_path query_name target_name : string) : string :=
  path_join data_path (target_name +:+ "_" +:+ query_name +:+ ".csv").

Lemma parse_csv_raise f e : parse_csv f = Raise e -> e <> FileNotFoundError.
Proof.
  unfold parse_csv. destruct (length (header f) =? 0)%nat; [intros [= <-]; discriminate|].
  destruct (forallb _ _); [discriminate|]. intros [= <-]. discriminate.
Qed.

Lemma drop_columns_raise names t e : drop_columns names t = Raise e -> e = KeyError.
Proof. unfold drop_columns. destruct (forallb _ _); [discriminate|]. congruence. Qed.

(** With the cache file present the loader only reads it. *)
Lemma loader_hit query dp qn tn save w f :
  files w !! cache_path dp qn tn = Some f ->
  retrieve_or_create_dataframe_from_query query dp qn tn save w
  = (rbind (parse_csv f) (drop_columns ["Unnamed: 0"]), w).
Proof.
  intros Hf. unfold retrieve_or_create_dataframe_from_query, try_except.
  fold (cache_path dp qn tn). run. unfold read_csv at 1. rewrite Hf.
  destruct (parse_csv f) as [t|e] eqn:Hp; cbn [rbind].
  - run. destruct (drop_columns ["Unnamed: 0"] t) as [t'|e] eqn:Hd; [reflexivity|].
    apply drop_columns_raise in Hd. subst. reflexivity.
  - apply parse_csv_raise in Hp. destruct e; try reflexivity. congruence.
Qed.

(** With no cache file (and no directory in its place) the loader
    fetches, and saves when asked to. *)
Lemma loader_miss query dp qn tn save w :
  files w !! cache_path dp qn tn = None ->
  norm_path (cache_path dp qn tn) ∉ dirs w ->
  retrieve_or_create_dataframe_from_query query dp qn tn save w
  = (df ← fetch_records query;
     (if save then
        present ← path_exists dp;
        (if negb present then mkdir dp else mret tt);;
        to_csv df (cache_path dp qn tn)
      else mret tt);;
     mret df) w.
Proof.
  intros Hf Hd. unfold retrieve_or_create_dataframe_from_query, try_except.
  fold (cache_path dp qn tn). rewrite run_bind. unfold read_csv at 1. rewrite Hf.
  rewrite bool_decide_eq_false_2 by exact Hd. reflexivity.
Qed.

Lemma loader_dir query dp qn tn save w :
  files w !! cache_path dp qn tn = None ->
  norm_path (cache_path dp qn tn) ∈ dirs w ->
  retrieve_or_create_dataframe_from_query query dp qn tn save w
  = (Raise IsADirectoryError, w).
Proof.
  intros Hf Hd. unfold retrieve_or_create_dataframe_from_query, try_except.
  fold (cache_path dp qn tn). rewrite run_bind. unfold read_csv at 1. rewrite Hf.
  rewrite bool_decide_eq_true_2 by exact Hd. reflexivity.
Qed.





(** A cache file as a previous save leaves it. *)
Definition saved_cache : CsvFile :=
  {| header := [""; "molecule_chembl_id"]; records := [["0"; "CHEMBL1"]] |}.

Definition saved_world : World :=
  {| files := {[ "data/EGFR_compounds.csv" := saved_cache ]};
     dirs := {[ "data" ]}; remote_calls := 0; stdout := [] |}.


(** ** Two calls of the cache loader *)

Lemma from_records_rectangular recs r :
  In r (rows (from_records recs)) ->
  length (cells r) = length (columns (from_records recs)).
Proof.
  unfold from_records. simpl. intros H.
  apply relabel_In in H as (r0 & H0 & ->).
  apply in_map_iff in H0 as (rec & <- & _). simpl.
  unfold record_cells. apply length_map.
Qed.

(** What was saved can be read back: the index comes back as the column
    [Unnamed: 0], and there are as many rows as were written. *)
Lemma parse_csv_of t :
  (forall r, In r (rows t) -> length (cells r) = length (columns t)) ->
  exists full,
    parse_csv (csv_of t) = Ok full
    /\ columns full = "Unnamed: 0" :: header_names 1 (columns t)
    /\ length (rows full) = length (rows t).
Proof.
  intros Hrect. unfold parse_csv, csv_of. cbn [header records length Nat.eqb].
  assert (Hall : forallb (fun rec => (length rec <=? S (length (columns t)))%nat)
                   (map (fun r => string_of_Z (label r) :: map csv_field (cells r)) (rows t))
                 = true).
  { apply forallb_forall. intros rec Hrec.
    apply in_map_iff in Hrec as (r & <- & Hr). simpl.
    rewrite length_map, (Hrect r Hr). apply Nat.leb_refl. }
  rewrite Hall. eexists. split; [reflexivity|]. cbn [columns rows]. split.
  - reflexivity.
  - rewrite relabel_length, !length_map. reflexivity.
Qed.

(** C8 (amended). Two calls of the cache loader with the same arguments
    ([save] set) and the same remote answer.  When the first call
    returns a table, the second returns one too, with as many rows; it
    sends no query and leaves files and directories as they are.  If the
    cache file was there before the first call, neither call sends a
    query and both return the same table.  If it was not, the first call
    sends the one query, returns the fetched records as they are and
    saves them; the second call returns what reading that file back
    gives, without the index column. *)
Theorem cache_second_call query dp qn tn w t1 w1 :
  retrieve_or_create_dataframe_from_query query dp qn tn true w = (Ok t1, w1) ->
  exists t2,
    retrieve_or_create_dataframe_from_query query dp qn tn true w1 = (Ok t2, w1)
    /\ len t2 = len t1
    /\ (is_Some (files w !! cache_path dp qn tn) -> t2 = t1 /\ w1 = w)
    /\ (files w !! cache_path dp qn tn = None ->
        remote_calls w1 = S (remote_calls w)
        /\ exists recs full,
             query = Ok recs
             /\ t1 = from_records recs
             /\ files w1 !! cache_path dp qn tn = Some (csv_of t1)
             /\ parse_csv (csv_of t1) = Ok full
             /\ drop_columns ["Unnamed: 0"] full = Ok t2).
Proof.
  intros H. destruct (files w !! cache_path dp qn tn) as [f|] eqn:Hf.
  - rewrite (loader_hit _ _ _ _ _ _ _ Hf) in H. injection H as H <-.
    exists t1. rewrite (loader_hit _ _ _ _ _ _ _ Hf), H.
    split; [reflexivity|]. split; [reflexivity|]. split; [auto|discriminate].
  - destruct (decide (norm_path (cache_path dp qn tn) ∈ dirs w)) as [Hd|Hd].
    { rewrite (loader_dir _ _ _ _ _ _ Hf Hd) in H. discriminate. }
    rewrite (loader_miss _ _ _ _ _ _ Hf Hd) in H.
    rewrite run_bind in H. unfold fetch_records at 1 in H.
    destruct query as [recs|e]; cbn [rbind] in H; [|discriminate].
    set (t := from_records recs) in *.
    assert (Hsaved : t1 = t /\ remote_calls w1 = S (remote_calls w)
                     /\ files w1 !! cache_path dp qn tn = Some (csv_of t)).
    { revert H. run. unfold path_exists at 1. run.
      match goal with |- context [negb ?b] => destruct (negb b) end.
      - unfold mkdir at 1. cbn [files dirs remote_calls stdout].
        destruct (String.eqb dp ""); [discriminate|].
        destruct (_ || _); [discriminate|].
        destruct (is_dir _ _); [|discriminate]. run.
        unfold to_csv at 1. cbn [files dirs remote_calls stdout].
        destruct (negb _); [discriminate|].
        destruct (bool_decide _); [discriminate|]. run.
        intros [= <- <-]. cbn [files remote_calls].
        rewrite lookup_insert_eq. auto.
      - run. unfold to_csv at 1. cbn [files dirs remote_calls stdout].
        destruct (negb _); [discriminate|].
        destruct (bool_decide _); [discriminate|]. run.
        intros [= <- <-]. cbn [files remote_calls].
        rewrite lookup_insert_eq. auto. }
    destruct Hsaved as (-> & Hcalls & Hfile).
    destruct (parse_csv_of t (from_records_rectangular recs)) as (full & Hfull & Hcols & Hrows).
    rewrite (loader_hit _ _ _ _ _ _ _ Hfile), Hfull. cbn [rbind].
    unfold drop_columns. cbn [forallb]. unfold has_column at 1. rewrite Hcols.
    cbn [existsb String.eqb Ascii.eqb Bool.eqb orb andb].
    eexists. split; [reflexivity|]. split; [|split].
    + unfold len. cbn [rows]. rewrite length_map, Hrows. reflexivity.
    + intros [? [=]].
    + intros _. split; [exact Hcalls|]. exists recs, full.
      unfold drop_columns, has_column. rewrite Hcols.
      cbn [forallb existsb String.eqb Ascii.eqb Bool.eqb orb andb]. auto.
Qed.

(** One compound as the remote database answers: the structure is a
    mapping. *)
Definition compound_records : QuerySet :=
  Ok [ [ ("molecule_chembl_id", VStr "CHEMBL1");
         ("molecule_structures", VDict [("canonical_smiles", VStr "CCO")]) ] ].

Definition first_call : Result DataFrame * World :=
  retrieve_or_create_dataframe_from_query
    compound_records "data" "compounds" "EGFR" true empty_world.

Definition second_call : Result DataFrame * World :=
  retrieve_or_create_dataframe_from_query
    compound_records "data" "compounds" "EGFR" true (snd first_call).

(** The first call returns the structure as a mapping, the second, from
    the cache, as text: the two tables differ. *)
Lemma cache_round_trip_differs :
  fst first_call
  = Ok {| columns := ["molecule_chembl_id"; "molecule_structures"];
          rows := [ {| label := 0;
                       cells := [VStr "CHEMBL1";
                                 VDict [("canonical_smiles", VStr "CCO")]] |} ] |}
  /\ fst second_call
     = Ok {| columns := ["molecule_chembl_id"; "molecule_structures"];
             rows := [ {| label := 0;
                          cells := [VStr "CHEMBL1";
                                    VStr "{'canonical_smiles': 'CCO'}"] |} ] |}
  /\ fst first_call <> fst second_call
  /\ remote_calls (snd first_call) = 1%nat
  /\ remote_calls (snd second_call) = 1%nat.
Proof.
  assert (H1 : fst first_call
               = Ok {| columns := ["molecule_chembl_id"; "molecule_structures"];
                       rows := [ {| label := 0;
                                    cells := [VStr "CHEMBL1";
                                              VDict [("canonical_smiles", VStr "CCO")]] |} ] |})
    by (vm_compute; reflexivity).
  assert (H2 : fst second_call
               = Ok {| columns := ["molecule_chembl_id"; "molecule_structures"];
                       rows := [ {| label := 0;
                                    cells := [VStr "CHEMBL1";
                                              VStr "{'canonical_smiles': 'CCO'}"] |} ] |})
    by (vm_compute; reflexivity).
  split; [exact H1|]. split; [exact H2|]. split; [rewrite H1, H2; discriminate|].
  split; vm_compute; reflexivity.
Qed.

Lemma cache_second_call_witness :
  exists t2,
    retrieve_or_create_dataframe_from_query
      compound_records "data" "compounds" "EGFR" true (snd first_call)
    = (Ok t2, snd first_call)
    /\ len t2 = 1
    /\ remote_calls (snd first_call) = 1%nat.
Proof.
  destruct (cache_second_call compound_records "data" "compounds" "EGFR" empty_world
              {| columns := ["molecule_chembl_id"; "molecule_structures"];
                 rows := [ {| label := 0;
                              cells := [VStr "CHEMBL1";
                                        VDict [("canonical_smiles", VStr "CCO")]] |} ] |}
              (snd first_call) ltac:(vm_compute; reflexivity))
    as (t2 & H2 & Hlen & _ & Hmiss).
  exists t2. split; [exact H2|]. split; [exact Hlen|].
  apply Hmiss. reflexivity.
Defined.

(** ** The merge *)

(** The last block of the orchestrator, as a function of the cleaned
    bioactivity table and the cleaned, flattened compound table. *)
Definition merge_step (bioactivities_df compounds_df : DataFrame) : Result DataFrame :=
  rbind (getitem_columns ["molecule_chembl_id"; "standard_value"; "standard_units"]
                         bioactivities_df) (fun projection =>
  rbind (merge projection compounds_df "molecule_chembl_id") (fun merged_df =>
  Ok (Pandas.reset_index merged_df))).

(** A table the cleaner returns under the bioactivity policy. *)
Definition cleaned_bioactivities (b : DataFrame) : Prop :=
  exists b0 w,
    fst (preprocess_queried_dataset b0 (Some ["standard_value"]) true true true
           (Some "nM") w) = Ok b.

(** A table the flattener returns on a table the cleaner returns under
    the compound policy. *)
Definition cleaned_compounds (c : DataFrame) : Prop :=
  exists c0 w c1 w1,
    fst (preprocess_queried_dataset c0 None true true true None w) = Ok c1
    /\ fst (extract_smiles_from_molecular_representation c1 w1) = Ok c.

(** No two rows have the same [molecule_chembl_id]. *)
Definition unique_ids (df : DataFrame) : Prop :=
  forall i, col_index "molecule_chembl_id" (columns df) = Some i ->
            List.NoDup (map (fun r => key_of (cell i r)) (rows df)).

Lemma bind_ok_inv {A B} (m : M A) (k : A -> M B) w b w' :
  (m ≫= k) w = (Ok b, w') ->
  exists a w1, m w = (Ok a, w1) /\ k a w1 = (Ok b, w').
Proof.
  rewrite run_bind. destruct (m w) as [[a|e] w1]; [eauto|discriminate].
Qed.

Lemma orchestrator_steps bq cq dp tn w m w' :
  get_bioactivity_compound_data bq cq dp tn w = (Ok m, w') ->
  exists b c, cleaned_bioactivities b /\ cleaned_compounds c /\ merge_step b c = Ok m.
Proof.
  unfold get_bioactivity_compound_data. intros H.
  apply bind_ok_inv in H as (_ & wa & _ & H).
  apply bind_ok_inv in H as (b0 & wb & _ & H).
  apply bind_ok_inv in H as (b & wc & Hb & H).
  apply bind_ok_inv in H as (_ & wd & _ & H).
  apply bind_ok_inv in H as (c0 & we & _ & H).
  apply bind_ok_inv in H as (c1 & wf & Hc1 & H).
  apply bind_ok_inv in H as (c & wg & Hc & H).
  apply bind_ok_inv in H as (_ & wh & _ & H).
  apply bind_ok_inv in H as (p & wi & Hp & H).
  apply bind_ok_inv in H as (mg & wj & Hm & H).
  apply bind_ok_inv in H as (_ & wk & _ & H).
  rewrite run_ret in H. injection H as <- <-.
  rewrite run_lift in Hp, Hm. injection Hp as Hp _. injection Hm as Hm _.
  exists b, c. split; [|split].
  - exists b0, wb. rewrite Hb. reflexivity.
  - exists c0, we, c1, wf. rewrite Hc1, Hc. auto.
  - unfold merge_step. rewrite Hp. simpl. rewrite Hm. reflexivity.
Qed.

(** *** Counting the matches *)

Lemma matches_at_most_one (k : Key) (rk : list (Key * Row)) :
  List.NoDup (map fst rk) ->
  (length (List.filter (fun kr => Key_eqb k (fst kr)) rk) <= 1)%nat.
Proof.
  induction rk as [|[k0 r0] rk IH]; simpl; intros Hnd; [lia|].
  apply List.NoDup_cons_iff in Hnd as [Hnotin Hnd]. specialize (IH Hnd).
  destruct (Key_eqb k k0) eqn:E; simpl; [|lia].
  apply Key_eqb_eq in E. subst k0.
  assert (Hnone : List.filter (fun kr => Key_eqb k (fst kr)) rk = []).
  { clear -Hnotin. induction rk as [|[k1 r1] rk IH]; simpl in *; [reflexivity|].
    destruct (Key_eqb k k1) eqn:E.
    - apply Key_eqb_eq in E. subst. exfalso. auto.
    - apply IH. auto. }
  rewrite Hnone. simpl. lia.
Qed.

Lemma matches_le_left mask (lk rk : list (Key * Row)) :
  List.NoDup (map fst rk) ->
  (length (flat_map (matches mask rk) lk) <= length lk)%nat.
Proof.
  intros Hnd. induction lk as [|kl lk IH]; simpl; [lia|].
  rewrite length_app. unfold matches at 1. rewrite length_map.
  pose proof (matches_at_most_one (fst kl) rk Hnd). lia.
Qed.

Lemma matches_cons_right mask kr (lk rk : list (Key * Row)) :
  length (flat_map (matches mask (kr :: rk)) lk)
  = (length (List.filter (fun kl => Key_eqb (fst kl) (fst kr)) lk)
     + length (flat_map (matches mask rk) lk))%nat.
Proof.
  induction lk as [|kl lk IH]; simpl; [reflexivity|].
  rewrite !length_app, IH. unfold matches at 1 3. rewrite !length_map. simpl.
  destruct (Key_eqb (fst kl) (fst kr)); simpl; lia.
Qed.

Lemma matches_le_right mask (lk rk : list (Key * Row)) :
  List.NoDup (map fst lk) ->
  (length (flat_map (matches mask rk) lk) <= length rk)%nat.
Proof.
  intros Hnd. induction rk as [|kr rk IH]; simpl.
  - induction lk as [|kl lk IHl]; simpl; [lia|].
    apply List.NoDup_cons_iff in Hnd as [_ Hnd]. auto.
  - rewrite matches_cons_right.
    assert (H1 : (length (List.filter (fun kl => Key_eqb (fst kl) (fst kr)) lk) <= 1)%nat).
    { rewrite (List.filter_ext _ (fun kl => Key_eqb (fst kr) (fst kl))).
      - apply matches_at_most_one. exact Hnd.
      - intros kl. destruct (Key_eqb (fst kl) (fst kr)) eqn:E.
        + apply Key_eqb_eq in E. symmetry. apply Key_eqb_eq. auto.
        + destruct (Key_eqb (fst kr) (fst kl)) eqn:E'; [|reflexivity].
          apply Key_eqb_eq in E'. symmetry in E'. apply Key_eqb_eq in E'. congruence. }
    lia.
Qed.

Lemma keys_NoDup i rs krs :
  rmap_list (row_key i) rs = Ok krs ->
  List.NoDup (map (fun r => key_of (cell i r)) rs) ->
  List.NoDup (map fst krs).
Proof.
  intros Hk Hnd. apply rmap_row_key in Hk as [-> HF].
  rewrite map_map. simpl.
  assert (E : map (fun r => key_of (cell i r)) rs = map Ok (map (key_at i) rs)).
  { rewrite map_map. apply map_ext_in. intros r Hr.
    rewrite List.Forall_forall in HF. auto. }
  rewrite E in Hnd. eapply List.NoDup_map_inv. exact Hnd.
Qed.

(** *** What the merge step returns *)

Definition not_id (c : string) : bool :=
  negb (existsb (String.eqb c) ["molecule_chembl_id"]).

Lemma not_id_spec c : not_id c = true <-> c <> "molecule_chembl_id".
Proof.
  unfold not_id. simpl. rewrite orb_false_r, negb_true_iff. apply String.eqb_neq.
Qed.

Lemma existsb_eqb_false c l : ~ In c l -> existsb (String.eqb c) l = false.
Proof.
  intros H. destruct (existsb (String.eqb c) l) eqn:E; [|reflexivity].
  apply existsb_exists in E as (x & Hx & E). apply String.eqb_eq in E. subst. contradiction.
Qed.

(** Without a name shared beside the key, the merged columns are the
    three projected ones and then the compound columns but the key. *)
Lemma merge_columns_no_overlap rcols :
  ~ In "standard_value" rcols ->
  ~ In "standard_units" rcols ->
  merge_columns "molecule_chembl_id"
    ["molecule_chembl_id"; "standard_value"; "standard_units"] rcols
  = ["molecule_chembl_id"; "standard_value"; "standard_units"]
    ++ List.filter not_id rcols.
Proof.
  intros Hv Hu. unfold merge_columns, suffixed. cbn [map].
  rewrite (existsb_eqb_false _ _ Hv), (existsb_eqb_false _ _ Hu).
  cbn [String.eqb Ascii.eqb Bool.eqb negb andb]. f_equal.
  unfold drop_mask. fold not_id.
  change (fun c => negb (existsb (String.eqb c) ["molecule_chembl_id"])) with not_id.
  rewrite select_map_filter.
  rewrite <- (map_id (List.filter not_id rcols)) at 2.
  apply map_ext_in. intros x Hx. apply filter_In in Hx as [Hx Hn].
  apply not_id_spec in Hn. apply String.eqb_neq in Hn. rewrite Hn. cbn [negb andb].
  rewrite existsb_eqb_false; [reflexivity|].
  intros [E|[E|[E|[]]]]; subst x.
  - rewrite String.eqb_refl in Hn. discriminate.
  - contradiction.
  - contradiction.
Qed.

Lemma merge_step_spec b c m :
  merge_step b c = Ok m ->
  exists i i1 i2 j,
    col_index "molecule_chembl_id" (columns b) = Some i
    /\ col_index "standard_value" (columns b) = Some i1
    /\ col_index "standard_units" (columns b) = Some i2
    /\ col_index "molecule_chembl_id" (columns c) = Some j
    /\ columns m = merge_columns "molecule_chembl_id"
                     ["molecule_chembl_id"; "standard_value"; "standard_units"]
                     (columns c)
    /\ (forall r, In r (rows m) ->
          exists l rc,
            In l (rows b) /\ In rc (rows c)
            /\ key_of (cell i l) = key_of (cell j rc)
            /\ cells r = [cell i l; cell i1 l; cell i2 l]
                         ++ select (drop_mask ["molecule_chembl_id"] (columns c)) (cells rc))
    /\ (List.NoDup (map (fun r => key_of (cell j r)) (rows c)) -> len m <= len b)
    /\ (List.NoDup (map (fun r => key_of (cell i r)) (rows b)) -> len m <= len c).
Proof.
  unfold merge_step. intros H.
  apply rbind_ok in H as (p & Hp & H). apply rbind_ok in H as (mg & Hm & H).
  injection H as <-.
  unfold getitem_columns in Hp. cbn [rmap_list] in Hp.
  destruct (col_index "molecule_chembl_id" (columns b)) as [i|]; [|discriminate].
  destruct (col_index "standard_value" (columns b)) as [i1|]; [|discriminate].
  destruct (col_index "standard_units" (columns b)) as [i2|]; [|discriminate].
  cbn [rbind map] in Hp. injection Hp as <-.
  unfold merge in Hm. cbn [columns rows col_index String.eqb Ascii.eqb Bool.eqb] in Hm.
  destruct (col_index "molecule_chembl_id" (columns c)) as [j|]; [|discriminate].
  apply rbind_ok in Hm as (lk & Hlk & Hm). apply rbind_ok in Hm as (rk & Hrk & Hm).
  injection Hm as <-.
  exists i, i1, i2, j. repeat (split; [reflexivity|]).
  pose proof (rmap_row_key _ _ _ Hlk) as [Elk HFl].
  pose proof (rmap_row_key _ _ _ Hrk) as [Erk HFr].
  rewrite List.Forall_forall in HFl, HFr.
  split; [|split].
  - intros r Hr. cbn [rows Pandas.reset_index with_rows] in Hr.
    apply relabel_In in Hr as (r1 & Hr1 & ->).
    apply relabel_In in Hr1 as (r0 & Hr0 & ->).
    apply in_flat_map in Hr0 as (kl & Hkl & Hr0).
    unfold matches in Hr0. apply in_map_iff in Hr0 as (kr & <- & Hkr).
    apply filter_In in Hkr as [Hkr Heq]. apply Key_eqb_eq in Heq.
    rewrite Elk in Hkl. apply in_map_iff in Hkl as (pl & <- & Hpl).
    rewrite Erk in Hkr. apply in_map_iff in Hkr as (rc & <- & Hrc).
    pose proof (HFl _ Hpl) as Kl. pose proof (HFr _ Hrc) as Kr.
    apply in_map_iff in Hpl as (l & <- & Hl).
    exists l, rc. cbn [fst snd] in *. repeat split; auto.
    unfold cell at 1 in Kl. cbn [cells nth] in Kl. congruence.
  - intros Hnd. unfold len. cbn [rows Pandas.reset_index with_rows].
    rewrite !relabel_length. apply inj_le.
    etransitivity; [apply matches_le_left; eapply keys_NoDup; eauto|].
    apply rmap_list_length in Hlk. rewrite Hlk, length_map. reflexivity.
  - intros Hnd. unfold len. cbn [rows Pandas.reset_index with_rows].
    rewrite !relabel_length. apply inj_le.
    etransitivity; [apply matches_le_right; eapply keys_NoDup; [exact Hlk|]|].
    + rewrite map_map. cbn [cell cells nth]. exact Hnd.
    + apply rmap_list_length in Hrk. rewrite Hrk. reflexivity.
Qed.

(** *** The cleaned bioactivity table has unique identifiers *)

Lemma keep_first_NoDup i seen rs :
  List.NoDup (map (key_at i) (keep_first seen (map (fun r => (key_at i r, r)) rs))).
Proof.
  revert seen. induction rs as [|r rs IH]; simpl; intros seen; [constructor|].
  destruct (existsb (Key_eqb (key_at i r)) seen); [apply IH|].
  simpl. constructor; [|apply IH].
  intros Hin. apply in_map_iff in Hin as (r' & Heq & Hr').
  apply keep_first_is_first in Hr' as [Hs _]. apply Hs. left. auto.
Qed.

Lemma relabel_cells n rs : map cells (relabel n rs) = map cells rs.
Proof. revert n. induction rs as [|r rs IH]; simpl; intros n; [|rewrite IH]; reflexivity. Qed.

Lemma map_cell_relabel {A} (f : Value -> A) i n rs :
  map (fun r => f (cell i r)) (relabel n rs) = map (fun r => f (cell i r)) rs.
Proof.
  revert n. induction rs as [|r rs IH]; simpl; intros n; [reflexivity|].
  rewrite IH. reflexivity.
Qed.

Lemma NoDup_map_Ok {A} (l : list A) : List.NoDup l -> List.NoDup (map (@Ok A) l).
Proof.
  induction 1 as [|a l Hnotin Hnd IH]; simpl; constructor; [|exact IH].
  intros Hin. apply in_map_iff in Hin as (a' & [= ->] & Ha'). contradiction.
Qed.

Lemma dedup_unique_ids df out i :
  col_index "molecule_chembl_id" (columns df) = Some i ->
  dedup_step true df = Ok out ->
  List.NoDup (map (fun r => key_of (cell i r)) (rows out)).
Proof.
  intros Hi H. unfold dedup_step, Pandas.drop_duplicates in H.
  destruct (empty df) eqn:He.
  - injection H as <-. unfold empty in He.
    destruct (columns df); [discriminate|]. destruct (rows df); [constructor|discriminate].
  - rewrite Hi in H. apply rbind_ok in H as (krs & Hk & H). injection H as <-.
    apply rmap_row_key in Hk as [-> HF]. simpl.
    rewrite List.Forall_forall in HF.
    rewrite (map_ext_in _ (fun r => Ok (key_at i r))).
    + rewrite <- (map_map (key_at i) Ok). apply NoDup_map_Ok, keep_first_NoDup.
    + intros r Hr. apply HF. eapply keep_first_In. exact Hr.
Qed.

Lemma cleaner_unique_ids df ctf dn ri su w out :
  fst (preprocess_queried_dataset df ctf dn true ri su w) = Ok out -> unique_ids out.
Proof.
  intros H i Hi.
  apply preprocess_ok in H as (d1 & d3 & d4 & H1 & H3 & H4 & ->).
  destruct (reindex_step_len ri d4) as [_ Hc5].
  destruct (dedup_step_len _ _ _ H4) as [_ Hc4].
  rewrite Hc5, Hc4 in Hi.
  pose proof (dedup_unique_ids _ _ _ Hi H4) as Hnd.
  unfold reindex_step, Pandas.reset_index. destruct ri; simpl; [|exact Hnd].
  rewrite (map_cell_relabel key_of). exact Hnd.
Qed.

Lemma cleaned_bioactivities_unique b : cleaned_bioactivities b -> unique_ids b.
Proof. intros (b0 & w & H). eapply cleaner_unique_ids; eauto. Qed.

(** *** The flattener keeps the identifiers *)

Lemma col_index_nth_error c cols k : col_index c cols = Some k -> nth_error cols k = Some c.
Proof.
  revert k. induction cols as [|c0 cols IH]; simpl; intros k H; [discriminate|].
  destruct (String.eqb c c0) eqn:E.
  - injection H as <-. apply String.eqb_eq in E. subst. reflexivity.
  - destruct (col_index c cols) as [k'|]; [|discriminate].
    injection H as <-. simpl. auto.
Qed.

Lemma col_index_ne c c' cols k k' :
  c <> c' -> col_index c cols = Some k -> col_index c' cols = Some k' -> k <> k'.
Proof.
  intros Hne H H' ->. apply col_index_nth_error in H, H'. congruence.
Qed.

Lemma cell_append_cell n j v r : (j < n)%nat -> cell j (append_cell n v r) = cell j r.
Proof.
  intros Hj. unfold cell, append_cell. simpl.
  rewrite app_nth1.
  2: { rewrite length_firstn, length_app, repeat_length. lia. }
  rewrite nth_firstn. destruct (Nat.ltb_spec j n) as [_|]; [|lia].
  destruct (Nat.lt_ge_cases j (length (cells r))) as [Hlt|Hge].
  - apply app_nth1. exact Hlt.
  - rewrite app_nth2, nth_repeat, nth_overflow by lia. reflexivity.
Qed.

Lemma map_cell_zip_with j (g : Value -> Row -> Row) vs rs :
  length vs = length rs ->
  (forall v r, cell j (g v r) = cell j r) ->
  map (cell j) (zip_with g vs rs) = map (cell j) rs.
Proof.
  intros Hlen Hg. revert rs Hlen.
  induction vs as [|v vs IH]; intros [|r rs] Hlen; simpl in *; try discriminate; auto.
  rewrite Hg, IH by lia. reflexivity.
Qed.

Lemma apply_column_cells f i j df d :
  apply_column f i df = Ok d -> i <> j ->
  columns d = columns df /\ map (cell j) (rows d) = map (cell j) (rows df).
Proof.
  unfold apply_column. intros H Hne.
  apply rbind_ok in H as (ms & Hms & H). injection H as <-. simpl.
  split; [reflexivity|].
  apply rmap_list_Forall2 in Hms. induction Hms as [|r m rs ms Hm _ IH]; simpl; [reflexivity|].
  rewrite IH. f_equal.
  unfold apply_cell in Hm. apply rbind_ok in Hm as (v & _ & Hm). injection Hm as <-.
  apply cell_set_cell_ne. exact Hne.
Qed.

Lemma parse_step_cells i j df d :
  parse_step i df = Ok d -> i <> j ->
  columns d = columns df /\ map (cell j) (rows d) = map (cell j) (rows df).
Proof.
  unfold parse_step. intros H Hne. apply rbind_ok in H as (first & _ & H).
  destruct (negb (is_dict (cell i first))).
  - eapply apply_column_cells; eauto.
  - injection H as <-. auto.
Qed.

Lemma smiles_step_cells i j1 d flat :
  smiles_step i d = Ok flat ->
  col_index "molecule_chembl_id" (columns d) = Some j1 ->
  exists j,
    col_index "molecule_chembl_id" (columns flat) = Some j
    /\ map (cell j) (rows flat) = map (cell j1) (rows d).
Proof.
  unfold smiles_step. intros H Hj1.
  apply rbind_ok in H as (smiles & Hsm & H).
  apply rmap_list_length in Hsm.
  set (added := set_column "canonical_smiles" smiles d) in *.
  assert (Hadded : col_index "molecule_chembl_id" (columns added) = Some j1
                   /\ map (cell j1) (rows added) = map (cell j1) (rows d)).
  { unfold added, set_column.
    destruct (col_index "canonical_smiles" (columns d)) as [k|] eqn:Hk; simpl.
    - split; [exact Hj1|]. apply map_cell_zip_with; [exact Hsm|].
      intros v r. apply cell_set_cell_ne.
      eapply col_index_ne; [|exact Hk|exact Hj1]. discriminate.
    - split; [apply col_index_app_old; exact Hj1|].
      apply map_cell_zip_with; [exact Hsm|].
      intros v r. apply cell_append_cell. eapply col_index_lt; eauto. }
  destruct Hadded as [Hj Hcells].
  unfold drop_columns in H. destruct (forallb _ _); [|discriminate].
  injection H as <-. cbn [columns rows].
  unfold drop_mask.
  destruct (select_nth (fun c => negb (existsb (String.eqb c) ["molecule_structures"]))
              "molecule_chembl_id" (columns added) (columns added) j1 "" Hj eq_refl)
    as (j & Hjj & _).
  exists j. split; [exact Hjj|].
  rewrite <- Hcells, map_map. apply map_ext. intros a.
  destruct (select_nth (fun c => negb (existsb (String.eqb c) ["molecule_structures"]))
              "molecule_chembl_id" (columns added) (cells a) j1 NaN Hj eq_refl)
    as (j' & Hj' & Hn).
  rewrite Hjj in Hj'. injection Hj' as <-. exact Hn.
Qed.

Lemma NoDup_map_filter {A B} (f : A -> B) (p : A -> bool) l :
  List.NoDup (map f l) -> List.NoDup (map f (List.filter p l)).
Proof.
  induction l as [|a l IH]; simpl; intros H; [constructor|].
  apply List.NoDup_cons_iff in H as [Hnotin Hnd].
  destruct (p a); simpl; [|auto].
  constructor; [|auto]. intros Hin. apply Hnotin.
  apply in_map_iff in Hin as (x & Hx & Hin). apply filter_In in Hin as [Hin _].
  apply in_map_iff. eauto.
Qed.

Lemma cleaned_compounds_unique c : cleaned_compounds c -> unique_ids c.
Proof.
  intros (c0 & w & c1 & w1 & Hc1 & Hc) j Hj.
  apply cleaner_unique_ids in Hc1.
  rewrite extract_steps in Hc. cbn [fst] in Hc.
  destruct (col_index "molecule_structures" (columns c1)) as [i|] eqn:Hi; [|discriminate].
  apply rbind_ok in Hc as (d & Hd & Hc). apply rbind_ok in Hc as (flat & Hflat & Hc).
  injection Hc as <-. simpl in Hj |- *.
  (* the identifier column of the cleaned table *)
  destruct (col_index "molecule_chembl_id" (columns c1)) as [j1|] eqn:Hj1.
  - assert (Hne : i <> j1) by (eapply col_index_ne; [|exact Hi|exact Hj1]; discriminate).
    destruct (parse_step_cells _ _ _ _ Hd Hne) as [Hcols Hcells].
    rewrite <- Hcols in Hj1.
    destruct (smiles_step_cells _ _ _ _ Hflat Hj1) as (j' & Hj' & Hflatcells).
    rewrite Hj in Hj'. injection Hj' as <-.
    apply NoDup_map_filter.
    rewrite <- (map_map (cell j) key_of), Hflatcells, Hcells, map_map.
    apply Hc1. rewrite <- Hcols. exact Hj1.
  - (* without one, the flattened table has none either *)
    exfalso. apply col_index_In in Hj.
    unfold smiles_step in Hflat. apply rbind_ok in Hflat as (smiles & _ & Hflat).
    unfold drop_columns in Hflat. destruct (forallb _ _); [|discriminate].
    injection Hflat as <-. cbn [columns] in Hj.
    unfold drop_mask in Hj. rewrite select_map_filter in Hj.
    apply filter_In in Hj as [Hj _].
    assert (Hd' : columns d = columns c1).
    { unfold parse_step in Hd. apply rbind_ok in Hd as (first & _ & Hd).
      destruct (negb _).
      - unfold apply_column in Hd. apply rbind_ok in Hd as (ms & _ & Hd).
        injection Hd as <-. reflexivity.
      - injection Hd as <-. reflexivity. }
    apply col_index_None in Hj1. apply Hj1. rewrite <- Hd'.
    unfold set_column in Hj.
    destruct (col_index "canonical_smiles" (columns d)); simpl in Hj; [exact Hj|].
    apply in_app_iff in Hj as [Hj|[Hj|[]]]; [exact Hj|discriminate].
Qed.

(** C1 (amended). The merged table.  A table the orchestrator returns is
    the merge of a cleaned bioactivity table and a cleaned, flattened
    compound table.  For every such pair [b], [c] and their merge [m]:
    both have unique identifiers; if [c] has no column called
    [standard_value] or [standard_units], the columns of [m] are exactly
    those of [c] plus these two; every row of [m] is made of one row of
    [b] and one row of [c] with the same [molecule_chembl_id] (it holds
    the identifier, the value and the unit of the first and then the
    cells of the second without its identifier); and [m] has no more rows
    than [b] and no more rows than [c]. *)
Theorem merged_table_correct :
  (forall bq cq dp tn w m w',
     get_bioactivity_compound_data bq cq dp tn w = (Ok m, w') ->
     exists b c,
       cleaned_bioactivities b /\ cleaned_compounds c /\ merge_step b c = Ok m)
  /\ forall b c m,
       cleaned_bioactivities b -> cleaned_compounds c -> merge_step b c = Ok m ->
       unique_ids b /\ unique_ids c
       /\ (~ In "standard_value" (columns c) -> ~ In "standard_units" (columns c) ->
           forall x, In x (columns m) <->
                     In x (columns c) \/ x = "standard_value" \/ x = "standard_units")
       /\ (exists i i1 i2 j,
             col_index "molecule_chembl_id" (columns b) = Some i
             /\ col_index "standard_value" (columns b) = Some i1
             /\ col_index "standard_units" (columns b) = Some i2
             /\ col_index "molecule_chembl_id" (columns c) = Some j
             /\ forall r, In r (rows m) ->
                  exists l rc,
                    In l (rows b) /\ In rc (rows c)
                    /\ cell 0 r = cell i l
                    /\ key_of (cell 0 r) = key_of (cell j rc)
                    /\ cells r = [cell i l; cell i1 l; cell i2 l]
                                 ++ select (drop_mask ["molecule_chembl_id"] (columns c))
                                           (cells rc))
       /\ len m <= len b
       /\ len m <= len c.
Proof.
  split; [exact orchestrator_steps|].
  intros b c m Hb Hc Hm.
  pose proof (cleaned_bioactivities_unique b Hb) as Hub.
  pose proof (cleaned_compounds_unique c Hc) as Huc.
  repeat (split; [assumption|]).
  destruct (merge_step_spec _ _ _ Hm)
    as (i & i1 & i2 & j & Hi & Hi1 & Hi2 & Hj & Hcols & Hrows & Hleft & Hright).
  split; [|split; [|split]].
  - intros Hv Hu x. rewrite Hcols, (merge_columns_no_overlap _ Hv Hu).
    rewrite in_app_iff, filter_In, not_id_spec. simpl.
    apply col_index_In in Hj.
    destruct (string_dec x "molecule_chembl_id") as [->|Hx];
      intuition (auto; congruence).
  - exists i, i1, i2, j. repeat (split; [assumption|]).
    intros r Hr. destruct (Hrows r Hr) as (l & rc & Hl & Hrc & Hk & Hcells).
    exists l, rc.
    assert (E : cell 0 r = cell i l) by (unfold cell at 1; rewrite Hcells; reflexivity).
    repeat split; auto. rewrite E. exact Hk.
  - apply Hleft, Huc, Hj.
  - apply Hright, Hub, Hi.
Qed.

(** A run of the whole pipeline: four bioactivities (CHEMBL1 twice, one
    in uM) and three compounds (one without a structure). *)
Definition example_bioactivities : QuerySet :=
  Ok [ [ ("molecule_chembl_id", VStr "CHEMBL1"); ("standard_value", VStr "5.0");
         ("standard_units", VStr "nM"); ("type", VStr "IC50") ];
       [ ("molecule_chembl_id", VStr "CHEMBL1"); ("standard_value", VStr "7.0");
         ("standard_units", VStr "nM"); ("type", VStr "IC50") ];
       [ ("molecule_chembl_id", VStr "CHEMBL2"); ("standard_value", VStr "3.0");
         ("standard_units", VStr "uM"); ("type", VStr "IC50") ];
       [ ("molecule_chembl_id", VStr "CHEMBL3"); ("standard_value", VStr "12");
         ("standard_units", VStr "nM"); ("type", VStr "IC50") ] ].

Definition example_compounds : QuerySet :=
  Ok [ [ ("molecule_chembl_id", VStr "CHEMBL3");
         ("molecule_structures", VDict [("canonical_smiles", VStr "CCO")]) ];
       [ ("molecule_chembl_id", VStr "CHEMBL1");
         ("molecule_structures", VDict [("canonical_smiles", VStr "CCC")]) ];
       [ ("molecule_chembl_id", VStr "CHEMBL7"); ("molecule_structures", VNone) ] ].

Definition example_run : Result DataFrame * World :=
  get_bioactivity_compound_data example_bioactivities example_compounds
    "data" "EGFR" empty_world.

Definition example_merged : DataFrame :=
  {| columns := ["molecule_chembl_id"; "standard_value"; "standard_units";
                 "canonical_smiles"];
     rows := [ {| label := 0;
                  cells := [VStr "CHEMBL1"; VFloat (float_of_Z 5); VStr "nM"; VStr "CCC"] |};
               {| label := 1;
                  cells := [VStr "CHEMBL3"; VFloat (float_of_Z 12); VStr "nM"; VStr "CCO"] |} ] |}.

Lemma merged_table_correct_witness :
  example_run = (Ok example_merged, snd example_run)
  /\ exists b c,
       cleaned_bioactivities b /\ cleaned_compounds c
       /\ merge_step b c = Ok example_merged
       /\ len example_merged <= len b
       /\ len example_merged <= len c.
Proof.
  assert (H : example_run = (Ok example_merged, snd example_run))
    by (vm_compute; reflexivity).
  split; [exact H|].
  destruct (proj1 merged_table_correct _ _ _ _ _ _ _ H) as (b & c & Hb & Hc & Hm).
  destruct (proj2 merged_table_correct b c _ Hb Hc Hm)
    as (_ & _ & _ & _ & Hlb & Hlc).
  exists b, c. auto.
Defined.

(** Compound records that carry a [standard_value] field of their own. *)
Definition overlap_bioactivities : QuerySet :=
  Ok [ [ ("molecule_chembl_id", VStr "CHEMBL1"); ("standard_value", VStr "5.0");
         ("standard_units", VStr "nM") ] ].

Definition overlap_compounds : QuerySet :=
  Ok [ [ ("molecule_chembl_id", VStr "CHEMBL1"); ("standard_value", VStr "7.0");
         ("molecule_structures", VDict [("canonical_smiles", VStr "CCO")]) ] ].

Definition overlap_b : DataFrame :=
  {| columns := ["molecule_chembl_id"; "standard_value"; "standard_units"];
     rows := [ {| label := 0;
                  cells := [VStr "CHEMBL1"; VFloat (float_of_Z 5); VStr "nM"] |} ] |}.

Definition overlap_c : DataFrame :=
  {| columns := ["molecule_chembl_id"; "standard_value"; "canonical_smiles"];
     rows := [ {| label := 0;
                  cells := [VStr "CHEMBL1"; VStr "7.0"; VStr "CCO"] |} ] |}.

Definition overlap_merged : DataFrame :=
  {| columns := ["molecule_chembl_id"; "standard_value_x"; "standard_units";
                 "standard_value_y"; "canonical_smiles"];
     rows := [ {| label := 0;
                  cells := [VStr "CHEMBL1"; VFloat (float_of_Z 5); VStr "nM";
                            VStr "7.0"; VStr "CCO"] |} ] |}.

(** The cleaned tables are [overlap_b] and [overlap_c], the orchestrator
    returns their merge, and [standard_value], a column of the compound
    table, is not a column of the merged table. *)
Lemma merged_columns_get_suffixes :
  fst (preprocess_queried_dataset
         (from_records [ [ ("molecule_chembl_id", VStr "CHEMBL1");
                           ("standard_value", VStr "5.0");
                           ("standard_units", VStr "nM") ] ])
         (Some ["standard_value"]) true true true (Some "nM") empty_world)
  = Ok overlap_b
  /\ fst (preprocess_queried_dataset
            (from_records [ [ ("molecule_chembl_id", VStr "CHEMBL1");
                              ("standard_value", VStr "7.0");
                              ("molecule_structures",
                               VDict [("canonical_smiles", VStr "CCO")]) ] ])
            None true true true None empty_world)
     = Ok (from_records [ [ ("molecule_chembl_id", VStr "CHEMBL1");
                            ("standard_value", VStr "7.0");
                            ("molecule_structures",
                             VDict [("canonical_smiles", VStr "CCO")]) ] ])
  /\ fst (extract_smiles_from_molecular_representation
            (from_records [ [ ("molecule_chembl_id", VStr "CHEMBL1");
                              ("standard_value", VStr "7.0");
                              ("molecule_structures",
                               VDict [("canonical_smiles", VStr "CCO")]) ] ])
            empty_world)
     = Ok overlap_c
  /\ merge_step overlap_b overlap_c = Ok overlap_merged
  /\ fst (get_bioactivity_compound_data overlap_bioactivities overlap_compounds
            "data" "EGFR" empty_world)
     = Ok overlap_merged
  /\ In "standard_value" (columns overlap_c)
  /\ ~ In "standard_value" (columns overlap_merged).
Proof.
  split; [vm_compute; reflexivity|].
  split; [vm_compute; reflexivity|].
  split; [vm_compute; reflexivity|].
  split; [vm_compute; reflexivity|].
  split; [vm_compute; reflexivity|].
  split; [right; left; reflexivity|].
  simpl. intros [H|[H|[H|[H|[H|[]]]]]]; discriminate.
Qed.

(* ================================================================== *)
(** * Further properties of the four functions *)
(* ================================================================== *)

(** ** The cleaner: what the returned table looks like *)

Lemma cleaner_rows_from_dropna df ctf dn dd ri su w out r :
  fst (preprocess_queried_dataset df ctf dn dd ri su w) = Ok out ->
  In r (rows out) ->
  exists d1 r0,
    coerce_step ctf df = Ok d1
    /\ In r0 (rows (dropna_step dn d1)) /\ cells r = cells r0.
Proof.
  intros H Hr. apply preprocess_ok in H as (d1 & d3 & d4 & H1 & H3 & H4 & ->).
  apply reindex_step_rows in Hr as (r0 & Hr0 & Hcells).
  eapply dedup_step_rows in Hr0; [|exact H4].
  eapply unit_step_rows in Hr0; [|exact H3].
  eauto.
Qed.

(** X1. With [drop_na] set, the table the cleaner returns has no missing
    value anywhere: not a [None], not a NaN, in no row and no column,
    the NaN a coercion produces included. *)
Theorem cleaner_output_complete df ctf dd ri su w out :
  fst (preprocess_queried_dataset df ctf true dd ri su w) = Ok out ->
  forall r v, In r (rows out) -> In v (cells r) -> isna v = false.
Proof.
  intros H r v Hr Hv.
  destruct (cleaner_rows_from_dropna _ _ _ _ _ _ _ _ _ H Hr) as (d1 & r0 & _ & Hr0 & Hcells).
  simpl in Hr0. apply filter_In in Hr0 as [_ Hc].
  rewrite Hcells in Hv. eapply complete_spec; eauto.
Qed.

(** A bioactivity whose value is the text "nan": the coercion makes it a
    NaN, and the row goes. *)
Definition nan_table : DataFrame :=
  {| columns := ["molecule_chembl_id"; "standard_value"; "standard_units"];
     rows := [ {| label := 0; cells := [VStr "CHEMBL1"; VStr "nan"; VStr "nM"] |};
               {| label := 1; cells := [VStr "CHEMBL2"; VStr "2.5"; VStr "nM"] |} ] |}.

Definition nan_cleaned : DataFrame :=
  {| columns := ["molecule_chembl_id"; "standard_value"; "standard_units"];
     rows := [ {| label := 0;
                  cells := [VStr "CHEMBL2"; VFloat (float_of_ratio false 5 2); VStr "nM"] |} ] |}.

Lemma nan_run w :
  fst (preprocess_queried_dataset nan_table (Some ["standard_value"])
         true true true (Some "nM") w) = Ok nan_cleaned.
Proof. rewrite preprocess_steps. vm_compute. reflexivity. Qed.

Lemma cleaner_output_complete_witness :
  fst (preprocess_queried_dataset nan_table (Some ["standard_value"])
         true true true (Some "nM") empty_world) = Ok nan_cleaned
  /\ isna (VFloat (float_of_ratio false 5 2)) = false.
Proof.
  split; [apply nan_run|].
  apply (cleaner_output_complete nan_table (Some ["standard_value"]) true true
           (Some "nM") empty_world nan_cleaned (nan_run _)
           {| label := 0;
              cells := [VStr "CHEMBL2"; VFloat (float_of_ratio false 5 2); VStr "nM"] |}).
  - left. reflexivity.
  - right. left. reflexivity.
Defined.

(** *** Row labels *)

Lemma relabel_labels n rs :
  map label (relabel n rs) = map (fun k => n + Z.of_nat k) (seq 0 (length rs)).
Proof.
  revert n. induction rs as [|r rs IH]; intros n; [reflexivity|].
  cbn [relabel map length seq label]. rewrite IH, <- seq_shift, map_map.
  f_equal; [lia|]. apply map_ext. intros k. lia.
Qed.

Lemma filter_sublist {A} (f : A -> bool) (l : list A) : sublist (List.filter f l) l.
Proof.
  induction l as [|a l IH]; simpl; [constructor|].
  destruct (f a); [apply sublist_skip|apply sublist_cons]; exact IH.
Qed.

Lemma sublist_map {A B} (f : A -> B) (l k : list A) :
  sublist l k -> sublist (map f l) (map f k).
Proof. induction 1; simpl; [constructor|apply sublist_skip|apply sublist_cons]; auto. Qed.

Lemma dropna_step_sublist dn df : sublist (rows (dropna_step dn df)) (rows df).
Proof. unfold dropna_step, dropna. destruct dn; simpl; [apply filter_sublist|reflexivity]. Qed.

Lemma unit_step_sublist su df d3 : unit_step su df = Ok d3 -> sublist (rows d3) (rows df).
Proof.
  unfold unit_step, select_eq. intros H.
  destruct su as [u|]; [destruct (negb (String.eqb u "all"))|].
  1: destruct (col_index "standard_units" (columns df)); [|discriminate].
  all: injection H as <-; simpl; try reflexivity.
  apply filter_sublist.
Qed.

Lemma dedup_step_sublist dd df d4 : dedup_step dd df = Ok d4 -> sublist (rows d4) (rows df).
Proof.
  unfold dedup_step, Pandas.drop_duplicates. intros H.
  destruct dd; [|injection H as <-; reflexivity].
  destruct (empty df); [injection H as <-; reflexivity|].
  destruct (col_index _ _) as [i|]; [|discriminate].
  apply rbind_ok in H as (krs & Hk & H). injection H as <-. simpl.
  apply rmap_row_key in Hk as [-> _]. apply keep_first_sublist.
Qed.

Lemma coerce_step_labels ctf df d1 :
  coerce_step ctf df = Ok d1 -> map label (rows d1) = map label (rows df).
Proof.
  intros H. apply coerce_step_rows in H.
  induction H as [|r r' rs rs' (L & _) _ IH]; simpl; [reflexivity|].
  rewrite L, IH. reflexivity.
Qed.

(** X2. Row labels of the cleaned table.  With [reset_index] set the
    rows are labelled 0, 1, 2, ... in order; without it the surviving
    rows keep the labels they had in the input, in their order. *)
Theorem cleaner_output_labels df ctf dn dd ri su w out :
  fst (preprocess_queried_dataset df ctf dn dd ri su w) = Ok out ->
  if ri then map label (rows out) = map Z.of_nat (seq 0 (length (rows out)))
  else sublist (map label (rows out)) (map label (rows df)).
Proof.
  intros H. apply preprocess_ok in H as (d1 & d3 & d4 & H1 & H3 & H4 & ->).
  unfold reindex_step, Pandas.reset_index. destruct ri; simpl.
  - rewrite relabel_labels, relabel_length. apply map_ext. intros k. lia.
  - rewrite <- (coerce_step_labels _ _ _ H1). apply sublist_map.
    etransitivity; [eapply dedup_step_sublist; eauto|].
    etransitivity; [eapply unit_step_sublist; eauto|].
    apply dropna_step_sublist.
Qed.

Lemma cleaner_output_labels_witness :
  map label (rows nan_cleaned) = [0]
  /\ sublist [1] (map label (rows nan_table)).
Proof.
  split.
  - exact (cleaner_output_labels nan_table (Some ["standard_value"]) true true true
             (Some "nM") empty_world nan_cleaned (nan_run _)).
  - exact (cleaner_output_labels nan_table (Some ["standard_value"]) true true false
             (Some "nM") empty_world
             {| columns := columns nan_table;
                rows := [ {| label := 1;
                             cells := [VStr "CHEMBL2";
                                       VFloat (float_of_ratio false 5 2); VStr "nM"] |} ] |}
             ltac:(vm_compute; reflexivity)).
Defined.

(** *** Cleaning twice *)

Lemma rmap_list_id {A} (f : A -> Result A) l :
  (forall a, In a l -> f a = Ok a) -> rmap_list f l = Ok l.
Proof.
  induction l as [|a l IH]; simpl; intros H; [reflexivity|].
  rewrite (H a) by auto. simpl. rewrite IH by auto. reflexivity.
Qed.

Lemma set_cell_same i r : set_cell i (cell i r) r = r.
Proof.
  destruct r as [lb cs]. unfold set_cell, cell. simpl. f_equal.
  destruct (Nat.lt_ge_cases i (length cs)) as [Hlt|Hge].
  - apply list_insert_id. rewrite nth_lookup.
    destruct (cs !! i) eqn:E; [reflexivity|].
    apply lookup_ge_None in E. lia.
  - apply list_insert_ge. exact Hge.
Qed.

Lemma with_rows_same df : with_rows df (rows df) = df.
Proof. destruct df. reflexivity. Qed.

Lemma to_float64_float v v' : to_float64 v = Ok v' -> exists f, v' = VFloat f.
Proof.
  destruct v; simpl; intros H; try discriminate.
  - injection H as <-. unfold NaN. eauto.
  - injection H as <-. eauto.
  - destruct (float_is_inf _); [discriminate|]. injection H as <-. eauto.
  - injection H as <-. eauto.
  - apply rbind_ok in H as (f & _ & H). injection H as <-. eauto.
Qed.

(** Columns that already hold floats pass the coercion unchanged. *)
Lemma astype_from_id i names cols rs :
  (forall r j c, In r rs -> nth_error names j = Some c ->
                 existsb (String.eqb c) cols = true ->
                 exists f, cell (i + j) r = VFloat f) ->
  astype_from i names cols rs = Ok rs.
Proof.
  revert i. induction names as [|c names IH]; simpl; intros i H; [reflexivity|].
  assert (Hfirst : (if existsb (String.eqb c) cols
                    then rmap_list (astype_cell i) rs else Ok rs) = Ok rs).
  { destruct (existsb (String.eqb c) cols) eqn:E; [|reflexivity].
    apply rmap_list_id. intros r Hr.
    destruct (H r O c Hr eq_refl E) as (f & Hf). rewrite Nat.add_0_r in Hf.
    unfold astype_cell. rewrite Hf. simpl. rewrite <- Hf. rewrite set_cell_same. reflexivity. }
  rewrite Hfirst. simpl. apply IH.
  intros r j c' Hr Hc' E. replace (S i + j)%nat with (i + S j)%nat by lia.
  eapply H; eauto.
Qed.

Lemma filter_all {A} (f : A -> bool) l :
  (forall a, In a l -> f a = true) -> List.filter f l = l.
Proof.
  induction l as [|a l IH]; simpl; intros H; [reflexivity|].
  rewrite (H a) by auto. rewrite IH by auto. reflexivity.
Qed.

Lemma keep_first_id i seen rs :
  List.NoDup (map (key_at i) rs) ->
  (forall r, In r rs -> ~ In (key_at i r) seen) ->
  keep_first seen (map (fun r => (key_at i r, r)) rs) = rs.
Proof.
  revert seen. induction rs as [|r rs IH]; simpl; intros seen Hnd Hs; [reflexivity|].
  apply List.NoDup_cons_iff in Hnd as [Hnotin Hnd].
  destruct (existsb (Key_eqb (key_at i r)) seen) eqn:E.
  - apply existsb_Key_In in E. exfalso. eapply Hs; eauto.
  - f_equal. apply IH; [exact Hnd|].
    intros r' Hr' [Heq|Hin]; [|eapply Hs; eauto].
    apply Hnotin. rewrite Heq. apply in_map. exact Hr'.
Qed.

Lemma rmap_row_key_total i rs :
  (forall r, In r rs -> key_of (cell i r) = Ok (key_at i r)) ->
  rmap_list (row_key i) rs = Ok (map (fun r => (key_at i r, r)) rs).
Proof.
  induction rs as [|r rs IH]; simpl; intros H; [reflexivity|].
  unfold row_key at 1. rewrite (H r) by auto. simpl. rewrite IH by auto. reflexivity.
Qed.

Lemma dedup_step_keys df out i :
  col_index "molecule_chembl_id" (columns df) = Some i ->
  dedup_step true df = Ok out ->
  (forall r, In r (rows out) -> key_of (cell i r) = Ok (key_at i r))
  /\ List.NoDup (map (key_at i) (rows out)).
Proof.
  intros Hi H. unfold dedup_step, Pandas.drop_duplicates in H.
  destruct (empty df) eqn:He.
  - injection H as <-. unfold empty in He.
    destruct (columns df); [discriminate|].
    destruct (rows df); [|discriminate]. split; [intros r []|constructor].
  - rewrite Hi in H. apply rbind_ok in H as (krs & Hk & H). injection H as <-.
    apply rmap_row_key in Hk as [-> HF]. simpl. rewrite List.Forall_forall in HF.
    split; [|apply keep_first_NoDup].
    intros r Hr. apply HF. eapply keep_first_In. exact Hr.
Qed.

Lemma relabel_relabel n rs : relabel n (relabel n rs) = relabel n rs.
Proof. revert n. induction rs as [|r rs IH]; simpl; intros n; [|rewrite IH]; reflexivity. Qed.

Lemma empty_rows_cols df df' :
  columns df' = columns df -> length (rows df') = length (rows df) -> empty df' = empty df.
Proof.
  unfold empty. intros -> Hlen. destruct (columns df); [reflexivity|].
  destruct (rows df), (rows df'); simpl in Hlen; try discriminate; reflexivity.
Qed.

(** X3. Cleaning is idempotent.  A table the cleaner returned goes
    through the cleaner again, under the same flags and arguments,
    without a change and without an error. *)
Theorem cleaner_idempotent df ctf dn dd ri su w out w' :
  fst (preprocess_queried_dataset df ctf dn dd ri su w) = Ok out ->
  fst (preprocess_queried_dataset out ctf dn dd ri su w') = Ok out.
Proof.
  intros H.
  pose proof H as Hsteps.
  apply preprocess_ok in Hsteps as (d1 & d3 & d4 & H1 & H3 & H4 & Hout).
  assert (Hcols : columns out = columns df).
  { subst out. destruct (reindex_step_len ri d4) as [_ ->].
    destruct (dedup_step_len _ _ _ H4) as [_ ->].
    destruct (unit_step_len _ _ _ H3) as [_ ->].
    destruct (dropna_step_len dn d1) as [_ ->].
    destruct (coerce_step_len _ _ _ H1) as [_ ->]. reflexivity. }
  assert (Hcols3 : columns d3 = columns df).
  { destruct (unit_step_len _ _ _ H3) as [_ ->].
    destruct (dropna_step_len dn d1) as [_ ->].
    destruct (coerce_step_len _ _ _ H1) as [_ ->]. reflexivity. }
  (* every row of the result has the cells of a row of each stage *)
  assert (Hfrom : forall r, In r (rows out) ->
            exists r4, In r4 (rows d4) /\ cells r = cells r4
                       /\ In r4 (rows d3) /\ In r4 (rows (dropna_step dn d1))).
  { intros r Hr. subst out. apply reindex_step_rows in Hr as (r4 & Hr4 & Hc).
    exists r4. repeat split; auto.
    - eapply dedup_step_rows; eauto.
    - eapply unit_step_rows; [exact H3|]. eapply dedup_step_rows; eauto. }
  rewrite preprocess_steps.
  (* 1: the coercion *)
  assert (E1 : coerce_step ctf out = Ok out).
  { unfold coerce_step, astype_float64 in *. destruct ctf as [cols|]; [|reflexivity].
    unfold has_column in *. rewrite Hcols.
    destruct (forallb _ cols); [|discriminate].
    rewrite astype_from_id; [simpl; rewrite with_rows_same; reflexivity|].
    intros r j c Hr Hc E. simpl.
    destruct (Hfrom r Hr) as (r4 & _ & Hcells & _ & Hr4).
    apply dropna_step_rows in Hr4.
    apply rbind_ok in H1 as (rs & Hrs & H1). injection H1 as <-.
    apply astype_from_spec in Hrs.
    destruct (Forall2_In_r _ _ _ _ Hrs Hr4) as (r0 & _ & _ & _ & _ & C).
    specialize (C j c Hc). rewrite E in C. simpl in C.
    apply to_float64_float in C as (f & Hf).
    exists f. unfold cell in *. rewrite Hcells. exact Hf. }
  rewrite E1. cbn [rbind].
  (* 2: the missing values *)
  assert (E2 : dropna_step dn out = out).
  { unfold dropna_step, dropna. destruct dn; [|reflexivity].
    rewrite filter_all; [apply with_rows_same|].
    intros r Hr. destruct (Hfrom r Hr) as (r4 & _ & Hcells & _ & Hr4).
    simpl in Hr4. apply filter_In in Hr4 as [_ Hc].
    unfold complete in *. rewrite Hcells. exact Hc. }
  rewrite E2.
  (* 3: the unit *)
  assert (E3 : unit_step su out = Ok out).
  { unfold unit_step in *. destruct su as [u|]; [|reflexivity].
    destruct (negb (String.eqb u "all")); [|reflexivity].
    destruct (dropna_step_len dn d1) as [_ Hc2].
    destruct (coerce_step_len _ _ _ H1) as [_ Hc1].
    rewrite Hc2, Hc1 in H3. rewrite Hcols.
    destruct (col_index "standard_units" (columns df)) as [i|]; [|discriminate].
    injection H3 as <-. unfold select_eq.
    rewrite filter_all; [rewrite with_rows_same; reflexivity|].
    intros r Hr. destruct (Hfrom r Hr) as (r4 & _ & Hcells & Hr3 & _).
    simpl in Hr3. apply filter_In in Hr3 as [_ E].
    unfold cell in *. rewrite Hcells. exact E. }
  rewrite E3. cbn [rbind].
  (* 4: the duplicates *)
  assert (E4 : dedup_step dd out = Ok out).
  { unfold dedup_step. destruct dd; [|reflexivity].
    unfold Pandas.drop_duplicates. destruct (empty out) eqn:He; [reflexivity|].
    rewrite Hcols.
    destruct (col_index "molecule_chembl_id" (columns df)) as [i|] eqn:Hi.
    - rewrite <- Hcols3 in Hi.
      destruct (dedup_step_keys _ _ _ Hi H4) as [Hkeys Hnd].
      assert (Hkeys' : forall r, In r (rows out) -> key_of (cell i r) = Ok (key_at i r)).
      { intros r Hr. destruct (Hfrom r Hr) as (r4 & Hr4 & Hcells & _).
        unfold key_at, cell. rewrite Hcells. apply (Hkeys r4 Hr4). }
      rewrite (rmap_row_key_total _ _ Hkeys'). cbn [rbind].
      rewrite keep_first_id; [rewrite with_rows_same; reflexivity| |intros r _ []].
      subst out. unfold reindex_step, Pandas.reset_index. destruct ri; simpl; [|exact Hnd].
      unfold key_at. rewrite (map_cell_relabel (fun v => match key_of v with
                                                         | Ok k => k
                                                         | Raise _ => KNA
                                                         end)).
      exact Hnd.
    - (* the first run met an empty table here, so the result is empty *)
      exfalso. unfold dedup_step, Pandas.drop_duplicates in H4.
      destruct (empty d3) eqn:He3.
      + injection H4 as <-.
        rewrite (empty_rows_cols d3 out) in He; [congruence| |].
        * congruence.
        * subst out. destruct (reindex_step_len ri d3) as [Hl _].
          unfold len in Hl. lia.
      + rewrite Hcols3, Hi in H4. discriminate. }
  rewrite E4. cbn [rbind].
  (* 5: the index *)
  f_equal. subst out. unfold reindex_step, Pandas.reset_index. destruct ri; [|reflexivity].
  simpl. unfold with_rows. simpl. rewrite relabel_relabel. reflexivity.
Qed.

Lemma cleaner_idempotent_witness :
  fst (preprocess_queried_dataset scenario_cleaned (Some ["standard_value"])
         true true true (Some "nM") empty_world) = Ok scenario_cleaned.
Proof.
  exact (cleaner_idempotent scenario_table (Some ["standard_value"]) true true true
           (Some "nM") empty_world scenario_cleaned empty_world (scenario_run _)).
Defined.

(** ** The cleaner: what it prints and what it leaves alone *)

(** World [w'] differs from [w] at most in what was printed. *)
Definition same_store (w w' : World) : Prop :=
  files w' = files w /\ dirs w' = dirs w /\ remote_calls w' = remote_calls w.

Definition unit_active (standard_unit : option string) : bool :=
  match standard_unit with
  | Some unit => negb (String.eqb unit "all")
  | None => false
  end.

Lemma cleaner_same_store df ctf dn dd ri su w :
  same_store w (snd (preprocess_queried_dataset df ctf dn dd ri su w)).
Proof.
  unfold preprocess_queried_dataset, same_store. run.
  destruct ctf as [cols|]; run.
  1: destruct (astype_float64 cols df) as [d1|e]; [|simpl; auto].
  all: destruct dn; run.
  all: destruct su as [u|]; [destruct (String.eqb u "all")|]; cbn [negb]; run.
  all: try match goal with
       | |- context [col_index "standard_units" ?c] =>
           destruct (col_index "standard_units" c); run; [|simpl; auto]
       end.
  all: destruct dd; run.
  all: try match goal with
       | |- context [Pandas.drop_duplicates ?a ?b] =>
           destruct (Pandas.drop_duplicates a b); run; [|simpl; auto]
       end.
  all: simpl; auto.
Qed.

(** X4. The cleaner only prints.  Whatever it is given and whether it
    returns or raises, it sends no query and touches no file or
    directory.  When it returns, what it has printed is, in order: the
    row count of the input; for each of the three removal steps that
    ran, the number of rows the step removed and the number left; and
    last the row count of the table it returns. *)
Theorem cleaner_only_prints df ctf dn dd ri su w :
  same_store w (snd (preprocess_queried_dataset df ctf dn dd ri su w))
  /\ forall out,
       fst (preprocess_queried_dataset df ctf dn dd ri su w) = Ok out ->
       exists d1 d3 d4,
         coerce_step ctf df = Ok d1
         /\ unit_step su (dropna_step dn d1) = Ok d3
         /\ dedup_step dd d3 = Ok d4
         /\ stdout (snd (preprocess_queried_dataset df ctf dn dd ri su w))
            = stdout w
              ++ [PInitial (len df)]
              ++ (if dn then [PNaNs (len df - len (dropna_step dn d1))
                                    (len (dropna_step dn d1))] else [])
              ++ (if unit_active su
                  then [PUnits (len (dropna_step dn d1) - len d3) (len d3)] else [])
              ++ (if dd then [PDuplicates (len d3 - len d4) (len d4)] else [])
              ++ [PSamples (len out)].
Proof.
  split; [apply cleaner_same_store|].
  intros out H.
  pose proof H as Hs. apply preprocess_ok in Hs as (d1 & d3 & d4 & H1 & H3 & H4 & Hout).
  exists d1, d3, d4. repeat (split; [assumption|]).
  pose proof (coerce_step_len _ _ _ H1) as [L1 _].
  pose proof (reindex_step_len ri d4) as [L5 _]. rewrite <- Hout in L5.
  clear H Hout.
  unfold preprocess_queried_dataset. run.
  unfold coerce_step in H1. destruct ctf as [cols|]; run.
  1: rewrite H1. 2: injection H1 as <-.
  all: unfold dropna_step in *; destruct dn; run.
  all: unfold unit_step, unit_active in *.
  all: destruct su as [u|]; [destruct (String.eqb u "all")|]; cbn [negb] in *; run.
  all: try match type of H3 with
       | context [col_index "standard_units" ?c] =>
           destruct (col_index "standard_units" c); [|discriminate]
       end.
  all: injection H3 as <-; run.
  all: unfold dedup_step in H4; destruct dd; run.
  all: try rewrite H4; run.
  all: try (injection H4 as <-).
  all: cbn [stdout]; rewrite <- ?app_assoc; cbn [app].
  all: rewrite ?L5, ?L1; reflexivity.
Qed.

Lemma cleaner_only_prints_witness :
  exists d1 d3 d4,
    coerce_step (Some ["standard_value"]) scenario_table = Ok d1
    /\ unit_step (Some "nM") (dropna_step true d1) = Ok d3
    /\ dedup_step true d3 = Ok d4
    /\ stdout (snd (preprocess_queried_dataset scenario_table (Some ["standard_value"])
                      true true true (Some "nM") empty_world))
       = stdout empty_world
         ++ [PInitial (len scenario_table)]
         ++ [PNaNs (len scenario_table - len (dropna_step true d1))
                   (len (dropna_step true d1))]
         ++ [PUnits (len (dropna_step true d1) - len d3) (len d3)]
         ++ [PDuplicates (len d3 - len d4) (len d4)]
         ++ [PSamples (len scenario_cleaned)].
Proof.
  exact (proj2 (cleaner_only_prints scenario_table (Some ["standard_value"])
                  true true true (Some "nM") empty_world)
           scenario_cleaned (scenario_run _)).
Defined.

(** ** The cleaner: columns it needs *)

Lemma forallb_false_In {A} (f : A -> bool) l a : In a l -> f a = false -> forallb f l = false.
Proof.
  intros Hin Hf. destruct (forallb f l) eqn:E; [|reflexivity].
  rewrite forallb_forall in E. rewrite (E a Hin) in Hf. discriminate.
Qed.

(** X5. Columns the cleaner is told to use must be there.  A name in
    [columns_to_float] that is no column of the table makes the cleaner
    raise [KeyError] at once, with only the first message printed.  With
    [drop_duplicates] set, a table without a [molecule_chembl_id] column
    that still has rows when the deduplication is reached makes it raise
    [KeyError] too. *)
Theorem cleaner_missing_column df dn dd ri su w :
  (forall cols c,
     In c cols -> has_column c df = false ->
     preprocess_queried_dataset df (Some cols) dn dd ri su w
     = (Raise KeyError,
        {| files := files w; dirs := dirs w; remote_calls := remote_calls w;
           stdout := stdout w ++ [PInitial (len df)] |}))
  /\ (forall ctf d1 d3,
        coerce_step ctf df = Ok d1 ->
        unit_step su (dropna_step dn d1) = Ok d3 ->
        rows d3 <> [] -> columns df <> [] ->
        has_column "molecule_chembl_id" df = false ->
        fst (preprocess_queried_dataset df ctf dn true ri su w) = Raise KeyError).
Proof.
  split.
  - intros cols c Hc Hno. unfold preprocess_queried_dataset. run.
    unfold astype_float64. rewrite (forallb_false_In _ _ _ Hc Hno). reflexivity.
  - intros ctf d1 d3 H1 H3 Hrows Hcols Hno. rewrite preprocess_steps, H1. cbn [rbind].
    rewrite H3. cbn [rbind]. unfold dedup_step, Pandas.drop_duplicates.
    assert (Hc3 : columns d3 = columns df).
    { destruct (unit_step_len _ _ _ H3) as [_ ->].
      destruct (dropna_step_len dn d1) as [_ ->].
      destruct (coerce_step_len _ _ _ H1) as [_ ->]. reflexivity. }
    unfold empty. rewrite Hc3.
    destruct (columns df) eqn:Ec; [congruence|].
    destruct (rows d3); [congruence|].
    apply has_column_col_index in Hno. rewrite Ec in Hno. rewrite Hno. reflexivity.
Qed.

Lemma cleaner_missing_column_witness :
  fst (preprocess_queried_dataset scenario_table (Some ["pchembl_value"])
         true true true (Some "nM") empty_world) = Raise KeyError
  /\ fst (preprocess_queried_dataset
            {| columns := ["standard_units"];
               rows := [ {| label := 0; cells := [VStr "nM"] |} ] |}
            None true true true (Some "nM") empty_world) = Raise KeyError.
Proof.
  split.
  - rewrite (proj1 (cleaner_missing_column scenario_table true true true (Some "nM")
                      empty_world) ["pchembl_value"] "pchembl_value");
      [reflexivity | left; reflexivity | reflexivity].
  - apply (proj2 (cleaner_missing_column
                    {| columns := ["standard_units"];
                       rows := [ {| label := 0; cells := [VStr "nM"] |} ] |}
                    true true true (Some "nM") empty_world)
             None
             {| columns := ["standard_units"];
                rows := [ {| label := 0; cells := [VStr "nM"] |} ] |}
             {| columns := ["standard_units"];
                rows := [ {| label := 0; cells := [VStr "nM"] |} ] |});
      [reflexivity | reflexivity | discriminate | discriminate | reflexivity].
Defined.

(** ** The flattener: what it returns, whatever the representation *)

Lemma zip_with_length_le {A B C} (f : A -> B -> C) la lb :
  (length (zip_with f la lb) <= length lb)%nat.
Proof.
  revert lb. induction la as [|a la IH]; intros [|b lb]; simpl; try lia.
  specialize (IH lb). lia.
Qed.


Lemma zip_with_labels {A} (f : A -> Row -> Row) vals rs :
  (forall v r, label (f v r) = label r) ->
  length vals = length rs ->
  map label (zip_with f vals rs) = map label rs.
Proof.
  intros Hf. revert rs. induction vals as [|v vals IH]; intros [|r rs] Hl;
    simpl in *; try discriminate; [reflexivity|].
  rewrite Hf, IH by lia. reflexivity.
Qed.

Lemma set_column_labels name vals df :
  length vals = length (rows df) ->
  map label (rows (set_column name vals df)) = map label (rows df).
Proof.
  intros Hl. unfold set_column. destruct (col_index name (columns df)); simpl;
    apply zip_with_labels; auto.
Qed.

Lemma set_column_has name vals df : has_column name (set_column name vals df) = true.
Proof.
  apply has_column_In. unfold set_column.
  destruct (col_index name (columns df)) eqn:E; simpl.
  - eapply col_index_In; eauto.
  - apply in_app_iff. right. left. reflexivity.
Qed.

Lemma smiles_step_shape i d flat :
  smiles_step i d = Ok flat ->
  has_column "molecule_structures" flat = false
  /\ has_column "canonical_smiles" flat = true
  /\ map label (rows flat) = map label (rows d).
Proof.
  unfold smiles_step. intros H. apply rbind_ok in H as (smiles & Hsm & H).
  apply rmap_list_length in Hsm.
  pose proof (set_column_labels "canonical_smiles" smiles d Hsm) as Hlab.
  pose proof (set_column_has "canonical_smiles" smiles d) as Hhas.
  revert H Hlab Hhas. generalize (set_column "canonical_smiles" smiles d). intros a H Hlab Hhas.
  unfold drop_columns in H. destruct (forallb _ _); [|discriminate].
  injection H as <-. unfold drop_mask.
  change (fun c => negb (existsb (String.eqb c) ["molecule_structures"]))
    with not_structures.
  rewrite select_map_filter.
  split; [|split].
  - match goal with |- has_column ?c ?t = false => destruct (has_column c t) eqn:E end;
      [|reflexivity].
    apply has_column_In in E. simpl in E. apply filter_In in E as [_ E]. discriminate.
  - apply has_column_In. simpl. apply filter_In. split; [|reflexivity].
    apply has_column_In. exact Hhas.
  - simpl. rewrite map_map. simpl. exact Hlab.
Qed.

Lemma parse_step_labels i df d :
  parse_step i df = Ok d -> map label (rows d) = map label (rows df).
Proof.
  unfold parse_step. intros Hd. apply rbind_ok in Hd as (first & _ & Hd).
  destruct (negb _); [|injection Hd as <-; reflexivity].
  unfold apply_column in Hd. apply rbind_ok in Hd as (ms & Hms' & Hd).
  injection Hd as <-. simpl. apply rmap_list_Forall2 in Hms'.
  induction Hms' as [|r m rs ms' Hm _ IH]; simpl; [reflexivity|].
  rewrite IH. f_equal. unfold apply_cell in Hm.
  apply rbind_ok in Hm as (v & _ & Hm). injection Hm as <-. reflexivity.
Qed.

(** X6. What the flattener returns.  Whenever it returns a table, for
    structures given as mappings or as text alike, the table has a
    [canonical_smiles] column and no [molecule_structures] column, no
    cell of it is missing, it has no more rows than the input, its rows
    keep the labels and the order they had, and nothing was printed,
    queried or written. *)
Theorem flattener_postcondition df w out w' :
  extract_smiles_from_molecular_representation df w = (Ok out, w') ->
  w' = w
  /\ has_column "molecule_structures" out = false
  /\ has_column "canonical_smiles" out = true
  /\ (forall r v, In r (rows out) -> In v (cells r) -> isna v = false)
  /\ len out <= len df
  /\ sublist (map label (rows out)) (map label (rows df)).
Proof.
  rewrite extract_steps. intros H. injection H as H <-.
  split; [reflexivity|].
  destruct (col_index "molecule_structures" (columns df)) as [i|]; [|discriminate].
  apply rbind_ok in H as (d & Hd & H). apply rbind_ok in H as (flat & Hflat & H).
  injection H as <-.
  pose proof (parse_step_labels _ _ _ Hd) as Hlabels.
  destruct (smiles_step_shape _ _ _ Hflat) as (Hms & Hcs & Hlab).
  assert (Hsub : sublist (map label (rows (dropna flat))) (map label (rows df))).
  { simpl. etransitivity; [apply sublist_map, filter_sublist|].
    rewrite Hlab, Hlabels. reflexivity. }
  split; [exact Hms|]. split; [exact Hcs|]. split; [|split; [|exact Hsub]].
  - intros r v Hr Hv. simpl in Hr. apply filter_In in Hr as [_ Hr].
    eapply complete_spec; eauto.
  - apply sublist_length in Hsub. rewrite !length_map in Hsub. unfold len. lia.
Qed.

Lemma flattener_postcondition_witness :
  has_column "molecule_structures" scenario_flattened = false
  /\ has_column "canonical_smiles" scenario_flattened = true
  /\ len scenario_flattened <= len scenario_compounds.
Proof.
  destruct (flattener_postcondition scenario_compounds empty_world scenario_flattened
              empty_world ltac:(vm_compute; reflexivity))
    as (_ & Hms & Hcs & _ & Hlen & _).
  auto.
Defined.

(** The first element that fails decides the error of a traversal. *)
Lemma rmap_list_raise {A B} (f : A -> Result B) l a e :
  In a l -> f a = Raise e ->
  (forall x, In x l -> (exists b, f x = Ok b) \/ f x = Raise e) ->
  rmap_list f l = Raise e.
Proof.
  induction l as [|x l IH]; simpl; intros Hin Ha Hall; [contradiction|].
  destruct (Hall x (or_introl eq_refl)) as [[b Hb]|Hx].
  - rewrite Hb. cbn [rbind]. destruct Hin as [->|Hin]; [congruence|].
    rewrite IH; auto.
  - rewrite Hx. reflexivity.
Qed.

(** X7. One test on the first row decides how every row is read.  When
    the first structure is a mapping, no cell is parsed, and a later
    cell that is no mapping (a missing structure, say) makes the
    flattener raise [TypeError]; when the first structure is no mapping,
    every cell is parsed as text, and a cell that is no text makes it
    raise [ValueError].  (The other cells are taken to be sound:
    mappings with a [canonical_smiles] field, texts that parse.)  Nothing
    is printed or written. *)
Theorem flattener_mixed_representations df i first w :
  col_index "molecule_structures" (columns df) = Some i ->
  iloc0 df = Ok first ->
  (is_dict (cell i first) = true ->
   (exists r, In r (rows df) /\ is_dict (cell i r) = false) ->
   (forall r d, In r (rows df) -> cell i r = VDict d ->
                dict_get "canonical_smiles" d <> None) ->
   extract_smiles_from_molecular_representation df w = (Raise TypeError, w))
  /\ (is_dict (cell i first) = false ->
      (exists r, In r (rows df) /\ forall s, cell i r <> VStr s) ->
      (forall r s, In r (rows df) -> cell i r = VStr s ->
                   exists v, literal_eval (VStr s) = Ok v) ->
      extract_smiles_from_molecular_representation df w = (Raise ValueError, w)).
Proof.
  intros Hi Hfirst. split.
  - intros Hd (r & Hr & Hnd) Hkeys. rewrite extract_steps, Hi. f_equal.
    unfold parse_step. rewrite Hfirst. cbn [rbind]. rewrite Hd. cbn [negb rbind].
    unfold smiles_step.
    rewrite (rmap_list_raise _ (rows df) r TypeError); [reflexivity|exact Hr| |].
    + destruct (cell i r); try reflexivity. discriminate.
    + intros x Hx. destruct (cell i x) as [| | | | |l|d] eqn:E; simpl; auto.
      left. specialize (Hkeys x d Hx E).
      destruct (dict_get "canonical_smiles" d) as [v|]; [eauto|congruence].
  - intros Hd (r & Hr & Hns) Hparse. rewrite extract_steps, Hi. f_equal.
    unfold parse_step. rewrite Hfirst. cbn [rbind]. rewrite Hd. cbn [negb].
    unfold apply_column.
    rewrite (rmap_list_raise _ (rows df) r ValueError); [reflexivity|exact Hr| |].
    + unfold apply_cell. destruct (cell i r) as [| | | |s| |] eqn:E; try reflexivity.
      destruct (Hns s). reflexivity.
    + intros x Hx. unfold apply_cell.
      destruct (cell i x) as [| | | |s| |] eqn:E; try (right; reflexivity).
      left. destruct (Hparse x s Hx E) as [v Hv]. rewrite Hv. simpl. eauto.
Qed.

Definition missing_structure_later : DataFrame :=
  {| columns := ["molecule_chembl_id"; "molecule_structures"];
     rows := [ {| label := 0;
                  cells := [VStr "CHEMBL1"; VDict [("canonical_smiles", VStr "CCO")]] |};
               {| label := 1; cells := [VStr "CHEMBL2"; VNone] |} ] |}.

Definition missing_structure_first : DataFrame :=
  {| columns := ["molecule_chembl_id"; "molecule_structures"];
     rows := [ {| label := 0; cells := [VStr "CHEMBL2"; VNone] |};
               {| label := 1;
                  cells := [VStr "CHEMBL1"; VDict [("canonical_smiles", VStr "CCO")]] |} ] |}.

Lemma flattener_mixed_representations_witness :
  extract_smiles_from_molecular_representation missing_structure_later empty_world
  = (Raise TypeError, empty_world)
  /\ extract_smiles_from_molecular_representation missing_structure_first empty_world
     = (Raise ValueError, empty_world).
Proof.
  split.
  - apply (proj1 (flattener_mixed_representations missing_structure_later 1%nat
                    {| label := 0;
                       cells := [VStr "CHEMBL1";
                                 VDict [("canonical_smiles", VStr "CCO")]] |}
                    empty_world eq_refl eq_refl)).
    + reflexivity.
    + exists {| label := 1; cells := [VStr "CHEMBL2"; VNone] |}.
      split; [right; left; reflexivity|reflexivity].
    + intros r d [<-|[<-|[]]] E; vm_compute in E; [|discriminate].
      injection E as <-. discriminate.
  - apply (proj2 (flattener_mixed_representations missing_structure_first 1%nat
                    {| label := 0; cells := [VStr "CHEMBL2"; VNone] |}
                    empty_world eq_refl eq_refl)).
    + reflexivity.
    + exists {| label := 0; cells := [VStr "CHEMBL2"; VNone] |}.
      split; [left; reflexivity|discriminate].
    + intros r s [<-|[<-|[]]] E; vm_compute in E; discriminate.
Defined.




(** ** The cleaner: one bad value stops it *)

Lemma Forall2_In_l {A B} (R : A -> B -> Prop) l l' x :
  Forall2 R l l' -> In x l -> exists y, In y l' /\ R x y.
Proof.
  induction 1 as [|x' y l l' HR HF IH]; simpl; [tauto|].
  intros [<-|H]; [eauto|]. apply IH in H as (y' & ? & ?). eauto.
Qed.

(** X9. The conversion to float64 reads every row before any row is
    filtered.  If some row, in a column listed in [columns_to_float],
    holds a value that cannot be converted (text that is no number, a
    list, a mapping, an integer too large), the cleaner raises and
    returns no table, even when that row would have been dropped
    later as incomplete, in another unit or as a duplicate. *)
Theorem cleaner_rejects_unconvertible_value df cols c j r e dn dd ri su w :
  In c cols ->
  col_index c (columns df) = Some j ->
  In r (rows df) ->
  to_float64 (cell j r) = Raise e ->
  exists e', fst (preprocess_queried_dataset df (Some cols) dn dd ri su w) = Raise e'.
Proof.
  intros Hc Hj Hr He. rewrite preprocess_steps.
  destruct (coerce_step (Some cols) df) as [d1|e'] eqn:H1; [|eauto].
  exfalso. apply coerce_step_rows in H1.
  destruct (Forall2_In_l _ _ _ _ H1 Hr) as (r' & _ & _ & _ & Hcells).
  specialize (Hcells j c (col_index_nth_error _ _ _ Hj)).
  assert (Hl : listed (Some cols) c = true).
  { simpl. apply existsb_exists. exists c. split; [exact Hc|apply String.eqb_refl]. }
  rewrite Hl in Hcells. congruence.
Qed.

Lemma cleaner_rejects_unconvertible_value_witness :
  exists e',
    fst (preprocess_queried_dataset
           {| columns := ["molecule_chembl_id"; "standard_value"; "standard_units"];
              rows := [ {| label := 0; cells := [VStr "CHEMBL1"; VStr "5.0"; VStr "nM"] |};
                        {| label := 1; cells := [VStr "CHEMBL2"; VStr ">10"; VStr "uM"] |} ] |}
           (Some ["standard_value"]) true true true (Some "nM") empty_world)
    = Raise e'.
Proof.
  apply (cleaner_rejects_unconvertible_value _ ["standard_value"] "standard_value" 1%nat
           {| label := 1; cells := [VStr "CHEMBL2"; VStr ">10"; VStr "uM"] |} ValueError);
    [left; reflexivity | reflexivity | right; left; reflexivity | vm_compute; reflexivity].
Defined.

(** ** The loader: what it reads, what it writes *)

(** X10. A cache file wins.  When a file is at the cache path, the
    result does not depend on the query or on [save_df], the world is
    left as it was (no query is sent, nothing is written), and a file
    that cannot be read as a table makes the loader raise the reader's
    error instead of falling back on the query. *)
Theorem loader_cache_wins query query' dp qn tn save save' w f :
  files w !! cache_path dp qn tn = Some f ->
  retrieve_or_create_dataframe_from_query query dp qn tn save w
  = retrieve_or_create_dataframe_from_query query' dp qn tn save' w
  /\ snd (retrieve_or_create_dataframe_from_query query dp qn tn save w) = w
  /\ (forall e, parse_csv f = Raise e ->
        fst (retrieve_or_create_dataframe_from_query query dp qn tn save w) = Raise e).
Proof.
  intros Hf. rewrite !(loader_hit _ _ _ _ _ _ _ Hf).
  split; [reflexivity|]. split; [reflexivity|].
  intros e He. simpl. rewrite He. reflexivity.
Qed.

Lemma loader_cache_wins_witness :
  retrieve_or_create_dataframe_from_query (Ok []) "data" "compounds" "EGFR" true saved_world
  = retrieve_or_create_dataframe_from_query (Raise RemoteError) "data" "compounds" "EGFR"
      false saved_world
  /\ snd (retrieve_or_create_dataframe_from_query (Ok []) "data" "compounds" "EGFR" true
            saved_world) = saved_world.
Proof.
  destruct (loader_cache_wins (Ok []) (Raise RemoteError) "data" "compounds" "EGFR"
              true false saved_world saved_cache eq_refl) as (H1 & H2 & _).
  split; [exact H1|exact H2].
Defined.

(** The world after one more query. *)
Definition queried (w : World) : World :=
  {| files := files w; dirs := dirs w;
     remote_calls := S (remote_calls w); stdout := stdout w |}.

(** X11. Fetching without saving.  With no cache file, when [save_df]
    is off or the query fails, the loader returns what the query gives
    (its records as a table, or its error) and changes nothing but the
    count of queries sent: no file and no directory is created, so the
    next call queries again. *)
Theorem loader_fetch_only query dp qn tn save w :
  files w !! cache_path dp qn tn = None ->
  norm_path (cache_path dp qn tn) ∉ dirs w ->
  save = false \/ (exists e, query = Raise e) ->
  retrieve_or_create_dataframe_from_query query dp qn tn save w
  = (rbind query (fun recs => Ok (from_records recs)), queried w)
  /\ retrieve_or_create_dataframe_from_query query dp qn tn save (queried w)
     = (rbind query (fun recs => Ok (from_records recs)), queried (queried w)).
Proof.
  intros Hf Hd Hcase.
  assert (Hgen : forall w0, files w0 = files w -> dirs w0 = dirs w ->
            retrieve_or_create_dataframe_from_query query dp qn tn save w0
            = (rbind query (fun recs => Ok (from_records recs)), queried w0)).
  { intros w0 Hf0 Hd0. rewrite loader_miss by (rewrite ?Hf0, ?Hd0; assumption).
    rewrite run_bind. unfold fetch_records at 1. fold (queried w0).
    destruct Hcase as [->|[e ->]].
    - destruct query as [recs|e]; cbn [rbind]; [|reflexivity]. run. reflexivity.
    - reflexivity. }
  split; apply Hgen; reflexivity.
Qed.

Lemma loader_fetch_only_witness :
  retrieve_or_create_dataframe_from_query compound_records "data" "compounds" "EGFR"
    false empty_world
  = (rbind compound_records (fun recs => Ok (from_records recs)), queried empty_world)
  /\ retrieve_or_create_dataframe_from_query (Raise RemoteError) "data" "compounds" "EGFR"
       true empty_world
     = (Raise RemoteError, queried empty_world).
Proof.
  split.
  - apply (loader_fetch_only compound_records "data" "compounds" "EGFR" false empty_world);
      [reflexivity | vm_compute; set_solver | left; reflexivity].
  - apply (loader_fetch_only (Raise RemoteError) "data" "compounds" "EGFR" true empty_world);
      [reflexivity | vm_compute; set_solver | right; eexists; reflexivity].
Defined.

Lemma path_join_empty b : path_join "" b = b.
Proof. unfold path_join. simpl. destruct (chars b) as [|c cs]; [reflexivity|]. destruct (code c =? 47); reflexivity. Qed.

(** X12. The current directory cannot be the data directory.  With an
    empty [data_path] the cache file is looked for under its bare name;
    when it is not there and [save_df] is set, the loader sends the
    query and then raises [FileNotFoundError]: the empty path does not
    exist, so the loader tries to create it.  The fetched records are
    lost and no file is written. *)
Theorem loader_empty_data_path recs qn tn w :
  files w !! (tn +:+ "_" +:+ qn +:+ ".csv") = None ->
  norm_path (tn +:+ "_" +:+ qn +:+ ".csv") ∉ dirs w ->
  retrieve_or_create_dataframe_from_query (Ok recs) "" qn tn true w
  = (Raise FileNotFoundError, queried w).
Proof.
  intros Hf Hd.
  assert (Hp : cache_path "" qn tn = tn +:+ "_" +:+ qn +:+ ".csv")
    by apply path_join_empty.
  rewrite loader_miss by (rewrite Hp; assumption).
  rewrite run_bind. unfold fetch_records at 1. fold (queried w). cbn [rbind].
  run. unfold path_exists at 1. run. reflexivity.
Qed.

Lemma loader_empty_data_path_witness :
  retrieve_or_create_dataframe_from_query compound_records "" "compounds" "EGFR" true
    empty_world
  = (Raise FileNotFoundError, queried empty_world).
Proof.
  apply (loader_empty_data_path _ "compounds" "EGFR" empty_world);
    [reflexivity | vm_compute; set_solver].
Defined.

(** X13. The loader's footprint.  Whatever the arguments and whatever
    the outcome, the loader prints nothing, sends at most one query,
    leaves every file other than the cache file as it was, removes no
    directory and creates at most the data directory; the cache file
    itself is either left as it was or, with [save_df] set, holds the
    records just fetched. *)
Theorem loader_footprint query dp qn tn save w :
  stdout (snd (retrieve_or_create_dataframe_from_query query dp qn tn save w)) = stdout w
  /\ (remote_calls (snd (retrieve_or_create_dataframe_from_query query dp qn tn save w))
      = remote_calls w
      \/ remote_calls (snd (retrieve_or_create_dataframe_from_query query dp qn tn save w))
         = S (remote_calls w))
  /\ (dirs (snd (retrieve_or_create_dataframe_from_query query dp qn tn save w)) = dirs w
      \/ dirs (snd (retrieve_or_create_dataframe_from_query query dp qn tn save w))
         = {[norm_path dp]} ∪ dirs w)
  /\ (files (snd (retrieve_or_create_dataframe_from_query query dp qn tn save w)) = files w
      \/ exists recs,
           query = Ok recs /\ save = true
           /\ files (snd (retrieve_or_create_dataframe_from_query query dp qn tn save w))
              = <[cache_path dp qn tn := csv_of (from_records recs)]> (files w)).
Proof.
  set (res := retrieve_or_create_dataframe_from_query query dp qn tn save w).
  assert (Hres : retrieve_or_create_dataframe_from_query query dp qn tn save w = res)
    by reflexivity.
  clearbody res. revert Hres.
  destruct (files w !! cache_path dp qn tn) as [f|] eqn:Hf.
  { rewrite (loader_hit _ _ _ _ _ _ _ Hf). intros <-. simpl. auto. }
  destruct (decide (norm_path (cache_path dp qn tn) ∈ dirs w)) as [Hd|Hd].
  { rewrite (loader_dir _ _ _ _ _ _ Hf Hd). intros <-. simpl. auto. }
  rewrite (loader_miss _ _ _ _ _ _ Hf Hd).
  rewrite run_bind. unfold fetch_records at 1.
  destruct query as [recs|e]; cbn [rbind]; [|intros <-; simpl; auto].
  destruct save; run; [|intros <-; simpl; auto].
  unfold path_exists at 1. run.
  match goal with |- context [negb ?b] => destruct (negb b) end.
  - unfold mkdir at 1. cbn [files dirs remote_calls stdout].
    destruct (String.eqb dp ""); [intros <-; simpl; auto|].
    destruct (_ || _); [intros <-; simpl; auto|].
    destruct (is_dir _ _); [|intros <-; simpl; auto]. run.
    unfold to_csv at 1. cbn [files dirs remote_calls stdout].
    destruct (negb _); [intros <-; simpl; auto|].
    destruct (bool_decide _); [intros <-; simpl; auto|]. run.
    intros <-. simpl. repeat split; eauto.
  - run. unfold to_csv at 1. cbn [files dirs remote_calls stdout].
    destruct (negb _); [intros <-; simpl; auto|].
    destruct (bool_decide _); [intros <-; simpl; auto|]. run.
    intros <-. simpl. repeat split; eauto.
Qed.

(** ** The orchestrator: runs after the first *)

Lemma same_store_refl w : same_store w w.
Proof. unfold same_store. auto. Qed.

Lemma same_store_trans w1 w2 w3 : same_store w1 w2 -> same_store w2 w3 -> same_store w1 w3.
Proof. unfold same_store. intros (F1 & D1 & R1) (F2 & D2 & R2). repeat split; congruence. Qed.

Lemma print_same_store p w : same_store w (snd (print p w)).
Proof. unfold same_store. simpl. auto. Qed.

(** A call with [save_df] set that returns a table leaves the cache
    file in place, and removes no other file. *)
Lemma loader_ok_cached query dp qn tn w t w1 :
  retrieve_or_create_dataframe_from_query query dp qn tn true w = (Ok t, w1) ->
  is_Some (files w1 !! cache_path dp qn tn)
  /\ forall p, is_Some (files w !! p) -> is_Some (files w1 !! p).
Proof.
  destruct (files w !! cache_path dp qn tn) as [f|] eqn:Hf.
  { rewrite (loader_hit _ _ _ _ _ _ _ Hf). intros [= _ <-]. rewrite Hf. eauto. }
  destruct (decide (norm_path (cache_path dp qn tn) ∈ dirs w)) as [Hd|Hd].
  { rewrite (loader_dir _ _ _ _ _ _ Hf Hd). discriminate. }
  rewrite (loader_miss _ _ _ _ _ _ Hf Hd).
  rewrite run_bind. unfold fetch_records at 1.
  destruct query as [recs|e]; cbn [rbind]; [|discriminate].
  assert (Hins : forall (fs : gmap string CsvFile) c,
            fs = files w ->
            is_Some (<[cache_path dp qn tn := c]> fs !! cache_path dp qn tn)
            /\ forall p, is_Some (files w !! p)
                         -> is_Some (<[cache_path dp qn tn := c]> fs !! p)).
  { intros fs c ->. split.
    - rewrite lookup_insert_eq. eauto.
    - intros p Hp. destruct (decide (p = cache_path dp qn tn)) as [->|Hne].
      + rewrite lookup_insert_eq. eauto.
      + rewrite lookup_insert_ne by congruence. exact Hp. }
  run. unfold path_exists at 1. run.
  match goal with |- context [negb ?b] => destruct (negb b) end.
  - unfold mkdir at 1. cbn [files dirs remote_calls stdout].
    destruct (String.eqb dp ""); [discriminate|].
    destruct (_ || _); [discriminate|].
    destruct (is_dir _ _); [|discriminate]. run.
    unfold to_csv at 1. cbn [files dirs remote_calls stdout].
    destruct (negb _); [discriminate|].
    destruct (bool_decide _); [discriminate|]. run.
    intros [= _ <-]. cbn [files]. apply Hins. reflexivity.
  - run. unfold to_csv at 1. cbn [files dirs remote_calls stdout].
    destruct (negb _); [discriminate|].
    destruct (bool_decide _); [discriminate|]. run.
    intros [= _ <-]. cbn [files]. apply Hins. reflexivity.
Qed.

Lemma flattener_world df w : snd (extract_smiles_from_molecular_representation df w) = w.
Proof. rewrite extract_steps. reflexivity. Qed.

(** With both cache files in place the orchestrator changes nothing but
    what is printed, whatever its outcome. *)
Lemma orchestrator_cached bq cq dp tn w :
  is_Some (files w !! cache_path dp "bioactivities" tn) ->
  is_Some (files w !! cache_path dp "compounds" tn) ->
  same_store w (snd (get_bioactivity_compound_data bq cq dp tn w)).
Proof.
  intros [fb Hb] [fc Hc]. unfold get_bioactivity_compound_data.
  rewrite run_bind, run_print.
  match goal with |- same_store _ (snd (_ ?w0)) => set (wa := w0) end.
  assert (Sa : same_store w wa) by (unfold same_store; simpl; auto).
  rewrite run_bind.
  fold (cache_path dp "bioactivities" tn) in *.
  rewrite (loader_hit bq dp "bioactivities" tn true wa fb)
    by (destruct Sa as [-> _]; exact Hb).
  destruct (rbind (parse_csv fb) _) as [b0|e]; [|exact Sa].
  rewrite run_bind.
  pose proof (cleaner_same_store b0 (Some ["standard_value"]) true true true (Some "nM") wa)
    as Sb.
  destruct (preprocess_queried_dataset b0 _ _ _ _ _ wa) as [[b|e] wb];
    cbn [snd] in Sb; pose proof (same_store_trans _ _ _ Sa Sb) as Swb; [|exact Swb].
  rewrite run_bind, run_print.
  match goal with |- same_store _ (snd (_ ?w0)) => set (wc := w0) end.
  assert (Sc : same_store w wc).
  { eapply same_store_trans; [exact Swb|]. unfold same_store; simpl; auto. }
  rewrite run_bind.
  rewrite (loader_hit cq dp "compounds" tn true wc fc)
    by (destruct Sc as [-> _]; exact Hc).
  destruct (rbind (parse_csv fc) _) as [c0|e]; [|exact Sc].
  rewrite run_bind.
  pose proof (cleaner_same_store c0 None true true true None wc) as Sd.
  destruct (preprocess_queried_dataset c0 _ _ _ _ _ wc) as [[c1|e] wd];
    cbn [snd] in Sd; pose proof (same_store_trans _ _ _ Sc Sd) as Swd; [|exact Swd].
  rewrite run_bind.
  pose proof (flattener_world c1 wd) as Se.
  destruct (extract_smiles_from_molecular_representation c1 wd) as [[c|e] we];
    cbn [snd] in Se; subst we; [|exact Swd].
  rewrite run_bind, run_print.
  match goal with |- same_store _ (snd (_ ?w0)) => set (wf := w0) end.
  assert (Sf : same_store w wf).
  { eapply same_store_trans; [exact Swd|]. unfold same_store; simpl; auto. }
  rewrite run_bind, run_lift.
  destruct (getitem_columns _ b) as [p|e]; [|exact Sf].
  rewrite run_bind, run_lift.
  destruct (merge p c "molecule_chembl_id") as [mg|e]; [|exact Sf].
  rewrite run_bind, run_print, run_ret. cbn [snd].
  eapply same_store_trans; [exact Sf|]. unfold same_store; simpl; auto.
Qed.

(** After a run that returned a table both cache files are in place. *)
Lemma orchestrator_ok_cached bq cq dp tn w m w' :
  get_bioactivity_compound_data bq cq dp tn w = (Ok m, w') ->
  is_Some (files w' !! cache_path dp "bioactivities" tn)
  /\ is_Some (files w' !! cache_path dp "compounds" tn).
Proof.
  unfold get_bioactivity_compound_data. intros H.
  apply bind_ok_inv in H as (u1 & wa & _ & H).
  apply bind_ok_inv in H as (b0 & wb & Hlb & H).
  apply bind_ok_inv in H as (b & wc & Hb & H).
  apply bind_ok_inv in H as (u2 & wd & Hp2 & H).
  apply bind_ok_inv in H as (c0 & we & Hlc & H).
  apply bind_ok_inv in H as (c1 & wf & Hc1 & H).
  apply bind_ok_inv in H as (c & wg & Hc & H).
  apply bind_ok_inv in H as (u3 & wh & Hp3 & H).
  apply bind_ok_inv in H as (p & wi & Hp & H).
  apply bind_ok_inv in H as (mg & wj & Hm & H).
  apply bind_ok_inv in H as (u4 & wk & Hp4 & H).
  rewrite run_ret in H. injection H as _ <-.
  apply loader_ok_cached in Hlb as [Hb1 _].
  apply loader_ok_cached in Hlc as [Hc1' Hmono].
  pose proof (cleaner_same_store b0 (Some ["standard_value"]) true true true (Some "nM") wb)
    as Sb. rewrite Hb in Sb. destruct Sb as [Fb _]. cbn [snd] in Fb.
  pose proof (cleaner_same_store c0 None true true true None we) as Sc.
  rewrite Hc1 in Sc. destruct Sc as [Fc _]. cbn [snd] in Fc.
  pose proof (flattener_world c1 wf) as Fg. rewrite Hc in Fg. cbn [snd] in Fg.
  rewrite run_print in Hp2, Hp3, Hp4. rewrite run_lift in Hp, Hm.
  injection Hp2 as _ <-. injection Hp3 as _ <-. injection Hp4 as _ <-.
  injection Hp as _ <-. injection Hm as _ <-. subst wg.
  cbn [files] in *. rewrite Fc. split; [|exact Hc1'].
  apply Hmono. cbn [files]. rewrite Fb. exact Hb1.
Qed.

(** X14. Runs after the first.  After a run that returned a table, any
    further run with the same [data_path] and [target_name] reads both
    tables from the cache: it sends no query, whatever queries it is
    given, and changes no file and no directory, whether it returns a
    table or raises. *)
Theorem orchestrator_rerun_from_cache bq cq bq' cq' dp tn w m w' :
  get_bioactivity_compound_data bq cq dp tn w = (Ok m, w') ->
  same_store w' (snd (get_bioactivity_compound_data bq' cq' dp tn w')).
Proof.
  intros H. apply orchestrator_ok_cached in H as [Hb Hc].
  apply orchestrator_cached; assumption.
Qed.

Lemma orchestrator_rerun_from_cache_witness :
  same_store (snd example_run)
    (snd (get_bioactivity_compound_data (Raise RemoteError) (Raise RemoteError)
            "data" "EGFR" (snd example_run))).
Proof.
  apply (orchestrator_rerun_from_cache example_bioactivities example_compounds
           (Raise RemoteError) (Raise RemoteError) "data" "EGFR" empty_world
           example_merged (snd example_run)).
  vm_compute. reflexivity.
Defined.

(** ** The orchestrator: the table it returns *)

Lemma zip_with_length_eq {A B C} (f : A -> B -> C) la lb :
  length la = length lb -> length (zip_with f la lb) = length lb.
Proof.
  revert lb. induction la as [|a la IH]; intros [|b lb] H; simpl in *;
    try discriminate; [reflexivity|]. rewrite IH by lia. reflexivity.
Qed.

Lemma column_kinds_length j n recs : length (column_kinds j n recs) = n.
Proof. revert j. induction n as [|n IH]; intros j; simpl; [|rewrite IH]; reflexivity. Qed.

Lemma header_names_length i hd : length (header_names i hd) = length hd.
Proof. revert i. induction hd as [|h hd IH]; intros i; simpl; [|rewrite IH]; reflexivity. Qed.

Lemma pad_length n rec : length (pad n rec) = n.
Proof.
  unfold pad. rewrite length_firstn, length_app, repeat_length. lia.
Qed.

Lemma parse_csv_rectangular f t : parse_csv f = Ok t -> rectangular t.
Proof.
  unfold parse_csv. destruct (length (header f) =? 0)%nat; [discriminate|].
  destruct (forallb _ _); [|discriminate]. intros [= <-].
  unfold rectangular. cbn [rows columns]. apply List.Forall_forall. intros r Hr.
  apply relabel_In in Hr as (r0 & Hr0 & ->).
  apply in_map_iff in Hr0 as (rec & <- & _). cbn [cells].
  rewrite header_names_length, zip_with_length_eq; rewrite pad_length; [reflexivity|].
  apply column_kinds_length.
Qed.

Lemma select_length_same {A B} mask (l : list A) (l' : list B) :
  length l = length l' -> length (select mask l) = length (select mask l').
Proof.
  revert l l'. induction mask as [|b mask IH]; intros [|x l] [|y l'] H; simpl in *;
    try discriminate; try reflexivity.
  destruct b; simpl; rewrite (IH l l') by lia; reflexivity.
Qed.

Lemma drop_columns_rectangular names t t' :
  rectangular t -> drop_columns names t = Ok t' -> rectangular t'.
Proof.
  unfold drop_columns, rectangular. intros Hr. destruct (forallb _ _); [|discriminate].
  intros [= <-]. cbn [rows columns]. apply List.Forall_forall. intros r Hin.
  apply in_map_iff in Hin as (r0 & <- & Hr0). cbn [select_cells cells].
  apply select_length_same. rewrite List.Forall_forall in Hr. auto.
Qed.

(** Every table the loader returns has one cell per column in each row. *)
Lemma loader_rectangular query dp qn tn save w t w1 :
  retrieve_or_create_dataframe_from_query query dp qn tn save w = (Ok t, w1) ->
  rectangular t.
Proof.
  destruct (files w !! cache_path dp qn tn) as [f|] eqn:Hf.
  { rewrite (loader_hit _ _ _ _ _ _ _ Hf). intros [= H _].
    apply rbind_ok in H as (full & Hfull & H).
    eapply drop_columns_rectangular; [|exact H]. eapply parse_csv_rectangular; eauto. }
  destruct (decide (norm_path (cache_path dp qn tn) ∈ dirs w)) as [Hd|Hd].
  { rewrite (loader_dir _ _ _ _ _ _ Hf Hd). discriminate. }
  rewrite (loader_miss _ _ _ _ _ _ Hf Hd). intros H.
  apply bind_ok_inv in H as (t0 & w0 & Hfetch & H).
  apply bind_ok_inv in H as (u & w2 & _ & H).
  rewrite run_ret in H. injection H as <- _.
  unfold fetch_records in Hfetch. injection Hfetch as Hfetch _.
  destruct query as [recs|e]; [|discriminate]. injection Hfetch as <-.
  apply List.Forall_forall. intros r Hr. apply from_records_rectangular. exact Hr.
Qed.

Lemma cleaner_rectangular df ctf dn dd ri su w out :
  rectangular df ->
  fst (preprocess_queried_dataset df ctf dn dd ri su w) = Ok out ->
  rectangular out.
Proof.
  intros Hrect H. apply List.Forall_forall. intros r Hr.
  destruct (cleaner_rows_from_dropna _ _ _ _ _ _ _ _ _ H Hr)
    as (d1 & r0 & H1 & Hr0 & Hcells).
  apply preprocess_ok in H as (d1' & d3 & d4 & H1' & H3 & H4 & ->).
  rewrite H1 in H1'. injection H1' as <-.
  destruct (reindex_step_len ri d4) as [_ ->].
  destruct (dedup_step_len _ _ _ H4) as [_ ->].
  destruct (unit_step_len _ _ _ H3) as [_ ->].
  destruct (dropna_step_len dn d1) as [_ ->].
  destruct (coerce_step_len _ _ _ H1) as [_ ->].
  apply dropna_step_rows in Hr0.
  destruct (Forall2_In_r _ _ _ _ (coerce_step_rows _ _ _ H1) Hr0)
    as (r1 & Hr1 & _ & Hlen & _).
  rewrite Hcells, Hlen. unfold rectangular in Hrect.
  rewrite List.Forall_forall in Hrect. auto.
Qed.

Lemma select_In {A} mask (l : list A) v : In v (select mask l) -> In v l.
Proof.
  revert l. induction mask as [|b mask IH]; intros [|x l]; simpl; try tauto.
  destruct b; simpl; intros H; [destruct H as [H|H]; [auto|]|]; right; auto.
Qed.

Lemma flattener_rows_complete df w out w' r :
  extract_smiles_from_molecular_representation df w = (Ok out, w') ->
  In r (rows out) -> complete r = true.
Proof.
  rewrite extract_steps. intros H. injection H as H _.
  destruct (col_index _ _) as [i|]; [|discriminate].
  apply rbind_ok in H as (d & _ & H). apply rbind_ok in H as (flat & _ & H).
  injection H as <-. simpl. intros Hr. apply filter_In in Hr. tauto.
Qed.

(** The steps of a run of the orchestrator that returns a table. *)
Lemma orchestrator_inv bq cq dp tn w m w' :
  get_bioactivity_compound_data bq cq dp tn w = (Ok m, w') ->
  exists wa b0 wb b wc wd c0 we c1 wf c wg,
    retrieve_or_create_dataframe_from_query bq dp "bioactivities" tn true wa = (Ok b0, wb)
    /\ preprocess_queried_dataset b0 (Some ["standard_value"]) true true true (Some "nM") wb
       = (Ok b, wc)
    /\ retrieve_or_create_dataframe_from_query cq dp "compounds" tn true wd = (Ok c0, we)
    /\ preprocess_queried_dataset c0 None true true true None we = (Ok c1, wf)
    /\ extract_smiles_from_molecular_representation c1 wf = (Ok c, wg)
    /\ merge_step b c = Ok m.
Proof.
  unfold get_bioactivity_compound_data. intros H.
  apply bind_ok_inv in H as (u1 & wa & _ & H).
  apply bind_ok_inv in H as (b0 & wb & Hlb & H).
  apply bind_ok_inv in H as (b & wc & Hb & H).
  apply bind_ok_inv in H as (u2 & wd & _ & H).
  apply bind_ok_inv in H as (c0 & we & Hlc & H).
  apply bind_ok_inv in H as (c1 & wf & Hc1 & H).
  apply bind_ok_inv in H as (c & wg & Hc & H).
  apply bind_ok_inv in H as (u3 & wh & _ & H).
  apply bind_ok_inv in H as (p & wi & Hp & H).
  apply bind_ok_inv in H as (mg & wj & Hm & H).
  apply bind_ok_inv in H as (u4 & wk & _ & H).
  rewrite run_ret in H. injection H as <- _.
  rewrite run_lift in Hp, Hm. injection Hp as Hp _. injection Hm as Hm _.
  exists wa, b0, wb, b, wc, wd, c0, we, c1, wf, c, wg.
  repeat (split; [assumption|]).
  unfold merge_step. rewrite Hp. simpl. rewrite Hm. reflexivity.
Qed.

Lemma merge_step_labels b c m :
  merge_step b c = Ok m -> map label (rows m) = map Z.of_nat (seq 0 (length (rows m))).
Proof.
  unfold merge_step. intros H.
  apply rbind_ok in H as (p & _ & H). apply rbind_ok in H as (mg & _ & H).
  injection H as <-. unfold Pandas.reset_index. cbn [rows with_rows].
  rewrite relabel_labels, relabel_length. apply map_ext. intros k. lia.
Qed.

(** X15. The table the orchestrator returns.  Its rows are labelled
    0, 1, 2, ... in order, and no cell of it is missing: every value
    comes from a bioactivity row or a compound row that went through
    the removal of incomplete rows. *)
Theorem orchestrator_output_complete bq cq dp tn w m w' :
  get_bioactivity_compound_data bq cq dp tn w = (Ok m, w') ->
  map label (rows m) = map Z.of_nat (seq 0 (length (rows m)))
  /\ forall r v, In r (rows m) -> In v (cells r) -> isna v = false.
Proof.
  intros H.
  apply orchestrator_inv in H
    as (wa & b0 & wb & b & wc & wd & c0 & we & c1 & wf & c & wg
        & Hlb & Hb & Hlc & Hc1 & Hc & Hm).
  split; [eapply merge_step_labels; eauto|].
  assert (Hbfst : fst (preprocess_queried_dataset b0 (Some ["standard_value"]) true true
                         true (Some "nM") wb) = Ok b) by (rewrite Hb; reflexivity).
  pose proof (cleaner_rectangular _ _ _ _ _ _ _ _ (loader_rectangular _ _ _ _ _ _ _ _ Hlb)
                Hbfst) as Hrect.
  unfold rectangular in Hrect. rewrite List.Forall_forall in Hrect.
  assert (Hbc : forall l k, In l (rows b) -> (k < length (columns b))%nat ->
                            isna (cell k l) = false).
  { intros l k Hl Hk.
    destruct (cleaner_rows_from_dropna _ _ _ _ _ _ _ _ _ Hbfst Hl)
      as (d1 & r0 & _ & Hr0 & Hcells).
    simpl in Hr0. apply filter_In in Hr0 as [_ Hcomp].
    eapply complete_spec; [exact Hcomp|]. rewrite <- Hcells.
    unfold cell. apply nth_In. rewrite (Hrect l Hl). exact Hk. }
  destruct (merge_step_spec _ _ _ Hm)
    as (i & i1 & i2 & j & Hi & Hi1 & Hi2 & Hj & _ & Hrows & _).
  intros r v Hr Hv.
  destruct (Hrows r Hr) as (l & rc & Hl & Hrc & _ & Hcells).
  rewrite Hcells in Hv. apply in_app_iff in Hv as [Hv|Hv].
  - destruct Hv as [<-|[<-|[<-|[]]]]; apply Hbc; auto; eapply col_index_lt; eauto.
  - apply select_In in Hv.
    eapply complete_spec; [|exact Hv]. eapply flattener_rows_complete; eauto.
Qed.

Lemma orchestrator_output_complete_witness :
  map label (rows example_merged) = map Z.of_nat (seq 0 (length (rows example_merged)))
  /\ isna (VStr "CCC") = false.
Proof.
  destruct (orchestrator_output_complete example_bioactivities example_compounds
              "data" "EGFR" empty_world example_merged (snd example_run)
              ltac:(vm_compute; reflexivity)) as [Hl Hc].
  split; [exact Hl|].
  apply (Hc {| label := 0;
               cells := [VStr "CHEMBL1"; VFloat (float_of_Z 5); VStr "nM"; VStr "CCC"] |});
    [left; reflexivity | right; right; right; left; reflexivity].
Defined.

(** The identifiers of the joined rows, in order, are among those of the
    left rows, in order, when no identifier is twice on the right. *)
Lemma matches_keys_sublist mask (lk rk : list (Key * Row)) :
  List.NoDup (map fst rk) ->
  (forall kl, In kl lk ->
     cells (snd kl) <> [] /\ key_of (cell 0 (snd kl)) = Ok (fst kl)) ->
  sublist (map (fun r => key_of (cell 0 r)) (flat_map (matches mask rk) lk))
          (map (fun kl => Ok (fst kl)) lk).
Proof.
  intros Hnd. induction lk as [|kl lk IH]; intros Hk; [constructor|].
  cbn [flat_map map]. rewrite map_app.
  assert (IH' := IH (fun kl' H => Hk kl' (or_intror H))).
  destruct (Hk kl (or_introl eq_refl)) as [Hne Hkey].
  pose proof (matches_at_most_one (fst kl) rk Hnd) as Hone.
  unfold matches at 1.
  destruct (List.filter (fun kr => Key_eqb (fst kl) (fst kr)) rk) as [|kr [|kr' rest]].
  - simpl. apply sublist_cons. exact IH'.
  - cbn [map app]. 
    assert (E : key_of (cell 0 (join_row mask (snd kl) (snd kr))) = Ok (fst kl)).
    { rewrite <- Hkey. unfold cell, join_row. cbn [cells].
      destruct (cells (snd kl)); [congruence|reflexivity]. }
    rewrite E. apply sublist_skip. exact IH'.
  - simpl in Hone. lia.
Qed.

Lemma relabel_map_cells {A} (f : list Value -> A) n rs :
  map (fun r => f (cells r)) (relabel n rs) = map (fun r => f (cells r)) rs.
Proof.
  revert n. induction rs as [|r rs IH]; simpl; intros n; [reflexivity|].
  rewrite IH. reflexivity.
Qed.

Lemma sublist_In {A} (l k : list A) x : sublist l k -> In x l -> In x k.
Proof.
  induction 1 as [|y l k _ IH|y l k _ IH]; simpl; [tauto| |]; intros H.
  - destruct H as [H|H]; auto.
  - auto.
Qed.

Lemma sublist_List_NoDup {A} (l k : list A) : sublist l k -> List.NoDup k -> List.NoDup l.
Proof.
  induction 1 as [|y l k Hs IH|y l k Hs IH]; intros Hnd; [constructor| |].
  - apply List.NoDup_cons_iff in Hnd as [Hnotin Hnd]. constructor; [|auto].
    intros Hin. apply Hnotin. eapply sublist_In; eauto.
  - apply List.NoDup_cons_iff in Hnd as [_ Hnd]. auto.
Qed.

Lemma merge_step_unique b c m :
  merge_step b c = Ok m -> unique_ids b -> unique_ids c ->
  List.NoDup (map (fun r => key_of (cell 0 r)) (rows m)).
Proof.
  unfold merge_step. intros H Hub Huc.
  apply rbind_ok in H as (p & Hp & H). apply rbind_ok in H as (mg & Hm & H).
  injection H as <-.
  unfold getitem_columns in Hp. cbn [rmap_list] in Hp.
  destruct (col_index "molecule_chembl_id" (columns b)) as [i|] eqn:Hi; [|discriminate].
  destruct (col_index "standard_value" (columns b)) as [i1|]; [|discriminate].
  destruct (col_index "standard_units" (columns b)) as [i2|]; [|discriminate].
  cbn [rbind map] in Hp. injection Hp as <-.
  unfold merge in Hm. cbn [columns rows col_index String.eqb Ascii.eqb Bool.eqb] in Hm.
  destruct (col_index "molecule_chembl_id" (columns c)) as [j|] eqn:Hj; [|discriminate].
  apply rbind_ok in Hm as (lk & Hlk & Hm). apply rbind_ok in Hm as (rk & Hrk & Hm).
  injection Hm as <-.
  cbn [rows Pandas.reset_index with_rows].
  unfold cell.
  rewrite !(relabel_map_cells (fun cs => key_of (nth 0 cs NaN))).
  fold (cell 0).
  assert (Hl : List.NoDup (map fst lk)).
  { eapply keys_NoDup; [exact Hlk|]. rewrite map_map. cbn [cell cells nth].
    apply Hub. exact Hi. }
  assert (Hr : List.NoDup (map fst rk)).
  { eapply keys_NoDup; [exact Hrk|]. apply Huc. exact Hj. }
  eapply sublist_List_NoDup.
  - apply matches_keys_sublist; [exact Hr|].
    intros kl Hkl. pose proof (rmap_row_key _ _ _ Hlk) as [Elk HFl].
    rewrite List.Forall_forall in HFl. rewrite Elk in Hkl.
    apply in_map_iff in Hkl as (pl & <- & Hpl). cbn [fst snd].
    split; [|apply HFl; exact Hpl].
    apply in_map_iff in Hpl as (l & <- & _). discriminate.
  - rewrite <- (map_map fst (@Ok Key)). apply NoDup_map_Ok. exact Hl.
Qed.

(** A bioactivity row that the cleaner lets through has a number for its
    value and the standard unit. *)
Lemma bioactivity_row_typed b0 w b l i1 i2 :
  rectangular b0 ->
  fst (preprocess_queried_dataset b0 (Some ["standard_value"]) true true true
         (Some "nM") w) = Ok b ->
  In l (rows b) ->
  col_index "standard_value" (columns b) = Some i1 ->
  col_index "standard_units" (columns b) = Some i2 ->
  (exists f, cell i1 l = VFloat f /\ f <> S754_nan) /\ cell i2 l = VStr "nM".
Proof.
  intros Hrect H Hl Hi1 Hi2.
  apply preprocess_ok in H as (d1 & d3 & d4 & H1 & H3 & H4 & ->).
  destruct (reindex_step_len true d4) as [_ Hc5]. rewrite Hc5 in Hi1, Hi2.
  destruct (dedup_step_len _ _ _ H4) as [_ Hc4]. rewrite Hc4 in Hi1, Hi2.
  destruct (unit_step_len _ _ _ H3) as [_ Hc3]. rewrite Hc3 in Hi1, Hi2.
  apply reindex_step_rows in Hl as (r0 & Hr0 & Hcells).
  eapply dedup_step_rows in Hr0; [|exact H4].
  assert (Ecell : forall k, cell k l = cell k r0) by (intros k; unfold cell; congruence).
  rewrite !Ecell. clear Ecell Hcells l.
  unfold unit_step in H3. cbn [negb String.eqb Ascii.eqb Bool.eqb] in H3.
  rewrite Hi2 in H3. injection H3 as <-.
  unfold select_eq in Hr0. cbn [rows with_rows] in Hr0.
  apply filter_In in Hr0 as [Hr0 Hunit]. apply eq_str_true in Hunit.
  split; [|exact Hunit].
  cbn [dropna_step dropna rows with_rows columns] in Hr0, Hi1.
  apply filter_In in Hr0 as [Hr0 Hcomp].
  destruct (coerce_step_len _ _ _ H1) as [_ Hc1]. rewrite Hc1 in Hi1.
  destruct (Forall2_In_r _ _ _ _ (coerce_step_rows _ _ _ H1) Hr0)
    as (r1 & Hr1 & _ & Hlen & Hconv).
  specialize (Hconv i1 "standard_value" (col_index_nth_error _ _ _ Hi1)).
  cbn [listed existsb String.eqb Ascii.eqb Bool.eqb orb] in Hconv.
  destruct (to_float64_float _ _ Hconv) as [f Hf].
  exists f. split; [exact Hf|]. intros ->.
  assert (Hin : In (cell i1 r0) (cells r0)).
  { unfold cell. apply nth_In. rewrite Hlen.
    unfold rectangular in Hrect. rewrite List.Forall_forall in Hrect.
    rewrite (Hrect r1 Hr1). eapply col_index_lt; eauto. }
  pose proof (proj1 (complete_spec r0) Hcomp _ Hin) as Hna.
  rewrite Hf in Hna. discriminate.
Qed.

(** X16. One row per molecule, with a number and the standard unit.  In
    the table the orchestrator returns no two rows have the same
    [molecule_chembl_id] (its first column); the second cell of every
    row, the measured value, is a float that is not NaN, and the third,
    the unit, is the text "nM". *)
Theorem orchestrator_output_typed bq cq dp tn w m w' :
  get_bioactivity_compound_data bq cq dp tn w = (Ok m, w') ->
  List.NoDup (map (fun r => key_of (cell 0 r)) (rows m))
  /\ forall r, In r (rows m) ->
       (exists f, cell 1 r = VFloat f /\ f <> S754_nan) /\ cell 2 r = VStr "nM".
Proof.
  intros H.
  apply orchestrator_inv in H
    as (wa & b0 & wb & b & wc & wd & c0 & we & c1 & wf & c & wg
        & Hlb & Hb & Hlc & Hc1 & Hc & Hm).
  assert (Hbfst : fst (preprocess_queried_dataset b0 (Some ["standard_value"]) true true
                         true (Some "nM") wb) = Ok b) by (rewrite Hb; reflexivity).
  split.
  - eapply merge_step_unique; [exact Hm| |].
    + eapply cleaner_unique_ids. exact Hbfst.
    + apply cleaned_compounds_unique. exists c0, we, c1, wf.
      rewrite Hc1, Hc. auto.
  - destruct (merge_step_spec _ _ _ Hm)
      as (i & i1 & i2 & j & Hi & Hi1 & Hi2 & Hj & _ & Hrows & _).
    intros r Hr. destruct (Hrows r Hr) as (l & rc & Hl & _ & _ & Hcells).
    unfold cell at 1 2. rewrite Hcells. cbn [nth app].
    eapply bioactivity_row_typed; eauto.
    eapply loader_rectangular; eauto.
Qed.

Lemma orchestrator_output_typed_witness :
  List.NoDup (map (fun r => key_of (cell 0 r)) (rows example_merged))
  /\ cell 2 {| label := 0;
               cells := [VStr "CHEMBL1"; VFloat (float_of_Z 5); VStr "nM"; VStr "CCC"] |}
     = VStr "nM".
Proof.
  destruct (orchestrator_output_typed example_bioactivities example_compounds
              "data" "EGFR" empty_world example_merged (snd example_run)
              ltac:(vm_compute; reflexivity)) as [Hn Ht].
  split; [exact Hn|].
  apply (Ht {| label := 0;
               cells := [VStr "CHEMBL1"; VFloat (float_of_Z 5); VStr "nM"; VStr "CCC"] |}).
  left. reflexivity.
Defined.

(** ** Calls in sequence *)

(** X17. The flattener cannot be applied twice.  The table it returns
    has lost its [molecule_structures] column, so flattening that table
    again fails the assertion at the top of the function. *)
Theorem flattener_twice df w out w' w2 :
  extract_smiles_from_molecular_representation df w = (Ok out, w') ->
  extract_smiles_from_molecular_representation out w2 = (Raise AssertionError, w2).
Proof.
  rewrite !extract_steps. intros H. injection H as H _.
  destruct (col_index "molecule_structures" (columns df)) as [i|]; [|discriminate].
  apply rbind_ok in H as (d & _ & H). apply rbind_ok in H as (flat & Hflat & H).
  injection H as <-. apply smiles_step_shape in Hflat as (Hms & _ & _).
  apply has_column_col_index in Hms. cbn [dropna columns with_rows].
  rewrite Hms. reflexivity.
Qed.

Lemma flattener_twice_witness :
  extract_smiles_from_molecular_representation scenario_flattened empty_world
  = (Raise AssertionError, empty_world).
Proof.
  apply (flattener_twice scenario_compounds empty_world scenario_flattened empty_world).
  vm_compute. reflexivity.
Defined.

(** X18. Compounds that are all incomplete.  When every row of the
    compound table has a missing value, the cleaner under the compound
    policy does not fail: it returns the table without rows.  The
    flattener, called next by the orchestrator, then raises
    [IndexError] on a table that has a [molecule_structures] column,
    because it looks at the first row. *)
Theorem incomplete_compounds_stop_the_flattener c0 w c1 w1 w2 :
  has_column "molecule_structures" c0 = true ->
  (forall r, In r (rows c0) -> complete r = false) ->
  preprocess_queried_dataset c0 None true true true None w = (Ok c1, w1) ->
  rows c1 = []
  /\ extract_smiles_from_molecular_representation c1 w2 = (Raise IndexError, w2).
Proof.
  intros Hms Hinc H.
  assert (Hfst : fst (preprocess_queried_dataset c0 None true true true None w) = Ok c1)
    by (rewrite H; reflexivity).
  assert (Hrows : rows c1 = []).
  { destruct (rows c1) as [|r rs] eqn:E; [reflexivity|]. exfalso.
    destruct (cleaner_rows_from_dropna _ _ _ _ _ _ _ _ r Hfst)
      as (d1 & r0 & H1 & Hr0 & _); [rewrite E; left; reflexivity|].
    injection H1 as <-. simpl in Hr0. apply filter_In in Hr0 as [Hr0 Hc].
    rewrite (Hinc r0 Hr0) in Hc. discriminate. }
  split; [exact Hrows|].
  apply preprocess_ok in Hfst as (d1 & d3 & d4 & H1 & H3 & H4 & Hout).
  assert (Hcols : columns c1 = columns c0).
  { subst c1. destruct (reindex_step_len true d4) as [_ ->].
    destruct (dedup_step_len _ _ _ H4) as [_ ->].
    destruct (unit_step_len _ _ _ H3) as [_ ->].
    destruct (dropna_step_len true d1) as [_ ->].
    destruct (coerce_step_len _ _ _ H1) as [_ ->]. reflexivity. }
  rewrite extract_steps, Hcols.
  destruct (col_index "molecule_structures" (columns c0)) as [i|] eqn:Hi.
  - unfold parse_step, iloc0. rewrite Hrows. reflexivity.
  - apply has_column_col_index in Hi. congruence.
Qed.

Lemma incomplete_compounds_stop_the_flattener_witness :
  extract_smiles_from_molecular_representation
    {| columns := ["molecule_chembl_id"; "pref_name"; "molecule_structures"]; rows := [] |}
    empty_world
  = (Raise IndexError, empty_world).
Proof.
  apply (incomplete_compounds_stop_the_flattener unnamed_compound empty_world
           {| columns := ["molecule_chembl_id"; "pref_name"; "molecule_structures"];
              rows := [] |}
           (snd (preprocess_queried_dataset unnamed_compound None true true true None
                   empty_world))
           empty_world).
  - reflexivity.
  - intros r [<-|[]]. reflexivity.
  - vm_compute. reflexivity.
Defined.

(** X19. A failing bioactivity query stops the run.  With no cached
    bioactivities, when the bioactivity query raises, the orchestrator
    raises the same error after its first message and that one query:
    the compound query is not sent, and no file or directory is
    created. *)
Theorem orchestrator_bioactivity_failure e cq dp tn w :
  files w !! cache_path dp "bioactivities" tn = None ->
  norm_path (cache_path dp "bioactivities" tn) ∉ dirs w ->
  get_bioactivity_compound_data (Raise e) cq dp tn w
  = (Raise e,
     {| files := files w; dirs := dirs w; remote_calls := S (remote_calls w);
        stdout := stdout w ++ [PStage "1. Get and process bioactivity dataset"] |}).
Proof.
  intros Hf Hd. unfold get_bioactivity_compound_data.
  rewrite run_bind, run_print, run_bind.
  rewrite loader_miss by assumption.
  rewrite run_bind. unfold fetch_records at 1. reflexivity.
Qed.

Lemma orchestrator_bioactivity_failure_witness :
  get_bioactivity_compound_data (Raise RemoteError) example_compounds "data" "EGFR"
    empty_world
  = (Raise RemoteError,
     {| files := ∅; dirs := ∅; remote_calls := 1;
        stdout := [PStage "1. Get and process bioactivity dataset"] |}).
Proof.
  apply (orchestrator_bioactivity_failure RemoteError example_compounds "data" "EGFR"
           empty_world); [reflexivity | vm_compute; set_solver].
Defined.
